(** * Project configuration: flattening and provisioning

    A shallow embedding of [apps/backend/src/lib/projects.tsx]:
    [projectPrismaToCrud] (the read-side flattening of a loaded project graph),
    [listManagedProjectIds], and [createProject] (the provisioning
    transaction), together with the properties the specification states
    about them.

    Conventions
    - A JavaScript exception is a value of [exn]; a computation that may throw
      returns [result A].
    - Code that talks to the store runs in the monad [M], a state-and-exception
      monad over [World]; [transaction] restores the database on an exception.
    - Free-form JSON metadata is a [value]; objects are finite maps from
      property names to values.
    - Helpers imported from other modules ([typedToLowercase], [throwErr],
      [ensureSharedProvider], ...) are fields of the class [Externals]. *)

From Stdlib Require Import ZArith String Ascii Sorted Permutation OrderedTypeEx.
From stdpp Require Import base option list gmap strings pretty.

#[local] Set Warnings "-register-all".
#[local] Open Scope string_scope.
#[local] Open Scope Z_scope.
#[local] Open Scope list_scope.

(** ** Exceptions and results *)

(** The exceptions the code can raise.  [StackAssertionError] is the class the
    file constructs itself with [new StackAssertionError(msg, extra)]; the
    second constructor argument is a debugging payload and is not kept.
    [TypeError] is raised by the language (spreading a value that is not
    iterable).  [PrismaError] is a write the store rejects.  [ExternalError]
    stands for the exception classes of other modules. *)
Inductive exn : Type :=
| StackAssertionError (msg : string)
| TypeError (msg : string)
| PrismaError (code : string) (target : string)
| ExternalError (name : string) (msg : string).

Inductive result (A : Type) : Type :=
| Ok (a : A)
| Throw (e : exn).
Arguments Ok {A} a.
Arguments Throw {A} e.

Definition rbind {A B} (r : result A) (k : A → result B) : result B :=
  match r with
  | Ok a => k a
  | Throw e => Throw e
  end.

(** [array.map(f)] where [f] may throw: elements are visited left to right and
    the first exception aborts the traversal. *)
Fixpoint mapR {A B} (f : A → result B) (l : list A) : result (list B) :=
  match l with
  | [] => Ok []
  | x :: l' =>
      rbind (f x) (λ y, rbind (mapR f l') (λ ys, Ok (y :: ys)))
  end.

(** ** JavaScript values (JSON metadata)

    Numbers are kept as integers and strings as sequences of characters: the
    code never looks inside a number, and it looks inside a string only when
    it spreads one. *)

Inductive value : Type :=
| VUndefined
| VNull
| VBool (b : bool)
| VNum (n : Z)
| VStr (s : string)
| VArr (l : list value)
| VObj (m : gmap string value).

(** [typeof v] *)
Definition typeof (v : value) : string :=
  match v with
  | VUndefined => "undefined"
  | VNull => "object"
  | VBool _ => "boolean"
  | VNum _ => "number"
  | VStr _ => "string"
  | VArr _ => "object"
  | VObj _ => "object"
  end.

Definition nullish (v : value) : bool :=
  match v with
  | VUndefined | VNull => true
  | _ => false
  end.

(** [v ?? d] *)
Definition coalesce (v d : value) : value :=
  if nullish v then d else v.

(** [v?.k] for a property name [k] that no prototype defines: only an own
    property of an object yields something other than [undefined]. *)
Definition getProp (v : value) (k : string) : value :=
  match v with
  | VObj m => default VUndefined (m !! k)
  | _ => VUndefined
  end.

Definition isString (v : value) : bool :=
  match v with
  | VStr _ => true
  | _ => false
  end.

(** [Array.isArray(value) && value.every((id) => typeof id === "string")] *)
Definition isStringArray (v : value) : bool :=
  match v with
  | VArr l => forallb isString l
  | _ => false
  end.

(** The one field of [UsersCrud["Admin"]["Read"]] that
    [listManagedProjectIds] reads. *)
Record UsersCrudAdminRead : Type := {
  server_metadata : value;
}.

Definition listManagedProjectIds (projectUser : UsersCrudAdminRead) : result value :=
  let serverMetadata := server_metadata projectUser in
  if negb (String.eqb (typeof serverMetadata) "object") then
    Throw (StackAssertionError "Invalid server metadata, did something go wrong?")
  else
    let managedProjectIds :=
      coalesce (getProp serverMetadata "managedProjectIds") (VArr []) in
    if negb (isStringArray managedProjectIds) then
      Throw (StackAssertionError
               "Invalid server metadata, did something go wrong? Expected string array")
    else Ok managedProjectIds.

(** ** The loaded project graph (the Prisma payload)

    Records follow the shape selected by [fullProjectInclude].  A relation that
    may be absent ([proxiedOAuthConfig], [otpConfig], ...) is an [option]. *)

Record ProxiedOAuthProviderConfig : Type := {
  po_type : string;
}.

Record StandardOAuthProviderConfig : Type := {
  so_type : string;
  clientId : string;
  clientSecret : string;
  facebookConfigId : option string;
  microsoftTenantId : option string;
}.

Record OAuthProviderConfig : Type := {
  opc_id : string;
  proxiedOAuthConfig : option ProxiedOAuthProviderConfig;
  standardOAuthConfig : option StandardOAuthProviderConfig;
}.

Record StandardEmailServiceConfig : Type := {
  host : string;
  port : Z;
  username : string;
  password : string;
  senderEmail : string;
  senderName : string;
}.

Record EmailServiceConfig : Type := {
  proxiedEmailServiceConfig : option unit;
  standardEmailServiceConfig : option StandardEmailServiceConfig;
}.

Record ProjectDomain : Type := {
  dom_domain : string;
  handlerPath : string;
}.

Inductive TeamSystemPermission : Type :=
| UPDATE_TEAM
| DELETE_TEAM
| READ_MEMBERS
| REMOVE_MEMBERS
| INVITE_MEMBERS.

Record PermissionParentEdge : Type := {
  parentTeamSystemPermission : option TeamSystemPermission;
  parentPermissionDbId : option string;
}.

Record Permission : Type := {
  perm_dbId : string;
  perm_projectId : string;
  perm_projectConfigId : string;
  queryableId : string;
  perm_description : string;
  perm_scope : string;
  parentEdges : list PermissionParentEdge;
  isDefaultTeamCreatorPermission : bool;
  isDefaultTeamMemberPermission : bool;
}.

Record OtpAuthMethodConfig : Type := {
  contactChannelType : string;
}.

(** An auth method as loaded: the referenced provider is joined in. *)
Record AuthMethodConfig : Type := {
  amc_id : string;
  amc_enabled : bool;
  amc_oauthProviderConfig : option OAuthProviderConfig;
  otpConfig : option OtpAuthMethodConfig;
  passwordConfig : option unit;
  passkeyConfig : option unit;
}.

Record ConnectedAccountConfig : Type := {
  cac_id : string;
  cac_enabled : bool;
  cac_oauthProviderConfig : option OAuthProviderConfig;
}.

(** A project configuration with its children.  The element types of the two
    enablement tables are parameters: the store keeps rows that reference a
    provider by key, a loaded graph carries the provider itself. *)
Record ProjectConfigOf (AM CA : Type) : Type := {
  config_id : string;
  allowLocalhost : bool;
  signUpEnabled : bool;
  createTeamOnSignUp : bool;
  clientTeamCreationEnabled : bool;
  clientUserDeletionEnabled : bool;
  legacyGlobalJwtSigning : bool;
  teamCreateDefaultSystemPermissions : list TeamSystemPermission;
  teamMemberDefaultSystemPermissions : list TeamSystemPermission;
  oauthProviderConfigs : list OAuthProviderConfig;
  emailServiceConfig : option EmailServiceConfig;
  permissions : list Permission;
  authMethodConfigs : list AM;
  connectedAccountConfigs : list CA;
  domains : list ProjectDomain;
}.
Arguments config_id {AM CA} _.
Arguments allowLocalhost {AM CA} _.
Arguments signUpEnabled {AM CA} _.
Arguments createTeamOnSignUp {AM CA} _.
Arguments clientTeamCreationEnabled {AM CA} _.
Arguments clientUserDeletionEnabled {AM CA} _.
Arguments legacyGlobalJwtSigning {AM CA} _.
Arguments teamCreateDefaultSystemPermissions {AM CA} _.
Arguments teamMemberDefaultSystemPermissions {AM CA} _.
Arguments oauthProviderConfigs {AM CA} _.
Arguments emailServiceConfig {AM CA} _.
Arguments permissions {AM CA} _.
Arguments authMethodConfigs {AM CA} _.
Arguments connectedAccountConfigs {AM CA} _.
Arguments domains {AM CA} _.

Definition ProjectConfig : Type :=
  ProjectConfigOf AuthMethodConfig ConnectedAccountConfig.

(** The scalar columns of a project. *)
Record Project : Type := {
  project_id : string;
  displayName : string;
  project_description : option string;
  isProductionMode : bool;
  createdAt : Z;
  configId : string;
}.

(** [Prisma.ProjectGetPayload<{ include: typeof fullProjectInclude }>]:
    the project's columns, its configuration graph, and [_count.users].
    ([configOverride] is loaded too but never read.) *)
Record ProjectDB : Type := {
  prisma_project : Project;
  prisma_config : ProjectConfig;
  count_users : nat;
}.

(** ** The flattened API shapes *)

Inductive VariantType : Type :=
| shared
| standard.

(** An entry of [oauth_providers], in a creation request and in the view. *)
Record OAuthProviderCrud : Type := {
  op_id : string;
  op_enabled : bool;
  op_type : VariantType;
  client_id : option string;
  client_secret : option string;
  facebook_config_id : option string;
  microsoft_tenant_id : option string;
}.

(** [email_config], in a creation request and in the view. *)
Record EmailConfigCrud : Type := {
  ec_type : VariantType;
  ec_host : option string;
  ec_port : option Z;
  ec_username : option string;
  ec_password : option string;
  sender_email : option string;
  sender_name : option string;
}.

Record DomainCrud : Type := {
  domain : string;
  handler_path : string;
}.

(** [ProjectsCrud["Admin"]["Read"]["config"]].  The two default-permission
    lists hold [{ id }] objects; they are kept as the list of their ids. *)
Record ConfigRead : Type := {
  id : string;
  allow_localhost : bool;
  sign_up_enabled : bool;
  credential_enabled : bool;
  magic_link_enabled : bool;
  passkey_enabled : bool;
  create_team_on_sign_up : bool;
  client_team_creation_enabled : bool;
  client_user_deletion_enabled : bool;
  legacy_global_jwt_signing : bool;
  read_domains : list DomainCrud;
  oauth_providers : list OAuthProviderCrud;
  enabled_oauth_providers : list OAuthProviderCrud;
  email_config : EmailConfigCrud;
  team_creator_default_permissions : list string;
  team_member_default_permissions : list string;
}.

(** [ProjectsCrud["Admin"]["Read"]] *)
Record ProjectRead : Type := {
  read_id : string;
  display_name : string;
  description : string;
  created_at_millis : Z;
  user_count : nat;
  is_production_mode : bool;
  config : ConfigRead;
}.

(** What [teamPermissionDefinitionJsonFromDbType] and its system counterpart
    return; only the [id] property is read here. *)
Record TeamPermissionDefinitionJson : Type := {
  tpd_id : string;
}.

(** ** Imported helpers

    Functions and constants this file imports from other modules
    ([stack-shared] utilities, [./permissions], [./request-checks]), the
    language's [String.prototype.localeCompare], and the column defaults of
    the store's schema.  [localeCompare] is a consistent comparator, as
    [Array.prototype.sort] requires of its argument. *)
Class Externals : Type := {
  typedToLowercase : string → string;
  typedToUppercase : string → string;
  localeCompare : string → string → Z;
  localeCompare_antisym :
    ∀ a b, Z.sgn (localeCompare b a) = - Z.sgn (localeCompare a b);
  localeCompare_trans :
    ∀ a b c, localeCompare a b <= 0 → localeCompare b c <= 0 →
             localeCompare a c <= 0;
  teamPermissionDefinitionJsonFromDbType :
    Permission → TeamPermissionDefinitionJson;
  teamPermissionDefinitionJsonFromTeamSystemDbType :
    TeamSystemPermission → TeamPermissionDefinitionJson;
  (* [ensureSharedProvider(id)] returns the id or throws *)
  ensureSharedProvider : string → result string;
  ensureStandardProvider : string → result string;
  (* the exception [throwErr(message)] raises *)
  throwErr : string → exn;
  (* the successive values of [generateUuid()] and of the store's own
     identifier defaults *)
  uuidSource : nat → string;
  (* column defaults of the schema *)
  default_signUpEnabled : bool;
  default_legacyGlobalJwtSigning : bool;
  default_teamCreateDefaultSystemPermissions : list TeamSystemPermission;
  default_teamMemberDefaultSystemPermissions : list TeamSystemPermission;
  default_isDefaultTeamCreatorPermission : bool;
  default_isDefaultTeamMemberPermission : bool;
}.

(** ** [Array.prototype.sort]

    With a consistent comparator the result of [sort] is the stable sorted
    rearrangement of the array; insertion from the right computes it. *)
Fixpoint insertBy {A} (cmp : A → A → Z) (x : A) (l : list A) : list A :=
  match l with
  | [] => [x]
  | y :: l' =>
      if cmp x y <=? 0 then x :: y :: l' else y :: insertBy cmp x l'
  end.

Definition sort {A} (cmp : A → A → Z) (l : list A) : list A :=
  foldr (insertBy cmp) [] l.

(** [array.find(pred)] *)
Definition find {A} (pred : A → bool) (l : list A) : option A :=
  List.find pred l.

(** Truthiness of an object-or-null. *)
Definition truthy {A} (o : option A) : bool :=
  match o with
  | Some _ => true
  | None => false
  end.

#[global] Instance result_ret : MRet result := λ A a, Ok a.
#[global] Instance result_bind : MBind result := λ A B k r, rbind r k.

(** ** ConfigReader: [projectPrismaToCrud] *)

(** The messages of the two exactly-one-of assertions. *)
Definition providerVariantMessage (configId prismaId : string) : string :=
  "Exactly one of the provider configs should be set on provider config '"
  +:+ configId +:+ "' of project '" +:+ prismaId +:+ "'".

Definition emailVariantMessage (prismaId : string) : string :=
  "Exactly one of the email service configs should be set on project '"
  +:+ prismaId +:+ "'".

Section Reader.
Context `{Externals}.

(** The callback of the [map] over [authMethodConfigs]: [undefined] for a
    method that is not an OAuth method. *)
Definition oauthProviderOf (prismaId : string) (config : AuthMethodConfig)
  : result (option OAuthProviderCrud) :=
  match amc_oauthProviderConfig config with
  | Some providerConfig =>
      match proxiedOAuthConfig providerConfig with
      | Some proxied =>
          Ok (Some {| op_id := typedToLowercase (po_type proxied);
                      op_enabled := amc_enabled config;
                      op_type := shared;
                      client_id := None;
                      client_secret := None;
                      facebook_config_id := None;
                      microsoft_tenant_id := None |})
      | None =>
          match standardOAuthConfig providerConfig with
          | Some std =>
              Ok (Some {| op_id := typedToLowercase (so_type std);
                          op_enabled := amc_enabled config;
                          op_type := standard;
                          client_id := Some (clientId std);
                          client_secret := Some (clientSecret std);
                          facebook_config_id := facebookConfigId std;
                          microsoft_tenant_id := microsoftTenantId std |})
          | None =>
              Throw (StackAssertionError
                       (providerVariantMessage (amc_id config) prismaId))
          end
      end
  | None => Ok None
  end.

(** The immediately-invoked function that computes [email_config]. *)
Definition emailConfigOf (prismaId : string) (cfg : ProjectConfig)
  : result EmailConfigCrud :=
  match emailServiceConfig cfg with
  | None =>
      Throw (StackAssertionError
        ("Email service config should be set on project '" +:+ prismaId +:+ "'"))
  | Some emailServiceConfig =>
      match proxiedEmailServiceConfig emailServiceConfig with
      | Some _ =>
          Ok {| ec_type := shared; ec_host := None; ec_port := None;
                ec_username := None; ec_password := None;
                sender_email := None; sender_name := None |}
      | None =>
          match standardEmailServiceConfig emailServiceConfig with
          | Some standardEmailConfig =>
              Ok {| ec_type := standard;
                    ec_host := Some (host standardEmailConfig);
                    ec_port := Some (port standardEmailConfig);
                    ec_username := Some (username standardEmailConfig);
                    ec_password := Some (password standardEmailConfig);
                    sender_email := Some (senderEmail standardEmailConfig);
                    sender_name := Some (senderName standardEmailConfig) |}
          | None =>
              Throw (StackAssertionError (emailVariantMessage prismaId))
          end
      end
  end.

Definition byId (a b : OAuthProviderCrud) : Z :=
  localeCompare (op_id a) (op_id b).

Definition byDomain (a b : DomainCrud) : Z :=
  localeCompare (domain a) (domain b).

Definition byPermissionId (a b : TeamPermissionDefinitionJson) : Z :=
  localeCompare (tpd_id a) (tpd_id b).

(** The two default-permission lists share one pipeline:
    filter, map, concat, sort, map. *)
Definition defaultPermissions (flag : Permission → bool)
    (system : list TeamSystemPermission) (cfg : ProjectConfig) : list string :=
  map tpd_id
    (sort byPermissionId
       (map teamPermissionDefinitionJsonFromDbType
            (List.filter flag (permissions cfg))
        ++ map teamPermissionDefinitionJsonFromTeamSystemDbType system)).

Definition projectPrismaToCrud (prisma : ProjectDB) : result ProjectRead :=
  let prismaId := project_id (prisma_project prisma) in
  let cfg := prisma_config prisma in
  mapped ← mapR (oauthProviderOf prismaId) (authMethodConfigs cfg);
  let oauthProviders := sort byId (omap (λ provider, provider) mapped) in
  let passwordAuth :=
    find (λ config, truthy (passwordConfig config) && amc_enabled config)
         (authMethodConfigs cfg) in
  let otpAuth :=
    find (λ config, truthy (otpConfig config) && amc_enabled config)
         (authMethodConfigs cfg) in
  let passkeyAuth :=
    find (λ config, truthy (passkeyConfig config) && amc_enabled config)
         (authMethodConfigs cfg) in
  let domains :=
    sort byDomain
      (map (λ domain, {| domain := dom_domain domain;
                         handler_path := handlerPath domain |})
           (domains cfg)) in
  email ← emailConfigOf prismaId cfg;
  mret {|
    read_id := prismaId;
    display_name := displayName (prisma_project prisma);
    description := default "" (project_description (prisma_project prisma));
    created_at_millis := createdAt (prisma_project prisma);
    user_count := count_users prisma;
    is_production_mode := isProductionMode (prisma_project prisma);
    config := {|
      id := config_id cfg;
      allow_localhost := allowLocalhost cfg;
      sign_up_enabled := signUpEnabled cfg;
      credential_enabled := truthy passwordAuth;
      magic_link_enabled := truthy otpAuth;
      passkey_enabled := truthy passkeyAuth;
      create_team_on_sign_up := createTeamOnSignUp cfg;
      client_team_creation_enabled := clientTeamCreationEnabled cfg;
      client_user_deletion_enabled := clientUserDeletionEnabled cfg;
      legacy_global_jwt_signing := legacyGlobalJwtSigning cfg;
      read_domains := domains;
      oauth_providers := oauthProviders;
      enabled_oauth_providers := List.filter op_enabled oauthProviders;
      email_config := email;
      team_creator_default_permissions :=
        defaultPermissions isDefaultTeamCreatorPermission
          (teamCreateDefaultSystemPermissions cfg) cfg;
      team_member_default_permissions :=
        defaultPermissions isDefaultTeamMemberPermission
          (teamMemberDefaultSystemPermissions cfg) cfg;
    |}
  |}.

End Reader.

(** ** Creation requests: [InternalProjectsCrud["Admin"]["Create"]]

    Same structure as the view with every [config] field optional. *)
Module Create.

Record Config : Type := {
  sign_up_enabled : option bool;
  allow_localhost : option bool;
  create_team_on_sign_up : option bool;
  client_team_creation_enabled : option bool;
  client_user_deletion_enabled : option bool;
  domains : option (list DomainCrud);
  oauth_providers : option (list OAuthProviderCrud);
  email_config : option EmailConfigCrud;
  magic_link_enabled : option bool;
  credential_enabled : option bool;
  passkey_enabled : option bool;
}.

Record Project : Type := {
  display_name : string;
  description : option string;
  is_production_mode : option bool;
  config : option Config;
}.

End Create.

(** ** The store

    The Prisma client and the schema it is generated from are outside this
    file; the store is modelled from the store boundary the specification
    describes: insert, find and update per entity, unique keys, and one atomic
    transaction scope.

    Three tables: projects by id, project configurations by id (each with its
    child rows, in insertion order), and the [serverMetadata] column of project
    users by their key [(projectId, projectUserId)].  A row of an enablement
    table references its OAuth provider by the provider's id within the same
    configuration. *)

Record AuthMethodConfigRow : Type := {
  amr_id : string;
  amr_enabled : bool;
  amr_oauthProviderConfigId : option string;
  amr_otpConfig : option OtpAuthMethodConfig;
  amr_passwordConfig : option unit;
  amr_passkeyConfig : option unit;
}.

Record ConnectedAccountConfigRow : Type := {
  car_id : string;
  car_enabled : bool;
  car_oauthProviderConfigId : option string;
}.

Definition ProjectConfigRow : Type :=
  ProjectConfigOf AuthMethodConfigRow ConnectedAccountConfigRow.

(** A project user as [findUnique] returns it. *)
Record ProjectUser : Type := {
  pu_projectId : string;
  projectUserId : string;
  serverMetadata : value;
}.

Record Db : Type := {
  projects : gmap string Project;
  projectConfigs : gmap string ProjectConfigRow;
  projectUsers : gmap (string * string) value;
}.

(** The state a call runs in: the database, how many identifiers have been
    drawn, the store's clock, and what [captureError] has recorded. *)
Record World : Type := {
  db : Db;
  uuidCount : nat;
  clock : Z;
  captured : list (string * exn);
}.

Definition M (A : Type) : Type := World → result A * World.

#[global] Instance M_ret : MRet M := λ A a w, (Ok a, w).
#[global] Instance M_bind : MBind M := λ A B k m w,
  match m w with
  | (Ok a, w') => k a w'
  | (Throw e, w') => (Throw e, w')
  end.

Definition throw {A} (e : exn) : M A := λ w, (Throw e, w).

Definition liftR {A} (r : result A) : M A := λ w, (r, w).

Definition getDb : M Db := λ w, (Ok (db w), w).

Definition putDb (d : Db) : M unit := λ w,
  (Ok (), {| db := d; uuidCount := uuidCount w; clock := clock w;
             captured := captured w |}).

Definition getClock : M Z := λ w, (Ok (clock w), w).

(** Modelled from the spec: [captureError(location, error)] of the shared
    error utilities, which records a non-fatal anomaly and lets the caller
    carry on. *)
Definition captureError (location : string) (e : exn) : M unit := λ w,
  (Ok (), {| db := db w; uuidCount := uuidCount w; clock := clock w;
             captured := captured w ++ [(location, e)] |}).

(** Modelled from the spec: [prismaClient.$transaction(body)], the atomic
    transaction scope of the store.  An exception thrown by the body undoes
    every write of the body and propagates. *)
Definition transaction {A} (body : M A) : M A := λ w,
  match body w with
  | (Ok a, w') => (Ok a, w')
  | (Throw e, w') =>
      (Throw e, {| db := db w; uuidCount := uuidCount w'; clock := clock w';
                   captured := captured w' |})
  end.

(** *** Loading a project with [include: fullProjectInclude] *)

Definition loadProvider (c : ProjectConfigRow) (ref : option string)
  : option OAuthProviderConfig :=
  providerId ← ref;
  find (λ p, String.eqb (opc_id p) providerId) (oauthProviderConfigs c).

Definition loadAuthMethod (c : ProjectConfigRow) (r : AuthMethodConfigRow)
  : AuthMethodConfig :=
  {| amc_id := amr_id r;
     amc_enabled := amr_enabled r;
     amc_oauthProviderConfig := loadProvider c (amr_oauthProviderConfigId r);
     otpConfig := amr_otpConfig r;
     passwordConfig := amr_passwordConfig r;
     passkeyConfig := amr_passkeyConfig r |}.

Definition loadConnectedAccount (c : ProjectConfigRow)
    (r : ConnectedAccountConfigRow) : ConnectedAccountConfig :=
  {| cac_id := car_id r;
     cac_enabled := car_enabled r;
     cac_oauthProviderConfig := loadProvider c (car_oauthProviderConfigId r) |}.

Definition loadConfig (c : ProjectConfigRow) : ProjectConfig :=
  {| config_id := config_id c;
     allowLocalhost := allowLocalhost c;
     signUpEnabled := signUpEnabled c;
     createTeamOnSignUp := createTeamOnSignUp c;
     clientTeamCreationEnabled := clientTeamCreationEnabled c;
     clientUserDeletionEnabled := clientUserDeletionEnabled c;
     legacyGlobalJwtSigning := legacyGlobalJwtSigning c;
     teamCreateDefaultSystemPermissions := teamCreateDefaultSystemPermissions c;
     teamMemberDefaultSystemPermissions := teamMemberDefaultSystemPermissions c;
     oauthProviderConfigs := oauthProviderConfigs c;
     emailServiceConfig := emailServiceConfig c;
     permissions := permissions c;
     authMethodConfigs := map (loadAuthMethod c) (authMethodConfigs c);
     connectedAccountConfigs :=
       map (loadConnectedAccount c) (connectedAccountConfigs c);
     domains := domains c |}.

(** [_count.users]: the users related to the project. *)
Definition countUsers (d : Db) (projectId : string) : nat :=
  size (filter (λ kv, kv.1.1 = projectId) (projectUsers d)).

Definition loadProject (d : Db) (projectId : string) : option ProjectDB :=
  p ← projects d !! projectId;
  c ← projectConfigs d !! configId p;
  Some {| prisma_project := p;
          prisma_config := loadConfig c;
          count_users := countUsers d projectId |}.

(** *** Writes

    Replacing one child table of a configuration row, or one table of the
    database. *)

Definition setAuthMethodConfigs (c : ProjectConfigRow)
    (rows : list AuthMethodConfigRow) : ProjectConfigRow :=
  {| config_id := config_id c;
     allowLocalhost := allowLocalhost c;
     signUpEnabled := signUpEnabled c;
     createTeamOnSignUp := createTeamOnSignUp c;
     clientTeamCreationEnabled := clientTeamCreationEnabled c;
     clientUserDeletionEnabled := clientUserDeletionEnabled c;
     legacyGlobalJwtSigning := legacyGlobalJwtSigning c;
     teamCreateDefaultSystemPermissions := teamCreateDefaultSystemPermissions c;
     teamMemberDefaultSystemPermissions := teamMemberDefaultSystemPermissions c;
     oauthProviderConfigs := oauthProviderConfigs c;
     emailServiceConfig := emailServiceConfig c;
     permissions := permissions c;
     authMethodConfigs := rows;
     connectedAccountConfigs := connectedAccountConfigs c;
     domains := domains c |}.

Definition setConnectedAccountConfigs (c : ProjectConfigRow)
    (rows : list ConnectedAccountConfigRow) : ProjectConfigRow :=
  {| config_id := config_id c;
     allowLocalhost := allowLocalhost c;
     signUpEnabled := signUpEnabled c;
     createTeamOnSignUp := createTeamOnSignUp c;
     clientTeamCreationEnabled := clientTeamCreationEnabled c;
     clientUserDeletionEnabled := clientUserDeletionEnabled c;
     legacyGlobalJwtSigning := legacyGlobalJwtSigning c;
     teamCreateDefaultSystemPermissions := teamCreateDefaultSystemPermissions c;
     teamMemberDefaultSystemPermissions := teamMemberDefaultSystemPermissions c;
     oauthProviderConfigs := oauthProviderConfigs c;
     emailServiceConfig := emailServiceConfig c;
     permissions := permissions c;
     authMethodConfigs := authMethodConfigs c;
     connectedAccountConfigs := rows;
     domains := domains c |}.

Definition setPermissions (c : ProjectConfigRow) (rows : list Permission)
  : ProjectConfigRow :=
  {| config_id := config_id c;
     allowLocalhost := allowLocalhost c;
     signUpEnabled := signUpEnabled c;
     createTeamOnSignUp := createTeamOnSignUp c;
     clientTeamCreationEnabled := clientTeamCreationEnabled c;
     clientUserDeletionEnabled := clientUserDeletionEnabled c;
     legacyGlobalJwtSigning := legacyGlobalJwtSigning c;
     teamCreateDefaultSystemPermissions := teamCreateDefaultSystemPermissions c;
     teamMemberDefaultSystemPermissions := teamMemberDefaultSystemPermissions c;
     oauthProviderConfigs := oauthProviderConfigs c;
     emailServiceConfig := emailServiceConfig c;
     permissions := rows;
     authMethodConfigs := authMethodConfigs c;
     connectedAccountConfigs := connectedAccountConfigs c;
     domains := domains c |}.

Definition setProjectConfigs (d : Db) (cs : gmap string ProjectConfigRow) : Db :=
  {| projects := projects d; projectConfigs := cs;
     projectUsers := projectUsers d |}.

Definition setProjectUsers (d : Db) (us : gmap (string * string) value)
  : Db :=
  {| projects := projects d; projectConfigs := projectConfigs d;
     projectUsers := us |}.

(** The [data] of [tx.project.create], once its expressions are evaluated. *)
Record ProjectCreateInput : Type := {
  pci_id : string;
  pci_displayName : string;
  pci_description : option string;
  pci_isProductionMode : bool;
  pci_signUpEnabled : option bool;
  pci_allowLocalhost : bool;
  pci_createTeamOnSignUp : bool;
  pci_clientTeamCreationEnabled : bool;
  pci_clientUserDeletionEnabled : bool;
  pci_domains : option (list ProjectDomain);
  pci_oauthProviderConfigs : option (list OAuthProviderConfig);
  pci_emailServiceConfig : EmailServiceConfig;
}.

(** An element of [authMethodConfigs: { create: [...] }]. *)
Record AuthMethodCreateInput : Type := {
  amci_enabled : bool;
  (* [connect: { projectConfigId_id: { projectConfigId, id } }] *)
  amci_connect : option (string * string);
  amci_otpConfig : option OtpAuthMethodConfig;
  amci_passwordConfig : option unit;
  amci_passkeyConfig : option unit;
}.

(** An element of [connectedAccountConfigs: { create: [...] }]. *)
Record ConnectedAccountCreateInput : Type := {
  caci_enabled : bool;
  caci_connect : string * string;
}.

(** The [data] of [tx.permission.create]. *)
Record PermissionCreateInput : Type := {
  pmi_projectId : string;
  pmi_projectConfigId : string;
  pmi_queryableId : string;
  pmi_description : string;
  pmi_scope : string;
  pmi_parentEdges : list TeamSystemPermission;
  pmi_isDefaultTeamCreatorPermission : option bool;
  pmi_isDefaultTeamMemberPermission : option bool;
}.

Section Store.
Context `{Externals}.

(** Modelled from the spec: a fresh identifier, as [generateUuid()] or an
    identifier column's default produces. *)
Definition generateUuid : M string := λ w,
  (Ok (uuidSource (uuidCount w)),
   {| db := db w; uuidCount := S (uuidCount w); clock := clock w;
      captured := captured w |}).

(** The rows [tx.project.create] inserts: columns the call leaves out take
    their defaults, the child tables it does not mention start empty. *)
Definition projectRowOf (data : ProjectCreateInput) (now : Z)
    (newConfigId : string) : Project :=
  {| project_id := pci_id data;
     displayName := pci_displayName data;
     project_description := pci_description data;
     isProductionMode := pci_isProductionMode data;
     createdAt := now;
     configId := newConfigId |}.

Definition configRowOf (data : ProjectCreateInput) (newConfigId : string)
  : ProjectConfigRow :=
  {| config_id := newConfigId;
     allowLocalhost := pci_allowLocalhost data;
     signUpEnabled := default default_signUpEnabled (pci_signUpEnabled data);
     createTeamOnSignUp := pci_createTeamOnSignUp data;
     clientTeamCreationEnabled := pci_clientTeamCreationEnabled data;
     clientUserDeletionEnabled := pci_clientUserDeletionEnabled data;
     legacyGlobalJwtSigning := default_legacyGlobalJwtSigning;
     teamCreateDefaultSystemPermissions :=
       default_teamCreateDefaultSystemPermissions;
     teamMemberDefaultSystemPermissions :=
       default_teamMemberDefaultSystemPermissions;
     oauthProviderConfigs := default [] (pci_oauthProviderConfigs data);
     emailServiceConfig := Some (pci_emailServiceConfig data);
     permissions := [];
     authMethodConfigs := [];
     connectedAccountConfigs := [];
     domains := default [] (pci_domains data) |}.

(** Modelled from the spec: [tx.project.create({ data, include:
    fullProjectInclude })].  The store enforces the primary keys of projects
    and configurations and the per-configuration uniqueness of provider ids
    (the key [projectConfigId_id] that [connect] uses) and of domains. *)
Definition tx_project_create (data : ProjectCreateInput) : M ProjectDB :=
  newConfigId ← generateUuid;
  now ← getClock;
  d ← getDb;
  let p := projectRowOf data now newConfigId in
  let c := configRowOf data newConfigId in
  if bool_decide (is_Some (projects d !! pci_id data)) then
    throw (PrismaError "P2002" "Project.id")
  else if bool_decide (is_Some (projectConfigs d !! newConfigId)) then
    throw (PrismaError "P2002" "ProjectConfig.id")
  else if negb (bool_decide (NoDup (map opc_id (oauthProviderConfigs c)))) then
    throw (PrismaError "P2002" "OAuthProviderConfig.projectConfigId_id")
  else if negb (bool_decide (NoDup (map dom_domain (domains c)))) then
    throw (PrismaError "P2002" "ProjectDomain.projectConfigId_domain")
  else
    putDb {| projects := <[pci_id data := p]> (projects d);
             projectConfigs := <[newConfigId := c]> (projectConfigs d);
             projectUsers := projectUsers d |};;
    mret {| prisma_project := p;
            prisma_config := loadConfig c;
            count_users := countUsers d (pci_id data) |}.

(** Does [connect] name a provider of configuration [c]? *)
Definition connectable (c : ProjectConfigRow) (target : string * string) : bool :=
  String.eqb target.1 (config_id c)
  && truthy (loadProvider c (Some target.2)).

Definition authMethodRow (first : nat) (i : nat) (input : AuthMethodCreateInput)
  : AuthMethodConfigRow :=
  {| amr_id := uuidSource (first + i);
     amr_enabled := amci_enabled input;
     amr_oauthProviderConfigId := snd <$> amci_connect input;
     amr_otpConfig := amci_otpConfig input;
     amr_passwordConfig := amci_passwordConfig input;
     amr_passkeyConfig := amci_passkeyConfig input |}.

Definition connectedAccountRow (first : nat) (i : nat)
    (input : ConnectedAccountCreateInput) : ConnectedAccountConfigRow :=
  {| car_id := uuidSource (first + i);
     car_enabled := caci_enabled input;
     car_oauthProviderConfigId := Some (caci_connect input).2 |}.

(** Drawing [n] identifiers at once for the rows of a nested [create]. *)
Definition reserveUuids (n : nat) : M nat := λ w,
  (Ok (uuidCount w),
   {| db := db w; uuidCount := (uuidCount w + n)%nat; clock := clock w;
      captured := captured w |}).

(** Modelled from the spec: [tx.projectConfig.update({ where: { id }, data:
    { authMethodConfigs: { create } } })].  Each new row gets an identifier;
    a [connect] must name an existing provider of the configuration. *)
Definition tx_projectConfig_update_authMethodConfigs (whereId : string)
    (create : list AuthMethodCreateInput) : M unit :=
  d ← getDb;
  match projectConfigs d !! whereId with
  | None => throw (PrismaError "P2025" "ProjectConfig")
  | Some c =>
      if negb (forallb (λ input, from_option (connectable c) true
                                   (amci_connect input)) create) then
        throw (PrismaError "P2025" "OAuthProviderConfig")
      else
        first ← reserveUuids (length create);
        putDb (setProjectConfigs d
                 (<[whereId := setAuthMethodConfigs c
                      (authMethodConfigs c ++ imap (authMethodRow first) create)]>
                    (projectConfigs d)))
  end.

(** Modelled from the spec: [tx.projectConfig.update({ where: { id }, data:
    { connectedAccountConfigs } })]; [undefined] leaves the table alone. *)
Definition tx_projectConfig_update_connectedAccountConfigs (whereId : string)
    (create : option (list ConnectedAccountCreateInput)) : M unit :=
  d ← getDb;
  match projectConfigs d !! whereId with
  | None => throw (PrismaError "P2025" "ProjectConfig")
  | Some c =>
      let create := default [] create in
      if negb (forallb (λ input, connectable c (caci_connect input)) create) then
        throw (PrismaError "P2025" "OAuthProviderConfig")
      else
        first ← reserveUuids (length create);
        putDb (setProjectConfigs d
                 (<[whereId := setConnectedAccountConfigs c
                      (connectedAccountConfigs c
                       ++ imap (connectedAccountRow first) create)]>
                    (projectConfigs d)))
  end.

Definition permissionRowOf (dbId : string) (data : PermissionCreateInput)
  : Permission :=
  {| perm_dbId := dbId;
     perm_projectId := pmi_projectId data;
     perm_projectConfigId := pmi_projectConfigId data;
     queryableId := pmi_queryableId data;
     perm_description := pmi_description data;
     perm_scope := pmi_scope data;
     parentEdges :=
       map (λ p, {| parentTeamSystemPermission := Some p;
                    parentPermissionDbId := None |})
           (pmi_parentEdges data);
     isDefaultTeamCreatorPermission :=
       default default_isDefaultTeamCreatorPermission
               (pmi_isDefaultTeamCreatorPermission data);
     isDefaultTeamMemberPermission :=
       default default_isDefaultTeamMemberPermission
               (pmi_isDefaultTeamMemberPermission data) |}.

(** Modelled from the spec: [tx.permission.create({ data })]; the row is
    appended to the permissions of its configuration. *)
Definition tx_permission_create (data : PermissionCreateInput) : M unit :=
  dbId ← generateUuid;
  d ← getDb;
  match projects d !! pmi_projectId data,
        projectConfigs d !! pmi_projectConfigId data with
  | Some _, Some c =>
      putDb (setProjectConfigs d
               (<[pmi_projectConfigId data :=
                    setPermissions c
                      (permissions c ++ [permissionRowOf dbId data])]>
                  (projectConfigs d)))
  | _, _ => throw (PrismaError "P2003" "Permission")
  end.

(** Modelled from the spec:
    [tx.projectUser.findUnique({ where: { projectId_projectUserId } })] *)
Definition tx_projectUser_findUnique (projectId userId : string)
  : M (option ProjectUser) :=
  d ← getDb;
  mret (metadata ← projectUsers d !! (projectId, userId);
        Some {| pu_projectId := projectId;
                projectUserId := userId;
                serverMetadata := metadata |}).

(** Modelled from the spec:
    [tx.projectUser.update({ where, data: { serverMetadata } })] *)
Definition tx_projectUser_update (projectId userId : string)
    (newServerMetadata : value) : M unit :=
  d ← getDb;
  match projectUsers d !! (projectId, userId) with
  | None => throw (PrismaError "P2025" "ProjectUser")
  | Some _ =>
      putDb (setProjectUsers d
               (<[(projectId, userId) := newServerMetadata]> (projectUsers d)))
  end.

(** Modelled from the spec:
    [tx.project.findUnique({ where: { id }, include: fullProjectInclude })] *)
Definition tx_project_findUnique (projectId : string) : M (option ProjectDB) :=
  d ← getDb;
  mret (loadProject d projectId).

End Store.

(** ** ConfigProvisioner: [createProject] *)

Section Provisioner.
Context `{Externals}.

(** [x ?? throwErr(message)] *)
Definition orThrow {A} (x : option A) (message : string) : result A :=
  match x with
  | Some a => Ok a
  | None => Throw (throwErr message)
  end.

(** [data.config?.field] *)
Definition configField {A} (data : Create.Project)
    (field : Create.Config → option A) : option A :=
  c ← Create.config data; field c.

(** One element of [oauthProviderConfigs: { create: [...] }]. *)
Definition oauthProviderCreate (item : OAuthProviderCrud)
  : result OAuthProviderConfig :=
  proxied ← match op_type item with
            | shared =>
                providerId ← ensureSharedProvider (op_id item);
                mret (Some {| po_type := typedToUppercase providerId |})
            | standard => mret None
            end;
  std ← match op_type item with
        | standard =>
            providerId ← ensureStandardProvider (op_id item);
            clientId ← orThrow (client_id item) "client_id is required";
            clientSecret ← orThrow (client_secret item) "client_secret is required";
            mret (Some {| so_type := typedToUppercase providerId;
                          clientId := clientId;
                          clientSecret := clientSecret;
                          facebookConfigId := facebook_config_id item;
                          microsoftTenantId := microsoft_tenant_id item |})
        | shared => mret None
        end;
  mret {| opc_id := op_id item;
          proxiedOAuthConfig := proxied;
          standardOAuthConfig := std |}.

Definition oauthProviderCreates (data : Create.Project)
  : result (option (list OAuthProviderConfig)) :=
  match configField data Create.oauth_providers with
  | Some items => created ← mapR oauthProviderCreate items; mret (Some created)
  | None => mret None
  end.

(** [emailServiceConfig: data.config?.email_config ? { create: ... } : { create:
    { proxiedEmailServiceConfig: { create: {} } } }] *)
Definition emailServiceCreate (data : Create.Project)
  : result EmailServiceConfig :=
  match configField data Create.email_config with
  | Some email_config =>
      let proxied := match ec_type email_config with
                     | shared => Some ()
                     | standard => None
                     end in
      std ← match ec_type email_config with
            | standard =>
                host ← orThrow (ec_host email_config) "host is required";
                port ← orThrow (ec_port email_config) "port is required";
                username ← orThrow (ec_username email_config) "username is required";
                password ← orThrow (ec_password email_config) "password is required";
                senderEmail ← orThrow (sender_email email_config) "sender_email is required";
                senderName ← orThrow (sender_name email_config) "sender_name is required";
                mret (Some {| host := host; port := port;
                              username := username; password := password;
                              senderEmail := senderEmail;
                              senderName := senderName |})
            | shared => mret None
            end;
      mret {| proxiedEmailServiceConfig := proxied;
              standardEmailServiceConfig := std |}
  | None =>
      mret {| proxiedEmailServiceConfig := Some ();
              standardEmailServiceConfig := None |}
  end.

(** [(data.config?.oauth_providers?.find(p => p.id === item.id)
      ?? throwErr("oauth provider not found")).enabled] *)
Definition requestedEnabled (data : Create.Project) (item : OAuthProviderConfig)
  : result bool :=
  p ← orThrow (items ← configField data Create.oauth_providers;
               find (λ p, String.eqb (op_id p) (opc_id item)) items)
              "oauth provider not found";
  mret (op_enabled p).

(** The array literal passed as [authMethodConfigs: { create: [...] }]. *)
Definition authMethodCreates (data : Create.Project) (project : ProjectDB)
  : result (list AuthMethodCreateInput) :=
  oauth ← (if truthy (configField data Create.oauth_providers) then
             mapR (λ item,
                     enabled ← requestedEnabled data item;
                     mret {| amci_enabled := enabled;
                             amci_connect :=
                               Some (config_id (prisma_config project),
                                     opc_id item);
                             amci_otpConfig := None;
                             amci_passwordConfig := None;
                             amci_passkeyConfig := None |})
                  (oauthProviderConfigs (prisma_config project))
           else mret []);
  let otp :=
    if default false (configField data Create.magic_link_enabled) then
      [ {| amci_enabled := true; amci_connect := None;
           amci_otpConfig := Some {| contactChannelType := "EMAIL" |};
           amci_passwordConfig := None; amci_passkeyConfig := None |} ]
    else [] in
  let password :=
    if default true (configField data Create.credential_enabled) then
      [ {| amci_enabled := true; amci_connect := None;
           amci_otpConfig := None;
           amci_passwordConfig := Some (); amci_passkeyConfig := None |} ]
    else [] in
  let passkey :=
    if default false (configField data Create.passkey_enabled) then
      [ {| amci_enabled := true; amci_connect := None;
           amci_otpConfig := None;
           amci_passwordConfig := None; amci_passkeyConfig := Some () |} ]
    else [] in
  mret (oauth ++ otp ++ password ++ passkey).

(** The value passed as [connectedAccountConfigs]. *)
Definition connectedAccountCreates (data : Create.Project) (project : ProjectDB)
  : result (option (list ConnectedAccountCreateInput)) :=
  if truthy (configField data Create.oauth_providers) then
    create ← mapR (λ item,
                     enabled ← requestedEnabled data item;
                     mret {| caci_enabled := enabled;
                             caci_connect :=
                               (config_id (prisma_config project),
                                opc_id item) |})
                  (oauthProviderConfigs (prisma_config project));
    mret (Some create)
  else mret None.

(** PermissionSeeder: the two [tx.permission.create] payloads. *)
Definition memberPermission (projectId projectConfigId : string)
  : PermissionCreateInput :=
  {| pmi_projectId := projectId;
     pmi_projectConfigId := projectConfigId;
     pmi_queryableId := "member";
     pmi_description := "Default permission for team members";
     pmi_scope := "TEAM";
     pmi_parentEdges := [READ_MEMBERS; INVITE_MEMBERS];
     pmi_isDefaultTeamCreatorPermission := None;
     pmi_isDefaultTeamMemberPermission := Some true |}.

Definition adminPermission (projectId projectConfigId : string)
  : PermissionCreateInput :=
  {| pmi_projectId := projectId;
     pmi_projectConfigId := projectConfigId;
     pmi_queryableId := "admin";
     pmi_description := "Default permission for team creators";
     pmi_scope := "TEAM";
     pmi_parentEdges :=
       [UPDATE_TEAM; DELETE_TEAM; READ_MEMBERS; REMOVE_MEMBERS; INVITE_MEMBERS];
     pmi_isDefaultTeamCreatorPermission := Some true;
     pmi_isDefaultTeamMemberPermission := None |}.

(** [[...v]]: the elements of an array, the characters of a string; anything
    else is not iterable. *)
Definition spreadArray (v : value) : result (list value) :=
  match v with
  | VArr l => Ok l
  | VStr s => Ok (map (λ c, VStr (String c EmptyString)) (list_ascii_of_string s))
  | _ => Throw (TypeError "Spread syntax requires ...iterable[Symbol.iterator] to be a function")
  end.

Definition indexed (l : list value) : gmap string value :=
  list_to_map (imap (λ i v, (pretty i, v)) l).

(** [{...v}]: the own enumerable properties of [v]. *)
Definition spreadObject (v : value) : gmap string value :=
  match v with
  | VObj m => m
  | VArr l => indexed l
  | VStr s =>
      indexed (map (λ c, VStr (String c EmptyString)) (list_ascii_of_string s))
  | _ => ∅
  end.

(** The [serverMetadata] written for an owner whose current metadata is
    [current]. *)
Definition mergeManagedProjectId (current : value) (newProjectId : string)
  : result value :=
  let serverMetadataTx := coalesce current (VObj ∅) in
  managed ← spreadArray
              (coalesce (getProp serverMetadataTx "managedProjectIds") (VArr []));
  mret (VObj (<["managedProjectIds" := VArr (managed ++ [VStr newProjectId])]>
                (spreadObject (coalesce serverMetadataTx (VObj ∅))))).

Definition ownerNotFound (userId : string) : exn :=
  StackAssertionError
    ("Attempted to create project, but owner user ID " +:+ userId +:+
     " not found. Did they delete their account? Continuing silently, but if the user is coming from an owner pack you should probably update it.").

(** OwnerLinker: the [for (const userId of ownerIds)] loop. *)
Fixpoint linkOwners (ownerIds : list string) (newProjectId : string) : M unit :=
  match ownerIds with
  | [] => mret ()
  | userId :: rest =>
      projectUserTx ← tx_projectUser_findUnique "internal" userId;
      match projectUserTx with
      | None =>
          captureError "project-creation-owner-not-found" (ownerNotFound userId);;
          linkOwners rest newProjectId
      | Some projectUserTx =>
          merged ← liftR (mergeManagedProjectId (serverMetadata projectUserTx)
                                                newProjectId);
          tx_projectUser_update "internal" (projectUserId projectUserTx) merged;;
          linkOwners rest newProjectId
      end
  end.

(** The [data] argument of [tx.project.create], given the identifier drawn
    for the project and the evaluated provider and email sub-records. *)
Definition projectCreateInput (data : Create.Project) (newId : string)
    (providers : option (list OAuthProviderConfig)) (email : EmailServiceConfig)
  : ProjectCreateInput :=
  {| pci_id := newId;
     pci_displayName := Create.display_name data;
     pci_description := Create.description data;
     pci_isProductionMode := default false (Create.is_production_mode data);
     pci_signUpEnabled := configField data Create.sign_up_enabled;
     pci_allowLocalhost :=
       default true (configField data Create.allow_localhost);
     pci_createTeamOnSignUp :=
       default false (configField data Create.create_team_on_sign_up);
     pci_clientTeamCreationEnabled :=
       default false (configField data Create.client_team_creation_enabled);
     pci_clientUserDeletionEnabled :=
       default false (configField data Create.client_user_deletion_enabled);
     pci_domains :=
       items ← configField data Create.domains;
       Some (map (λ item, {| dom_domain := domain item;
                             handlerPath := handler_path item |}) items);
     pci_oauthProviderConfigs := providers;
     pci_emailServiceConfig := email |}.

(** The body of the transaction up to the owner loop: the project with its
    configuration, the enablement rows, the two seeded permissions. *)
Definition provisionGraph (data : Create.Project) : M ProjectDB :=
  newId ← generateUuid;
  providers ← liftR (oauthProviderCreates data);
  email ← liftR (emailServiceCreate data);
  project ← tx_project_create (projectCreateInput data newId providers email);
  let projectId := project_id (prisma_project project) in
  let projectConfigId := config_id (prisma_config project) in
  authMethods ← liftR (authMethodCreates data project);
  tx_projectConfig_update_authMethodConfigs projectConfigId authMethods;;
  connectedAccounts ← liftR (connectedAccountCreates data project);
  tx_projectConfig_update_connectedAccountConfigs projectConfigId
    connectedAccounts;;
  tx_permission_create (memberPermission projectId projectConfigId);;
  tx_permission_create (adminPermission projectId projectConfigId);;
  mret project.

(** The end of the transaction: the project is read back. *)
Definition reloadProject (projectId : string) : M ProjectDB :=
  result ← tx_project_findUnique projectId;
  match result with
  | None =>
      throw (StackAssertionError
               ("Project with id '" +:+ projectId +:+ "' not found after creation"))
  | Some result => mret result
  end.

(** The body of the transaction. *)
Definition createProjectTx (ownerIds : list string) (data : Create.Project)
  : M ProjectDB :=
  project ← provisionGraph data;
  linkOwners ownerIds (project_id (prisma_project project));;
  reloadProject (project_id (prisma_project project)).

Definition createProject (ownerIds : list string) (data : Create.Project)
  : M ProjectRead :=
  result ← transaction (createProjectTx ownerIds data);
  liftR (projectPrismaToCrud result).

End Provisioner.

(** * Properties *)

(** ** Sorting *)

Section Sorting.
Context {A : Type} (cmp : A → A → Z).
Hypothesis cmp_antisym : ∀ a b, Z.sgn (cmp b a) = - Z.sgn (cmp a b).
Hypothesis cmp_trans : ∀ a b c, cmp a b <= 0 → cmp b c <= 0 → cmp a c <= 0.

Definition ascending (a b : A) : Prop := cmp a b <= 0.

Lemma ascending_flip a b : ¬ ascending a b → ascending b a.
Proof.
  unfold ascending. intros Hab. specialize (cmp_antisym a b). lia.
Qed.

Lemma insertBy_HdRel a x l :
  ascending a x → HdRel ascending a l → HdRel ascending a (insertBy cmp x l).
Proof.
  intros Hax Hal. destruct l as [|y l]; simpl.
  - by constructor.
  - destruct (cmp x y <=? 0); constructor; [done|]. by inversion Hal.
Qed.

Lemma insertBy_Sorted x l :
  Sorted ascending l → Sorted ascending (insertBy cmp x l).
Proof.
  induction 1 as [|y l Hl IH Hhd]; simpl.
  - repeat constructor.
  - destruct (Z.leb_spec (cmp x y) 0) as [Hxy|Hxy].
    + constructor; [by constructor|by constructor].
    + constructor; [done|].
      apply insertBy_HdRel; [|done]. apply ascending_flip. unfold ascending. lia.
Qed.

Lemma sort_Sorted l : Sorted ascending (sort cmp l).
Proof.
  induction l as [|x l IH]; simpl; [constructor|]. by apply insertBy_Sorted.
Qed.

Lemma sort_StronglySorted l : StronglySorted ascending (sort cmp l).
Proof.
  apply Sorted_StronglySorted; [|apply sort_Sorted].
  intros a b c. apply cmp_trans.
Qed.

Lemma insertBy_Permutation x l : insertBy cmp x l ≡ₚ x :: l.
Proof.
  induction l as [|y l IH]; simpl; [done|].
  destruct (cmp x y <=? 0); [done|]. rewrite IH. apply perm_swap.
Qed.

Lemma sort_Permutation l : sort cmp l ≡ₚ l.
Proof.
  induction l as [|x l IH]; simpl; [done|].
  by rewrite insertBy_Permutation, IH.
Qed.

End Sorting.

Lemma StronglySorted_map {A B} (f : A → B) (R : B → B → Prop) l :
  StronglySorted (λ a b, R (f a) (f b)) l → StronglySorted R (map f l).
Proof.
  induction 1 as [|a l Hl IH Hall]; simpl; constructor; [done|].
  by apply Forall_fmap.
Qed.

Lemma StronglySorted_keep {A} (R : A → A → Prop) (keep : A → bool) l :
  StronglySorted R l → StronglySorted R (List.filter keep l).
Proof.
  induction 1 as [|a l Hl IH Hall]; simpl; [constructor|].
  destruct (keep a); [|done]. constructor; [done|].
  apply List.Forall_forall. intros b Hb. apply List.filter_In in Hb as [Hb _].
  by eapply List.Forall_forall in Hall.
Qed.

(** ** Results of [mapR] *)

Lemma mapR_Ok_Forall2 {A B} (f : A → result B) l ys :
  mapR f l = Ok ys → Forall2 (λ x y, f x = Ok y) l ys.
Proof.
  revert ys. induction l as [|x l IH]; simpl; intros ys Hys.
  - injection Hys as <-. constructor.
  - destruct (f x) as [y|e] eqn:Hx; simpl in Hys; [|done].
    destruct (mapR f l) as [ys'|e]; simpl in Hys; [|done].
    injection Hys as <-. constructor; [done|]. by apply IH.
Qed.

(** The traversal throws as soon as the callback does: if the callback throws
    on some element, the traversal throws what the callback throws on the
    first such element. *)
Lemma mapR_Throw {A B} (f : A → result B) l x e :
  x ∈ l → f x = Throw e →
  ∃ x' e', x' ∈ l ∧ f x' = Throw e' ∧ mapR f l = Throw e'.
Proof.
  induction l as [|y l IH]; intros Hin Hx; [by apply elem_of_nil in Hin|].
  simpl. destruct (f y) as [b|e0] eqn:Hy.
  - apply elem_of_cons in Hin as [->|Hin]; [congruence|].
    destruct (IH Hin Hx) as (x' & e' & Hin' & Hx' & Hmap).
    exists x', e'. split_and!; [by right|done|]. by rewrite Hmap.
  - exists y, e0. split_and!; [by left|done|done].
Qed.

Lemma mapR_Throw_inv {A B} (f : A → result B) l e :
  mapR f l = Throw e → ∃ x, x ∈ l ∧ f x = Throw e.
Proof.
  induction l as [|y l IH]; simpl; [done|].
  destruct (f y) as [b|e0] eqn:Hy; simpl.
  - destruct (mapR f l) as [ys|e1]; simpl; [done|].
    intros [= ->]. destruct IH as (x & Hin & Hx); [done|].
    exists x. split; [by right|done].
  - intros [= ->]. exists y. split; [by left|done].
Qed.

(** The traversal throws exactly what the callback throws on the first
    element on which it throws. *)
Lemma mapR_Throw_first {A B} (f : A → result B) l e :
  mapR f l = Throw e ↔
  ∃ before x after,
    l = before ++ x :: after
    ∧ (∀ c, c ∈ before → ∃ y, f c = Ok y)
    ∧ f x = Throw e.
Proof.
  split.
  - induction l as [|y l IH]; simpl; [done|].
    destruct (f y) as [b|e0] eqn:Hy; simpl.
    + destruct (mapR f l) as [ys|e1]; simpl; [done|].
      intros [= ->]. destruct IH as (before & x & after & -> & Hbefore & Hx);
        [done|].
      exists (y :: before), x, after. split_and!; [done| |done].
      intros c Hc. apply elem_of_cons in Hc as [->|Hc]; [by eexists|].
      by apply Hbefore.
    + intros [= ->]. exists [], y, l. split_and!; [done| |done].
      intros c Hc. by apply elem_of_nil in Hc.
  - intros (before & x & after & -> & Hbefore & Hx).
    induction before as [|c before IH]; simpl.
    + by rewrite Hx.
    + destruct (Hbefore c) as [y ->]; [by left|]. simpl.
      rewrite IH; [done|]. intros c' Hc'. apply Hbefore. by right.
Qed.

(** ** A concrete environment

    ASCII case mapping, comparison by character code, an allowlist of three
    providers, [throwErr] raising an exception of its own, and column defaults
    that switch sign-up on and everything else off.  It shows that the assumptions collected in
    [Externals] can be met, and the examples below run in it. *)

Definition lowerAscii (c : ascii) : ascii :=
  let n := nat_of_ascii c in
  if ((65 <=? n) && (n <=? 90))%nat then ascii_of_nat (n + 32) else c.

Definition upperAscii (c : ascii) : ascii :=
  let n := nat_of_ascii c in
  if ((97 <=? n) && (n <=? 122))%nat then ascii_of_nat (n - 32) else c.

Fixpoint mapString (f : ascii → ascii) (s : string) : string :=
  match s with
  | EmptyString => EmptyString
  | String c s' => String (f c) (mapString f s')
  end.

Definition codeCompare (a b : string) : Z :=
  match String_as_OT.cmp a b with
  | Lt => -1
  | Eq => 0
  | Gt => 1
  end.

Lemma codeCompare_antisym a b :
  Z.sgn (codeCompare b a) = - Z.sgn (codeCompare a b).
Proof.
  unfold codeCompare. rewrite (String_as_OT.cmp_antisym b a).
  by destruct (String_as_OT.cmp a b).
Qed.

Lemma codeCompare_trans a b c :
  codeCompare a b <= 0 → codeCompare b c <= 0 → codeCompare a c <= 0.
Proof.
  unfold codeCompare.
  destruct (String_as_OT.cmp a b) eqn:Hab; [| |lia].
  - apply String_as_OT.cmp_eq in Hab as ->. done.
  - destruct (String_as_OT.cmp b c) eqn:Hbc; [| |lia]; intros _ _.
    + apply String_as_OT.cmp_eq in Hbc as <-. by rewrite Hab.
    + apply String_as_OT.cmp_lt in Hab, Hbc.
      pose proof (String_as_OT.lt_trans _ _ _ Hab Hbc) as Hac.
      apply String_as_OT.cmp_lt in Hac. by rewrite Hac.
Qed.

Definition allowlisted (ids : list string) (kind providerId : string)
  : result string :=
  if bool_decide (providerId ∈ ids) then Ok providerId
  else Throw (ExternalError kind providerId).

Definition systemPermissionId (p : TeamSystemPermission) : string :=
  match p with
  | UPDATE_TEAM => "$update_team"
  | DELETE_TEAM => "$delete_team"
  | READ_MEMBERS => "$read_members"
  | REMOVE_MEMBERS => "$remove_members"
  | INVITE_MEMBERS => "$invite_members"
  end.

Definition sampleEnv : Externals :=
  {| typedToLowercase := mapString lowerAscii;
     typedToUppercase := mapString upperAscii;
     localeCompare := codeCompare;
     localeCompare_antisym := codeCompare_antisym;
     localeCompare_trans := codeCompare_trans;
     teamPermissionDefinitionJsonFromDbType :=
       λ p, {| tpd_id := queryableId p |};
     teamPermissionDefinitionJsonFromTeamSystemDbType :=
       λ p, {| tpd_id := systemPermissionId p |};
     ensureSharedProvider :=
       allowlisted ["github"; "google"; "microsoft"] "InvalidSharedOAuthProviderId";
     ensureStandardProvider :=
       allowlisted ["github"; "google"; "microsoft"] "InvalidStandardOAuthProviderId";
     throwErr := ExternalError "throwErr";
     uuidSource := λ n, "uuid-" +:+ pretty n;
     default_signUpEnabled := true;
     default_legacyGlobalJwtSigning := false;
     default_teamCreateDefaultSystemPermissions := [];
     default_teamMemberDefaultSystemPermissions := [];
     default_isDefaultTeamCreatorPermission := false;
     default_isDefaultTeamMemberPermission := false |}.

(** ** [listManagedProjectIds] *)

Definition invalidMetadata : exn :=
  StackAssertionError "Invalid server metadata, did something go wrong?".

Definition invalidManagedProjectIds : exn :=
  StackAssertionError
    "Invalid server metadata, did something go wrong? Expected string array".

(** C10 fails as stated.  A [managedProjectIds] property that is present with
    the value [null] is not an array of strings, yet the call returns the
    empty list and does not throw. *)
Lemma listManagedProjectIds_null_property :
  let metadata : gmap string value := {[ "managedProjectIds" := VNull ]} in
  metadata !! "managedProjectIds" = Some VNull
  ∧ isStringArray VNull = false
  ∧ listManagedProjectIds {| server_metadata := VObj metadata |} = Ok (VArr []).
Proof. vm_compute. done. Qed.

(** C10 (as amended).  [listManagedProjectIds] returns the empty list when
    [server_metadata] is [null], or is an object (or array) whose
    [managedProjectIds] is missing or nullish; it returns the list itself when
    that property is an array of strings; it throws a [StackAssertionError]
    when [typeof server_metadata] is not ["object"] (a string, a number, a
    boolean, [undefined]), and when [managedProjectIds] is neither nullish nor
    an array of strings. *)
Theorem listManagedProjectIds_cases (user : UsersCrudAdminRead) :
  let md := server_metadata user in
  let ids := getProp md "managedProjectIds" in
  (md = VNull → listManagedProjectIds user = Ok (VArr []))
  ∧ (typeof md = "object" → nullish ids = true →
     listManagedProjectIds user = Ok (VArr []))
  ∧ (typeof md = "object" → isStringArray ids = true →
     listManagedProjectIds user = Ok ids)
  ∧ (typeof md ≠ "object" → listManagedProjectIds user = Throw invalidMetadata)
  ∧ (typeof md = "object" → nullish ids = false → isStringArray ids = false →
     listManagedProjectIds user = Throw invalidManagedProjectIds).
Proof.
  destruct user as [md]. unfold listManagedProjectIds. simpl.
  split_and!.
  - by intros ->.
  - intros -> Hn. simpl. unfold coalesce. by rewrite Hn.
  - intros -> Hs. simpl. unfold coalesce.
    destruct (nullish _) eqn:Hn; [|by rewrite Hs].
    by destruct (getProp md _).
  - intros Hty. apply String.eqb_neq in Hty. by rewrite Hty.
  - intros -> Hn Hs. simpl. unfold coalesce. by rewrite Hn, Hs.
Qed.

Lemma listManagedProjectIds_cases_witness :
  listManagedProjectIds {| server_metadata := VNull |} = Ok (VArr [])
  ∧ listManagedProjectIds {| server_metadata := VObj {[ "theme" := VStr "dark" ]} |}
    = Ok (VArr [])
  ∧ listManagedProjectIds
      {| server_metadata := VObj {[ "managedProjectIds" := VArr [VStr "p1"] ]} |}
    = Ok (VArr [VStr "p1"])
  ∧ listManagedProjectIds {| server_metadata := VStr "text" |}
    = Throw invalidMetadata
  ∧ listManagedProjectIds {| server_metadata := VUndefined |}
    = Throw invalidMetadata
  ∧ listManagedProjectIds
      {| server_metadata := VObj {[ "managedProjectIds" := VArr [VNum 1] ]} |}
    = Throw invalidManagedProjectIds.
Proof.
  split_and!.
  - destruct (listManagedProjectIds_cases {| server_metadata := VNull |})
      as (Hnull & _).
    apply Hnull. reflexivity.
  - destruct (listManagedProjectIds_cases
                {| server_metadata := VObj {[ "theme" := VStr "dark" ]} |})
      as (_ & Hmissing & _).
    apply Hmissing; vm_compute; reflexivity.
  - destruct (listManagedProjectIds_cases
                {| server_metadata :=
                     VObj {[ "managedProjectIds" := VArr [VStr "p1"] ]} |})
      as (_ & _ & Hlist & _).
    apply Hlist; vm_compute; reflexivity.
  - destruct (listManagedProjectIds_cases {| server_metadata := VStr "text" |})
      as (_ & _ & _ & Htype & _).
    apply Htype. vm_compute. discriminate.
  - destruct (listManagedProjectIds_cases {| server_metadata := VUndefined |})
      as (_ & _ & _ & Htype & _).
    apply Htype. vm_compute. discriminate.
  - destruct (listManagedProjectIds_cases
                {| server_metadata :=
                     VObj {[ "managedProjectIds" := VArr [VNum 1] ]} |})
      as (_ & _ & _ & _ & Hbad).
    apply Hbad; vm_compute; reflexivity.
Defined.

(** ** [projectPrismaToCrud]: the exactly-one-of assertions *)

(** An auth method whose OAuth reference is populated with neither variant. *)
Definition lacksVariant (config : AuthMethodConfig) : Prop :=
  ∃ providerConfig,
    amc_oauthProviderConfig config = Some providerConfig
    ∧ proxiedOAuthConfig providerConfig = None
    ∧ standardOAuthConfig providerConfig = None.

Definition emailLacksVariant (cfg : ProjectConfig) : Prop :=
  ∃ e, emailServiceConfig cfg = Some e
       ∧ proxiedEmailServiceConfig e = None
       ∧ standardEmailServiceConfig e = None.

Section ReaderFacts.
Context `{Externals}.

Lemma oauthProviderOf_Throw prismaId config e :
  oauthProviderOf prismaId config = Throw e ↔
  lacksVariant config
  ∧ e = StackAssertionError (providerVariantMessage (amc_id config) prismaId).
Proof.
  unfold oauthProviderOf, lacksVariant. split.
  - destruct (amc_oauthProviderConfig config) as [p|]; [|done].
    destruct (proxiedOAuthConfig p) eqn:Hp; [done|].
    destruct (standardOAuthConfig p) eqn:Hs; [done|].
    intros [= <-]. split; [|done]. by exists p.
  - intros [(p & -> & -> & ->) ->]. done.
Qed.

Lemma emailConfigOf_lacksVariant prismaId cfg :
  emailLacksVariant cfg →
  emailConfigOf prismaId cfg
  = Throw (StackAssertionError (emailVariantMessage prismaId)).
Proof.
  intros (e & He & Hp & Hs). unfold emailConfigOf. by rewrite He, Hp, Hs.
Qed.

Lemma projectPrismaToCrud_Ok_inv prisma view :
  projectPrismaToCrud prisma = Ok view →
  ∃ mapped email,
    mapR (oauthProviderOf (project_id (prisma_project prisma)))
         (authMethodConfigs (prisma_config prisma)) = Ok mapped
    ∧ emailConfigOf (project_id (prisma_project prisma)) (prisma_config prisma)
      = Ok email
    ∧ oauth_providers (config view) = sort byId (omap (λ p, p) mapped)
    ∧ enabled_oauth_providers (config view)
      = List.filter op_enabled (oauth_providers (config view))
    ∧ read_domains (config view)
      = sort byDomain
          (map (λ d, {| domain := dom_domain d; handler_path := handlerPath d |})
               (domains (prisma_config prisma)))
    ∧ email_config (config view) = email
    ∧ team_creator_default_permissions (config view)
      = defaultPermissions isDefaultTeamCreatorPermission
          (teamCreateDefaultSystemPermissions (prisma_config prisma))
          (prisma_config prisma)
    ∧ team_member_default_permissions (config view)
      = defaultPermissions isDefaultTeamMemberPermission
          (teamMemberDefaultSystemPermissions (prisma_config prisma))
          (prisma_config prisma)
    ∧ read_id view = project_id (prisma_project prisma).
Proof.
  unfold projectPrismaToCrud. intros Hview.
  destruct (mapR _ _) as [mapped|e] eqn:Hmapped; [|done].
  destruct (emailConfigOf _ _) as [email|e] eqn:Hemail; [|done].
  injection Hview as <-. exists mapped, email. by split_and!.
Qed.

End ReaderFacts.

(** The graphs used against C1: an auth method whose provider has both
    variants populated, and a provider with no variant that no auth method
    references. *)
Definition graphOf (cfg : ProjectConfig) : ProjectDB :=
  {| prisma_project :=
       {| project_id := "p1"; displayName := "Acme";
          project_description := None; isProductionMode := false;
          createdAt := 0; configId := config_id cfg |};
     prisma_config := cfg;
     count_users := 0 |}.

Definition bothVariants : OAuthProviderConfig :=
  {| opc_id := "google";
     proxiedOAuthConfig := Some {| po_type := "GOOGLE" |};
     standardOAuthConfig :=
       Some {| so_type := "GOOGLE"; clientId := "id"; clientSecret := "secret";
               facebookConfigId := None; microsoftTenantId := None |} |}.

Definition noVariant : OAuthProviderConfig :=
  {| opc_id := "google"; proxiedOAuthConfig := None;
     standardOAuthConfig := None |}.

Definition withProviders (providers : list OAuthProviderConfig)
    (methods : list AuthMethodConfig) (email : EmailServiceConfig)
  : ProjectConfig :=
  {| config_id := "c1";
     allowLocalhost := true;
     signUpEnabled := true;
     createTeamOnSignUp := false;
     clientTeamCreationEnabled := false;
     clientUserDeletionEnabled := false;
     legacyGlobalJwtSigning := false;
     teamCreateDefaultSystemPermissions := [];
     teamMemberDefaultSystemPermissions := [];
     oauthProviderConfigs := providers;
     emailServiceConfig := Some email;
     permissions := [];
     authMethodConfigs := methods;
     connectedAccountConfigs := [];
     domains := [] |}.

Definition oauthMethod (methodId : string) (enabled : bool)
    (provider : OAuthProviderConfig) : AuthMethodConfig :=
  {| amc_id := methodId; amc_enabled := enabled;
     amc_oauthProviderConfig := Some provider;
     otpConfig := None; passwordConfig := None; passkeyConfig := None |}.

Definition sharedEmail : EmailServiceConfig :=
  {| proxiedEmailServiceConfig := Some ();
     standardEmailServiceConfig := None |}.

Definition sharedEmailView : EmailConfigCrud :=
  {| ec_type := shared; ec_host := None; ec_port := None;
     ec_username := None; ec_password := None;
     sender_email := None; sender_name := None |}.

(** The graph with other records under [oauthProviderConfigs] and
    [connectedAccountConfigs], and everything else as it is. *)
Definition withUnreferenced (prisma : ProjectDB)
    (providers : list OAuthProviderConfig)
    (connected : list ConnectedAccountConfig) : ProjectDB :=
  let cfg := prisma_config prisma in
  {| prisma_project := prisma_project prisma;
     prisma_config :=
       {| config_id := config_id cfg;
          allowLocalhost := allowLocalhost cfg;
          signUpEnabled := signUpEnabled cfg;
          createTeamOnSignUp := createTeamOnSignUp cfg;
          clientTeamCreationEnabled := clientTeamCreationEnabled cfg;
          clientUserDeletionEnabled := clientUserDeletionEnabled cfg;
          legacyGlobalJwtSigning := legacyGlobalJwtSigning cfg;
          teamCreateDefaultSystemPermissions :=
            teamCreateDefaultSystemPermissions cfg;
          teamMemberDefaultSystemPermissions :=
            teamMemberDefaultSystemPermissions cfg;
          oauthProviderConfigs := providers;
          emailServiceConfig := emailServiceConfig cfg;
          permissions := permissions cfg;
          authMethodConfigs := authMethodConfigs cfg;
          connectedAccountConfigs := connected;
          domains := domains cfg |};
     count_users := count_users prisma |}.

(** C1 fails as stated.  A provider with both variants populated is read as a
    shared provider; an email service configuration with both variants is read
    as shared; a provider with neither variant that is only listed under
    [oauthProviderConfigs] is not looked at, and neither is one that only a
    connected account references.  None of the four graphs is rejected. *)
Lemma exactly_one_of_not_enforced :
  (∃ view,
     projectPrismaToCrud (H := sampleEnv)
       (graphOf (withProviders [bothVariants]
                               [oauthMethod "m1" true bothVariants] sharedEmail))
     = Ok view
     ∧ map op_type (oauth_providers (config view)) = [shared])
  ∧ (∃ view,
       projectPrismaToCrud (H := sampleEnv)
         (graphOf (withProviders [] []
            {| proxiedEmailServiceConfig := Some ();
               standardEmailServiceConfig :=
                 Some {| host := "smtp"; port := 25; username := "u";
                         password := "p"; senderEmail := "a@b";
                         senderName := "A" |} |}))
       = Ok view
       ∧ email_config (config view) = sharedEmailView)
  ∧ (∃ view,
       projectPrismaToCrud (H := sampleEnv)
         (graphOf (withProviders [noVariant] [] sharedEmail))
       = Ok view)
  ∧ (∃ view,
       projectPrismaToCrud (H := sampleEnv)
         (withUnreferenced (graphOf (withProviders [] [] sharedEmail))
            [noVariant]
            [ {| cac_id := "ca1"; cac_enabled := true;
                 cac_oauthProviderConfig := Some noVariant |} ])
       = Ok view).
Proof.
  split_and!; eexists; try split; vm_compute; reflexivity.
Qed.

(** C1 (as amended).  If some auth method of the graph references an OAuth
    provider with neither variant populated, [projectPrismaToCrud] throws a
    [StackAssertionError] whose message names the first such auth method, in
    the order of the list, and the project.  If the email service
    configuration has neither variant populated, it throws as well: the
    [StackAssertionError] whose message names the project when no auth method
    is at fault, and the one of the auth method otherwise.  What it returns
    or throws does not depend on [oauthProviderConfigs] and
    [connectedAccountConfigs]: a record that is reachable only through them
    is not inspected. *)
Theorem projectPrismaToCrud_rejects_missing_variant `{Externals}
    (prisma : ProjectDB) :
  let cfg := prisma_config prisma in
  let prismaId := project_id (prisma_project prisma) in
  (∀ config,
     config ∈ authMethodConfigs cfg → lacksVariant config →
     ∃ before offending after,
       authMethodConfigs cfg = before ++ offending :: after
       ∧ (∀ c, c ∈ before → ¬ lacksVariant c)
       ∧ lacksVariant offending
       ∧ projectPrismaToCrud prisma
         = Throw (StackAssertionError
                    (providerVariantMessage (amc_id offending) prismaId)))
  ∧ (emailLacksVariant cfg →
     ((∀ c, c ∈ authMethodConfigs cfg → ¬ lacksVariant c)
      ∧ projectPrismaToCrud prisma
        = Throw (StackAssertionError (emailVariantMessage prismaId)))
     ∨ (∃ offending,
          offending ∈ authMethodConfigs cfg ∧ lacksVariant offending
          ∧ projectPrismaToCrud prisma
            = Throw (StackAssertionError
                       (providerVariantMessage (amc_id offending) prismaId))))
  ∧ (∀ providers connected,
       projectPrismaToCrud (withUnreferenced prisma providers connected)
       = projectPrismaToCrud prisma).
Proof.
  intros cfg prismaId.
  assert (∀ e,
            mapR (oauthProviderOf prismaId) (authMethodConfigs cfg) = Throw e →
            ∃ before offending after,
              authMethodConfigs cfg = before ++ offending :: after
              ∧ (∀ c, c ∈ before → ¬ lacksVariant c)
              ∧ lacksVariant offending
              ∧ projectPrismaToCrud prisma
                = Throw (StackAssertionError
                           (providerVariantMessage (amc_id offending)
                              prismaId))) as Hfirst.
  { intros e Hmapped.
    pose proof Hmapped as Hthrow.
    apply mapR_Throw_first in Hmapped
      as (before & offending & after & Hlist & Hbefore & Hoffending).
    apply oauthProviderOf_Throw in Hoffending as [Hlacks ->].
    exists before, offending, after. split_and!; [done| |done|].
    - intros c Hc Hc'. destruct (Hbefore c Hc) as [y Hy].
      assert (oauthProviderOf prismaId c
              = Throw (StackAssertionError
                         (providerVariantMessage (amc_id c) prismaId)))
        as Hthrows by by apply oauthProviderOf_Throw.
      congruence.
    - unfold projectPrismaToCrud. fold cfg prismaId. by rewrite Hthrow. }
  split_and!.
  - intros config Hin Hlacks.
    destruct (mapR_Throw (oauthProviderOf prismaId) _ config
                (StackAssertionError
                   (providerVariantMessage (amc_id config) prismaId)) Hin)
      as (? & e & _ & _ & Hthrows); [by apply oauthProviderOf_Throw|].
    by apply (Hfirst e).
  - intros Hemail.
    destruct (mapR (oauthProviderOf prismaId) (authMethodConfigs cfg))
      as [mapped|e] eqn:Hmapped.
    + left. split.
      * intros c Hc Hlacks.
        destruct (mapR_Throw (oauthProviderOf prismaId) _ c
                    (StackAssertionError
                       (providerVariantMessage (amc_id c) prismaId)) Hc)
          as (? & ? & _ & _ & Hthrows); [by apply oauthProviderOf_Throw|].
        congruence.
      * unfold projectPrismaToCrud. fold cfg prismaId. rewrite Hmapped.
        simpl. by rewrite (emailConfigOf_lacksVariant prismaId cfg Hemail).
    + right.
      destruct (Hfirst e eq_refl)
        as (before & offending & after & Hlist & _ & Hlacks & Hthrows).
      exists offending. split_and!; [|done|done].
      rewrite Hlist. apply elem_of_app. right. by left.
  - reflexivity.
Qed.

Lemma projectPrismaToCrud_rejects_missing_variant_witness :
  projectPrismaToCrud (H := sampleEnv)
    (graphOf (withProviders [noVariant] [oauthMethod "m1" true noVariant]
                            sharedEmail))
  = Throw (StackAssertionError
      "Exactly one of the provider configs should be set on provider config 'm1' of project 'p1'")
  ∧ projectPrismaToCrud (H := sampleEnv)
      (graphOf (withProviders [] []
                  {| proxiedEmailServiceConfig := None;
                     standardEmailServiceConfig := None |}))
    = Throw (StackAssertionError
        "Exactly one of the email service configs should be set on project 'p1'").
Proof.
  split.
  - destruct (projectPrismaToCrud_rejects_missing_variant (H := sampleEnv)
                (graphOf (withProviders [noVariant]
                            [oauthMethod "m1" true noVariant] sharedEmail)))
      as (Hprovider & _ & _).
    destruct (Hprovider (oauthMethod "m1" true noVariant))
      as (before & offending & after & Hlist & _ & _ & Hthrows).
    + by left.
    + by exists noVariant.
    + rewrite Hthrows. simpl in Hlist.
      destruct before as [|c before]; simpl in Hlist.
      * injection Hlist as <- _. reflexivity.
      * injection Hlist as _ Hrest. by destruct before.
  - destruct (projectPrismaToCrud_rejects_missing_variant (H := sampleEnv)
                (graphOf (withProviders [] []
                            {| proxiedEmailServiceConfig := None;
                               standardEmailServiceConfig := None |})))
      as (_ & Hemail & _).
    destruct Hemail as [[_ Hthrows]|(offending & Hin & _)].
    + by eexists.
    + exact Hthrows.
    + simpl in Hin. by apply elem_of_nil in Hin.
Defined.

(** ** [projectPrismaToCrud]: sorted lists *)

Definition idAscending `{Externals} (a b : string) : Prop :=
  localeCompare a b <= 0.

Lemma defaultPermissions_sorted `{Externals} flag system cfg :
  StronglySorted idAscending (defaultPermissions flag system cfg).
Proof.
  unfold defaultPermissions. apply StronglySorted_map.
  apply (sort_StronglySorted byPermissionId).
  - intros a b. apply localeCompare_antisym.
  - intros a b c. apply localeCompare_trans.
Qed.

(** C3.  In the view of every graph [projectPrismaToCrud] accepts,
    [oauth_providers] is sorted ascending by id, [domains] ascending by domain,
    both default-permission lists ascending by id, and
    [enabled_oauth_providers] is [oauth_providers] filtered on [enabled], in
    the same order (hence sorted as well). *)
Theorem projectPrismaToCrud_sorted `{Externals} (prisma : ProjectDB)
    (view : ProjectRead) :
  projectPrismaToCrud prisma = Ok view →
  StronglySorted (λ a b, idAscending (op_id a) (op_id b))
                 (oauth_providers (config view))
  ∧ StronglySorted (λ a b, idAscending (domain a) (domain b))
                   (read_domains (config view))
  ∧ StronglySorted idAscending (team_creator_default_permissions (config view))
  ∧ StronglySorted idAscending (team_member_default_permissions (config view))
  ∧ enabled_oauth_providers (config view)
    = List.filter op_enabled (oauth_providers (config view))
  ∧ StronglySorted (λ a b, idAscending (op_id a) (op_id b))
                   (enabled_oauth_providers (config view)).
Proof.
  intros Hview.
  apply projectPrismaToCrud_Ok_inv in Hview
    as (mapped & email & _ & _ & Hproviders & Henabled & Hdomains & _
        & Hcreator & Hmember & _).
  assert (StronglySorted (λ a b, idAscending (op_id a) (op_id b))
                         (oauth_providers (config view))) as Hsorted.
  { rewrite Hproviders. apply (sort_StronglySorted byId).
    - intros a b. apply localeCompare_antisym.
    - intros a b c. apply localeCompare_trans. }
  split_and!.
  - done.
  - rewrite Hdomains. apply (sort_StronglySorted byDomain).
    + intros a b. apply localeCompare_antisym.
    + intros a b c. apply localeCompare_trans.
  - rewrite Hcreator. apply defaultPermissions_sorted.
  - rewrite Hmember. apply defaultPermissions_sorted.
  - done.
  - rewrite Henabled. by apply StronglySorted_keep.
Qed.

(** The example of the specification: google (shared, enabled) and github
    (standard, disabled), two domains, the two seeded permissions. *)
Definition exampleGraph : ProjectDB :=
  let google :=
    {| opc_id := "google";
       proxiedOAuthConfig := Some {| po_type := "GOOGLE" |};
       standardOAuthConfig := None |} in
  let github :=
    {| opc_id := "github";
       proxiedOAuthConfig := None;
       standardOAuthConfig :=
         Some {| so_type := "GITHUB"; clientId := "x"; clientSecret := "y";
                 facebookConfigId := None; microsoftTenantId := None |} |} in
  let seeded name creator member :=
    {| perm_dbId := name; perm_projectId := "p1"; perm_projectConfigId := "c1";
       queryableId := name; perm_description := ""; perm_scope := "TEAM";
       parentEdges := [];
       isDefaultTeamCreatorPermission := creator;
       isDefaultTeamMemberPermission := member |} in
  {| prisma_project :=
       {| project_id := "p1"; displayName := "Acme";
          project_description := None; isProductionMode := false;
          createdAt := 0; configId := "c1" |};
     prisma_config :=
       {| config_id := "c1";
          allowLocalhost := true;
          signUpEnabled := true;
          createTeamOnSignUp := false;
          clientTeamCreationEnabled := false;
          clientUserDeletionEnabled := false;
          legacyGlobalJwtSigning := false;
          teamCreateDefaultSystemPermissions := [UPDATE_TEAM];
          teamMemberDefaultSystemPermissions := [READ_MEMBERS];
          oauthProviderConfigs := [google; github];
          emailServiceConfig := Some sharedEmail;
          permissions := [seeded "member" false true; seeded "admin" true false];
          authMethodConfigs :=
            [oauthMethod "m1" true google; oauthMethod "m2" false github];
          connectedAccountConfigs := [];
          domains :=
            [ {| dom_domain := "https://b.example"; handlerPath := "/handler" |};
              {| dom_domain := "https://a.example"; handlerPath := "/handler" |} ] |};
     count_users := 0 |}.

Lemma projectPrismaToCrud_sorted_witness :
  ∃ view,
    projectPrismaToCrud (H := sampleEnv) exampleGraph = Ok view
    ∧ map op_id (oauth_providers (config view)) = ["github"; "google"]
    ∧ map op_id (enabled_oauth_providers (config view)) = ["google"]
    ∧ map domain (read_domains (config view))
      = ["https://a.example"; "https://b.example"]
    ∧ team_creator_default_permissions (config view) = ["$update_team"; "admin"]
    ∧ StronglySorted (λ a b, idAscending (H := sampleEnv) (op_id a) (op_id b))
                     (oauth_providers (config view)).
Proof.
  eexists. split; [vm_compute; reflexivity|].
  split_and!; [vm_compute; reflexivity..|].
  apply (projectPrismaToCrud_sorted (H := sampleEnv) exampleGraph).
  vm_compute. reflexivity.
Defined.

(** ** The store operations, run *)

Lemma bind_run {A B} (m : M A) (k : A → M B) w :
  (m ≫= k) w = match m w with
               | (Ok a, w1) => k a w1
               | (Throw e, w1) => (Throw e, w1)
               end.
Proof. reflexivity. Qed.

Ltac run :=
  repeat (rewrite bind_run;
          unfold generateUuid, getClock, getDb, putDb, throw, liftR,
                 reserveUuids, captureError, mret, M_ret;
          cbn beta iota delta [db uuidCount clock captured]).

Section StoreFacts.
Context `{Externals}.

Lemma tx_project_create_Ok data w project w1 :
  tx_project_create data w = (Ok project, w1) →
  let newConfigId := uuidSource (uuidCount w) in
  let p := projectRowOf data (clock w) newConfigId in
  let c := configRowOf data newConfigId in
  projects (db w) !! pci_id data = None
  ∧ projectConfigs (db w) !! newConfigId = None
  ∧ NoDup (map opc_id (oauthProviderConfigs c))
  ∧ project = {| prisma_project := p; prisma_config := loadConfig c;
                 count_users := countUsers (db w) (pci_id data) |}
  ∧ w1 = {| db := {| projects := <[pci_id data := p]> (projects (db w));
                     projectConfigs := <[newConfigId := c]> (projectConfigs (db w));
                     projectUsers := projectUsers (db w) |};
            uuidCount := S (uuidCount w); clock := clock w;
            captured := captured w |}.
Proof.
  unfold tx_project_create. run.
  case_bool_decide as Hp; [done|].
  case_bool_decide as Hc; [done|].
  case_bool_decide as Hnodup; [|done].
  case_bool_decide as Hdom; [|done].
  cbn [negb]. run. intros [= <- <-].
  split_and!; [by apply eq_None_not_Some|by apply eq_None_not_Some|done..].
Qed.

Lemma tx_projectConfig_update_authMethodConfigs_Ok whereId create w w1 c :
  projectConfigs (db w) !! whereId = Some c →
  tx_projectConfig_update_authMethodConfigs whereId create w = (Ok (), w1) →
  w1 = {| db := setProjectConfigs (db w)
                  (<[whereId := setAuthMethodConfigs c
                       (authMethodConfigs c
                        ++ imap (authMethodRow (uuidCount w)) create)]>
                     (projectConfigs (db w)));
          uuidCount := (uuidCount w + length create)%nat;
          clock := clock w; captured := captured w |}.
Proof.
  intros Hc. unfold tx_projectConfig_update_authMethodConfigs. run.
  rewrite Hc. destruct (forallb _ _); [|done]. cbn [negb]. run.
  by intros [= <-].
Qed.

Lemma tx_projectConfig_update_connectedAccountConfigs_Ok whereId create w w1 c :
  projectConfigs (db w) !! whereId = Some c →
  tx_projectConfig_update_connectedAccountConfigs whereId create w = (Ok (), w1) →
  w1 = {| db := setProjectConfigs (db w)
                  (<[whereId := setConnectedAccountConfigs c
                       (connectedAccountConfigs c
                        ++ imap (connectedAccountRow (uuidCount w))
                                (default [] create))]>
                     (projectConfigs (db w)));
          uuidCount := (uuidCount w + length (default [] create))%nat;
          clock := clock w; captured := captured w |}.
Proof.
  intros Hc. unfold tx_projectConfig_update_connectedAccountConfigs. run.
  rewrite Hc. destruct (forallb _ _); [|done]. cbn [negb]. run.
  by intros [= <-].
Qed.

Lemma tx_permission_create_Ok data w w1 c :
  projectConfigs (db w) !! pmi_projectConfigId data = Some c →
  tx_permission_create data w = (Ok (), w1) →
  w1 = {| db := setProjectConfigs (db w)
                  (<[pmi_projectConfigId data :=
                       setPermissions c
                         (permissions c
                          ++ [permissionRowOf (uuidSource (uuidCount w)) data])]>
                     (projectConfigs (db w)));
          uuidCount := S (uuidCount w);
          clock := clock w; captured := captured w |}.
Proof.
  intros Hc. unfold tx_permission_create. run.
  rewrite Hc. destruct (projects (db w) !! _); [|done]. run.
  by intros [= <-].
Qed.

(** The configuration row of a new project once the transaction body has
    reached the owner loop. *)
Definition provisionedConfig (c0 : ProjectConfigRow)
    (authMethods : list AuthMethodConfigRow)
    (connectedAccounts : list ConnectedAccountConfigRow)
    (seeded : list Permission) : ProjectConfigRow :=
  setPermissions
    (setConnectedAccountConfigs (setAuthMethodConfigs c0 authMethods)
                                connectedAccounts)
    seeded.

(** What a successful [provisionGraph] has done. *)
Lemma provisionGraph_Ok data w project w6 :
  provisionGraph data w = (Ok project, w6) →
  ∃ providers email authMethods connectedAccounts,
    let projectId := uuidSource (uuidCount w) in
    let projectConfigId := uuidSource (S (uuidCount w)) in
    let input := projectCreateInput data projectId providers email in
    let first := (2 + uuidCount w)%nat in
    let n := length authMethods in
    let m := length (default [] connectedAccounts) in
    oauthProviderCreates data = Ok providers
    ∧ emailServiceCreate data = Ok email
    ∧ projects (db w) !! projectId = None
    ∧ projectConfigs (db w) !! projectConfigId = None
    ∧ NoDup (map opc_id (default [] providers))
    ∧ project = {| prisma_project :=
                     projectRowOf input (clock w) projectConfigId;
                   prisma_config :=
                     loadConfig (configRowOf input projectConfigId);
                   count_users := countUsers (db w) projectId |}
    ∧ authMethodCreates data project = Ok authMethods
    ∧ connectedAccountCreates data project = Ok connectedAccounts
    ∧ w6 = {| db :=
                {| projects :=
                     <[projectId := projectRowOf input (clock w) projectConfigId]>
                       (projects (db w));
                   projectConfigs :=
                     <[projectConfigId :=
                         provisionedConfig (configRowOf input projectConfigId)
                           (imap (authMethodRow first) authMethods)
                           (imap (connectedAccountRow (first + n))
                                 (default [] connectedAccounts))
                           [permissionRowOf (uuidSource (first + n + m))
                              (memberPermission projectId projectConfigId);
                            permissionRowOf (uuidSource (S (first + n + m)))
                              (adminPermission projectId projectConfigId)]]>
                       (projectConfigs (db w));
                   projectUsers := projectUsers (db w) |};
              uuidCount := (first + n + m + 2)%nat;
              clock := clock w;
              captured := captured w |}.
Proof.
  unfold provisionGraph. run.
  destruct (oauthProviderCreates data) as [providers|e] eqn:Hproviders; [|done].
  run.
  destruct (emailServiceCreate data) as [email|e] eqn:Hemail; [|done].
  run.
  destruct (tx_project_create _ _) as [[created|e] w1] eqn:Hcreate; [|done].
  apply tx_project_create_Ok in Hcreate
    as (Hfresh & Hcfresh & Hnodup & -> & ->).
  cbn [db uuidCount clock captured pci_id projectCreateInput
       prisma_project prisma_config project_id projectRowOf
       config_id loadConfig configRowOf] in *.
  run.
  destruct (authMethodCreates data _) as [authMethods|e] eqn:Hmethods; [|done].
  run.
  destruct (tx_projectConfig_update_authMethodConfigs _ _ _)
    as [[[]|e] w2] eqn:Hupdate1; [|done].
  eapply tx_projectConfig_update_authMethodConfigs_Ok in Hupdate1 as ->;
    [|apply lookup_insert_eq].
  run.
  destruct (connectedAccountCreates data _) as [connected|e] eqn:Hconnected;
    [|done].
  run.
  destruct (tx_projectConfig_update_connectedAccountConfigs _ _ _)
    as [[[]|e] w3] eqn:Hupdate2; [|done].
  eapply tx_projectConfig_update_connectedAccountConfigs_Ok in Hupdate2 as ->;
    [|apply lookup_insert_eq].
  run.
  destruct (tx_permission_create _ _) as [[[]|e] w4] eqn:Hmember; [|done].
  eapply tx_permission_create_Ok in Hmember as ->; [|apply lookup_insert_eq].
  run.
  destruct (tx_permission_create _ _) as [[[]|e] w5] eqn:Hadmin; [|done].
  eapply tx_permission_create_Ok in Hadmin as ->; [|apply lookup_insert_eq].
  intros [= <- <-].
  exists providers, email, authMethods, connected.
  split_and!; try done.
  unfold setProjectConfigs.
  cbn [db uuidCount clock captured projects projectConfigs projectUsers].
  rewrite !insert_insert_eq.
  f_equal; first [reflexivity|lia].
Qed.

End StoreFacts.

(** ** What the request determines *)

(** The enablement rows a request asks for, in the words of the
    specification: one row per requested OAuth provider carrying that entry's
    [enabled] flag, one OTP row (contact channel email) if and only if magic
    link is requested, one password row unless credential sign-in is
    explicitly disabled, one passkey row if and only if passkeys are
    requested. *)
Definition requestedOAuthMethod (projectConfigId : string)
    (entry : OAuthProviderCrud) : AuthMethodCreateInput :=
  {| amci_enabled := op_enabled entry;
     amci_connect := Some (projectConfigId, op_id entry);
     amci_otpConfig := None;
     amci_passwordConfig := None;
     amci_passkeyConfig := None |}.

Definition requestedAuthMethods `{Externals} (projectConfigId : string)
    (data : Create.Project) : list AuthMethodCreateInput :=
  map (requestedOAuthMethod projectConfigId)
      (default [] (configField data Create.oauth_providers))
  ++ (if bool_decide (configField data Create.magic_link_enabled = Some true)
      then [ {| amci_enabled := true; amci_connect := None;
                amci_otpConfig := Some {| contactChannelType := "EMAIL" |};
                amci_passwordConfig := None; amci_passkeyConfig := None |} ]
      else [])
  ++ (if bool_decide (configField data Create.credential_enabled = Some false)
      then []
      else [ {| amci_enabled := true; amci_connect := None;
                amci_otpConfig := None;
                amci_passwordConfig := Some (); amci_passkeyConfig := None |} ])
  ++ (if bool_decide (configField data Create.passkey_enabled = Some true)
      then [ {| amci_enabled := true; amci_connect := None;
                amci_otpConfig := None;
                amci_passwordConfig := None; amci_passkeyConfig := Some () |} ]
      else []).

Definition requestedConnectedAccount (projectConfigId : string)
    (entry : OAuthProviderCrud) : ConnectedAccountCreateInput :=
  {| caci_enabled := op_enabled entry;
     caci_connect := (projectConfigId, op_id entry) |}.

Section RequestFacts.
Context `{Externals}.

Lemma oauthProviderCreate_id item created :
  oauthProviderCreate item = Ok created → opc_id created = op_id item.
Proof.
  unfold oauthProviderCreate, orThrow, mbind, result_bind, rbind, mret,
    result_ret.
  intros Hcreated. repeat case_match; by simplify_eq.
Qed.

Lemma oauthProviderCreates_ids data providers :
  oauthProviderCreates data = Ok providers →
  match configField data Create.oauth_providers with
  | Some items =>
      ∃ created, providers = Some created
                 ∧ Forall2 (λ c item, opc_id c = op_id item) created items
  | None => providers = None
  end.
Proof.
  unfold oauthProviderCreates.
  destruct (configField data Create.oauth_providers) as [items|].
  - destruct (mapR oauthProviderCreate items) as [created|e] eqn:Hcreated;
      [|done].
    cbn. intros [= <-]. exists created. split; [done|].
    apply mapR_Ok_Forall2 in Hcreated. apply Forall2_flip.
    eapply Forall2_impl; [done|]. intros item c. apply oauthProviderCreate_id.
  - cbn. by intros [= <-].
Qed.

Lemma find_own_entry (items : list OAuthProviderCrud) entry :
  NoDup (map op_id items) → entry ∈ items →
  find (λ p, String.eqb (op_id p) (op_id entry)) items = Some entry.
Proof.
  unfold find. induction items as [|x items IH]; intros Hnodup Hin.
  - by apply elem_of_nil in Hin.
  - cbn [map] in Hnodup. apply NoDup_cons in Hnodup as [Hx Hnodup].
    cbn [List.find].
    destruct (String.eqb_spec (op_id x) (op_id entry)) as [Heq|Hne].
    + apply elem_of_cons in Hin as [->|Hin]; [done|].
      exfalso. apply Hx. rewrite Heq. by apply list_elem_of_fmap_2.
    + apply elem_of_cons in Hin as [->|Hin]; [done|]. by apply IH.
Qed.

Lemma requestedEnabled_own data items created entry :
  configField data Create.oauth_providers = Some items →
  NoDup (map op_id items) → entry ∈ items → opc_id created = op_id entry →
  requestedEnabled data created = Ok (op_enabled entry).
Proof.
  intros Hitems Hnodup Hin Hid. unfold requestedEnabled.
  rewrite Hitems. cbn. rewrite Hid, (find_own_entry items entry) by done.
  done.
Qed.

(** A provider that is not in the request list makes
    the enablement lookup throw what [throwErr] raises. *)
Lemma requestedEnabled_absent data created :
  (∀ items entry, configField data Create.oauth_providers = Some items →
                  entry ∈ items → op_id entry ≠ opc_id created) →
  requestedEnabled data created = Throw (throwErr "oauth provider not found").
Proof.
  intros Habsent. unfold requestedEnabled.
  destruct (configField data Create.oauth_providers) as [items|] eqn:Hitems;
    [|done].
  cbn. unfold find.
  destruct (List.find _ items) as [entry|] eqn:Hfind; [|done].
  apply List.find_some in Hfind as [Hin Heq].
  apply String.eqb_eq in Heq. exfalso.
  eapply Habsent; [done| |done]. by apply list_elem_of_In.
Qed.

Lemma mapR_requested {B} data items (mk : bool → OAuthProviderConfig → B)
    (mk' : OAuthProviderCrud → B) created entries :
  configField data Create.oauth_providers = Some items →
  NoDup (map op_id items) →
  (∀ c entry, opc_id c = op_id entry → mk (op_enabled entry) c = mk' entry) →
  entries ⊆ items →
  Forall2 (λ c entry, opc_id c = op_id entry) created entries →
  mapR (λ item, enabled ← requestedEnabled data item; mret (mk enabled item))
       created
  = Ok (map mk' entries).
Proof.
  intros Hitems Hnodup Hmk Hsub Hpaired.
  induction Hpaired as [|c entry created entries Hid _ IH]; [done|].
  cbn [mapR map].
  rewrite (requestedEnabled_own data items c entry); try done.
  - cbn. rewrite IH.
    + cbn. by rewrite (Hmk c entry).
    + intros x Hx. apply Hsub. by right.
  - apply Hsub. by left.
Qed.

Lemma authMethodCreates_requested data providers project :
  oauthProviderCreates data = Ok providers →
  NoDup (map opc_id (default [] providers)) →
  oauthProviderConfigs (prisma_config project) = default [] providers →
  authMethodCreates data project
  = Ok (requestedAuthMethods (config_id (prisma_config project)) data).
Proof.
  intros Hproviders Hnodup Hloaded.
  apply oauthProviderCreates_ids in Hproviders.
  unfold authMethodCreates, requestedAuthMethods.
  assert (mapR (λ item,
                  enabled ← requestedEnabled data item;
                  mret {| amci_enabled := enabled;
                          amci_connect :=
                            Some (config_id (prisma_config project), opc_id item);
                          amci_otpConfig := None;
                          amci_passwordConfig := None;
                          amci_passkeyConfig := None |})
               (default [] providers)
          = Ok (map (requestedOAuthMethod (config_id (prisma_config project)))
                    (default [] (configField data Create.oauth_providers))))
    as Hoauth.
  { destruct (configField data Create.oauth_providers) as [items|] eqn:Hitems.
    - destruct Hproviders as (created & -> & Hpaired). cbn in Hnodup |- *.
      apply (mapR_requested data items
               (λ enabled item,
                  {| amci_enabled := enabled;
                     amci_connect :=
                       Some (config_id (prisma_config project), opc_id item);
                     amci_otpConfig := None;
                     amci_passwordConfig := None;
                     amci_passkeyConfig := None |})
               (requestedOAuthMethod (config_id (prisma_config project))));
        [done| | |done|done].
      + assert (map opc_id created = map op_id items) as <-; [|done].
        clear -Hpaired. induction Hpaired; cbn; congruence.
      + intros c entry Hid. unfold requestedOAuthMethod. by rewrite Hid.
    - by subst providers. }
  rewrite Hloaded.
  assert (truthy (configField data Create.oauth_providers) = false →
          default [] (configField data Create.oauth_providers) = []) as Hnone.
  { by destruct (configField data Create.oauth_providers). }
  destruct (truthy (configField data Create.oauth_providers)).
  - rewrite Hoauth. cbn.
    destruct (configField data Create.magic_link_enabled) as [[]|];
      destruct (configField data Create.credential_enabled) as [[]|];
      destruct (configField data Create.passkey_enabled) as [[]|];
      reflexivity.
  - rewrite Hnone by done. cbn.
    destruct (configField data Create.magic_link_enabled) as [[]|];
      destruct (configField data Create.credential_enabled) as [[]|];
      destruct (configField data Create.passkey_enabled) as [[]|];
      reflexivity.
Qed.

Lemma connectedAccountCreates_requested data providers project :
  oauthProviderCreates data = Ok providers →
  NoDup (map opc_id (default [] providers)) →
  oauthProviderConfigs (prisma_config project) = default [] providers →
  connectedAccountCreates data project
  = Ok (map (requestedConnectedAccount (config_id (prisma_config project)))
          <$> configField data Create.oauth_providers).
Proof.
  intros Hproviders Hnodup Hloaded.
  apply oauthProviderCreates_ids in Hproviders.
  unfold connectedAccountCreates.
  destruct (configField data Create.oauth_providers) as [items|] eqn:Hitems;
    [|done].
  destruct Hproviders as (created & -> & Hpaired). cbn in Hnodup, Hloaded.
  cbn [truthy]. rewrite Hloaded.
  erewrite (mapR_requested data items
              (λ enabled item, {| caci_enabled := enabled |})
              (requestedConnectedAccount (config_id (prisma_config project))));
    [done | done | | | done | done].
  - assert (map opc_id created = map op_id items) as <-; [|done].
    clear -Hpaired. induction Hpaired; cbn; congruence.
  - intros c entry Hid. unfold requestedConnectedAccount. by rewrite Hid.
Qed.

End RequestFacts.

(** ** The owner loop, as a function of the user table

    [linkUsers] is the loop of [linkOwners] on the one table it touches; it
    returns the outcome, the table, and what was handed to [captureError]. *)

Section OwnerLoop.
Context `{Externals}.

Definition anomaly (userId : string) : string * exn :=
  ("project-creation-owner-not-found", ownerNotFound userId).

Fixpoint linkUsers (ownerIds : list string) (newProjectId : string)
    (users : gmap (string * string) value)
  : result unit * gmap (string * string) value * list (string * exn) :=
  match ownerIds with
  | [] => (Ok (), users, [])
  | userId :: rest =>
      match users !! ("internal", userId) with
      | None =>
          let '(r, users', log) := linkUsers rest newProjectId users in
          (r, users', anomaly userId :: log)
      | Some current =>
          match mergeManagedProjectId current newProjectId with
          | Throw e => (Throw e, users, [])
          | Ok merged =>
              linkUsers rest newProjectId (<[("internal", userId) := merged]> users)
          end
      end
  end.

Definition afterLinking (w : World)
    (linked : result unit * gmap (string * string) value * list (string * exn))
  : World :=
  {| db := setProjectUsers (db w) linked.1.2;
     uuidCount := uuidCount w;
     clock := clock w;
     captured := captured w ++ linked.2 |}.

Lemma linkOwners_linkUsers ownerIds newProjectId w :
  linkOwners ownerIds newProjectId w
  = let linked := linkUsers ownerIds newProjectId (projectUsers (db w)) in
    (linked.1.1, afterLinking w linked).
Proof.
  revert w. induction ownerIds as [|userId rest IH]; intros w.
  - cbn. unfold afterLinking. cbn. rewrite app_nil_r.
    by destruct w as [[] ? ? ?].
  - cbn [linkOwners linkUsers].
    unfold tx_projectUser_findUnique, tx_projectUser_update. run.
    destruct (projectUsers (db w) !! ("internal", userId)) as [current|] eqn:Hu;
      cbn [mbind option_bind].
    + cbn [serverMetadata projectUserId]. run.
      destruct (mergeManagedProjectId current newProjectId) as [merged|e].
      * run. rewrite Hu. run. rewrite IH. cbn zeta.
        unfold afterLinking, setProjectUsers. by cbn.
      * cbn. unfold afterLinking. cbn. rewrite app_nil_r.
        by destruct w as [[] ? ? ?].
    + run. rewrite IH. unfold afterLinking.
      cbn [db uuidCount clock captured].
      destruct (linkUsers rest newProjectId (projectUsers (db w)))
        as [[r users'] log].
      cbn. by rewrite <- app_assoc.
Qed.

(** Only rows of owners in the internal namespace are written. *)
Lemma linkUsers_other ownerIds newProjectId users key :
  (∀ userId, userId ∈ ownerIds → key ≠ ("internal", userId)) →
  (linkUsers ownerIds newProjectId users).1.2 !! key = users !! key.
Proof.
  revert users. induction ownerIds as [|userId rest IH]; intros users Hkey;
    [done|].
  cbn [linkUsers].
  destruct (users !! ("internal", userId)) as [current|] eqn:Hu.
  - destruct (mergeManagedProjectId current newProjectId) as [merged|e]; [|done].
    rewrite IH.
    + apply lookup_insert_ne. intros Heq. eapply Hkey; [by left|done].
    + intros u Hu'. apply Hkey. by right.
  - specialize (IH users).
    destruct (linkUsers rest newProjectId users) as [[r users'] log].
    apply IH. intros u Hu'. apply Hkey. by right.
Qed.

(** A missing owner is skipped: outcome and table are those of the loop
    without it, and if the loop runs to its end the anomaly is in the log. *)
Lemma linkUsers_skip_missing before missing after newProjectId users :
  users !! ("internal", missing) = None →
  let withMissing := linkUsers (before ++ missing :: after) newProjectId users in
  let without := linkUsers (before ++ after) newProjectId users in
  withMissing.1.1 = without.1.1
  ∧ withMissing.1.2 = without.1.2
  ∧ (withMissing.1.1 = Ok () → anomaly missing ∈ withMissing.2).
Proof.
  revert users. induction before as [|userId before IH]; intros users Hmissing.
  - cbn [app linkUsers]. rewrite Hmissing.
    destruct (linkUsers after newProjectId users) as [[r users'] log].
    cbn. split_and!; [done|done|]. intros _. by left.
  - cbn [app linkUsers].
    destruct (users !! ("internal", userId)) as [current|] eqn:Hu.
    + destruct (mergeManagedProjectId current newProjectId) as [merged|e];
        [|done].
      apply IH. rewrite lookup_insert_ne; [done|]. congruence.
    + specialize (IH users Hmissing).
      destruct (linkUsers (before ++ missing :: after) newProjectId users)
        as [[r1 users1] log1].
      destruct (linkUsers (before ++ after) newProjectId users)
        as [[r2 users2] log2].
      cbn in *. destruct IH as (-> & -> & Hlog).
      split_and!; [done|done|]. intros Hok. right. by apply Hlog.
Qed.

End OwnerLoop.

(** ** The metadata written for an owner *)

(** The elements of the current [managedProjectIds], as the array spread
    reads them. *)
Definition managedBefore (current : value) : result (list value) :=
  spreadArray
    (coalesce (getProp (coalesce current (VObj ∅)) "managedProjectIds")
              (VArr [])).

(** The top-level properties of the current metadata, as the object spread
    reads them. *)
Definition propertiesBefore (current : value) : gmap string value :=
  spreadObject (coalesce current (VObj ∅)).

(** The metadata of a user who is named [times] times in the owner list. *)
Definition linkedMetadata (times : nat) (newProjectId : string)
    (current merged : value) : Prop :=
  match times with
  | O => merged = current
  | S _ =>
      ∃ managed m,
        managedBefore current = Ok managed
        ∧ merged = VObj m
        ∧ m !! "managedProjectIds"
          = Some (VArr (managed ++ replicate times (VStr newProjectId)))
        ∧ ∀ k, k ≠ "managedProjectIds" → m !! k = propertiesBefore current !! k
  end.

Section OwnerMetadata.
Context `{Externals}.

Lemma coalesce_object_twice current :
  coalesce (coalesce current (VObj ∅)) (VObj ∅) = coalesce current (VObj ∅).
Proof. by destruct current. Qed.

Lemma mergeManagedProjectId_Ok current newProjectId merged :
  mergeManagedProjectId current newProjectId = Ok merged →
  ∃ managed,
    managedBefore current = Ok managed
    ∧ merged = VObj (<["managedProjectIds" :=
                         VArr (managed ++ [VStr newProjectId])]>
                       (propertiesBefore current)).
Proof.
  unfold mergeManagedProjectId, managedBefore, propertiesBefore.
  rewrite coalesce_object_twice.
  destruct (spreadArray _) as [managed|e]; [|done].
  cbn. intros [= <-]. by exists managed.
Qed.

Lemma linkedMetadata_again times newProjectId current managed merged :
  managedBefore current = Ok managed →
  linkedMetadata times newProjectId
    (VObj (<["managedProjectIds" := VArr (managed ++ [VStr newProjectId])]>
             (propertiesBefore current)))
    merged →
  linkedMetadata (S times) newProjectId current merged.
Proof.
  intros Hmanaged. destruct times as [|times]; cbn [linkedMetadata].
  - intros ->. eexists managed, _. split_and!; [done|done| |].
    + by rewrite lookup_insert_eq.
    + intros k Hk. by rewrite lookup_insert_ne.
  - intros (managed' & m & Hmanaged' & -> & Hkey & Hother).
    exists managed, m. split_and!; [done|done| |].
    + rewrite Hkey. unfold managedBefore in Hmanaged'. cbn in Hmanaged'.
      rewrite lookup_insert_eq in Hmanaged'. cbn in Hmanaged'.
      injection Hmanaged' as <-. by rewrite <- app_assoc.
    + intros k Hk. rewrite Hother by done. unfold propertiesBefore at 1. cbn.
      by rewrite lookup_insert_ne.
Qed.

Lemma linkUsers_metadata ownerIds newProjectId users users' log userId current :
  linkUsers ownerIds newProjectId users = (Ok (), users', log) →
  users !! ("internal", userId) = Some current →
  ∃ merged,
    users' !! ("internal", userId) = Some merged
    ∧ linkedMetadata (count_occ string_dec ownerIds userId) newProjectId
                     current merged.
Proof.
  revert users log current.
  induction ownerIds as [|owner rest IH];
    intros users log current Hlinked Hcurrent.
  - cbn in Hlinked. injection Hlinked as <- <-. by exists current.
  - cbn [linkUsers] in Hlinked.
    destruct (users !! ("internal", owner)) as [ownerCurrent|] eqn:Howner.
    + destruct (mergeManagedProjectId ownerCurrent newProjectId)
        as [ownerMerged|e] eqn:Hmerge; [|done].
      destruct (decide (owner = userId)) as [->|Hne].
      * rewrite Hcurrent in Howner. injection Howner as <-.
        apply mergeManagedProjectId_Ok in Hmerge as (managed & Hmanaged & ->).
        destruct (IH _ _ _ Hlinked (lookup_insert_eq _ _ _))
          as (merged & Hmerged & Hmeta).
        exists merged. split; [done|].
        rewrite count_occ_cons_eq by done.
        by eapply linkedMetadata_again.
      * rewrite count_occ_cons_neq by done.
        apply (IH _ _ _ Hlinked). rewrite lookup_insert_ne; [done|congruence].
    + assert (owner ≠ userId) as Hne by congruence.
      rewrite count_occ_cons_neq by done.
      destruct (linkUsers rest newProjectId users) as [[r users1] log1] eqn:Hrest.
      injection Hlinked as -> <- _. by eapply IH.
Qed.

End OwnerMetadata.

(** ** [createProject], run *)

Section ProvisionerFacts.
Context `{Externals}.

Definition notFoundAfterCreation (projectId : string) : exn :=
  StackAssertionError
    ("Project with id '" +:+ projectId +:+ "' not found after creation").

Lemma createProjectTx_run ownerIds data w :
  createProjectTx ownerIds data w
  = match provisionGraph data w with
    | (Throw e, w1) => (Throw e, w1)
    | (Ok project, w6) =>
        let projectId := project_id (prisma_project project) in
        let linked := linkUsers ownerIds projectId (projectUsers (db w6)) in
        let w7 := afterLinking w6 linked in
        match linked.1.1 with
        | Throw e => (Throw e, w7)
        | Ok _ =>
            match loadProject (db w7) projectId with
            | None => (Throw (notFoundAfterCreation projectId), w7)
            | Some result => (Ok result, w7)
            end
        end
    end.
Proof.
  unfold createProjectTx. rewrite bind_run.
  destruct (provisionGraph data w) as [[project|e] w6]; [|done].
  rewrite bind_run, linkOwners_linkUsers. cbn zeta.
  destruct (linkUsers _ _ _) as [[[[]|e] users'] log]; [|done].
  cbn [fst snd]. unfold reloadProject, tx_project_findUnique. run.
  by destruct (loadProject _ _).
Qed.

Lemma createProject_run ownerIds data w :
  createProject ownerIds data w
  = match createProjectTx ownerIds data w with
    | (Ok result, w') => (projectPrismaToCrud result, w')
    | (Throw e, w') =>
        (Throw e, {| db := db w; uuidCount := uuidCount w'; clock := clock w';
                     captured := captured w' |})
    end.
Proof.
  unfold createProject, transaction. rewrite bind_run.
  by destruct (createProjectTx ownerIds data w) as [[result|e] w'].
Qed.

(** What a successful [createProject] leaves in the store, and what it
    returns. *)
Lemma createProject_Ok ownerIds data w view w' :
  createProject ownerIds data w = (Ok view, w') →
  ∃ providers email first,
    let projectId := uuidSource (uuidCount w) in
    let projectConfigId := uuidSource (S (uuidCount w)) in
    let input := projectCreateInput data projectId providers email in
    let authMethods := requestedAuthMethods projectConfigId data in
    let connectedAccounts :=
      map (requestedConnectedAccount projectConfigId)
          (default [] (configField data Create.oauth_providers)) in
    let p := projectRowOf input (clock w) projectConfigId in
    let c :=
      provisionedConfig (configRowOf input projectConfigId)
        (imap (authMethodRow first) authMethods)
        (imap (connectedAccountRow (first + length authMethods))
              connectedAccounts)
        [permissionRowOf
           (uuidSource (first + length authMethods + length connectedAccounts))
           (memberPermission projectId projectConfigId);
         permissionRowOf
           (uuidSource (S (first + length authMethods + length connectedAccounts)))
           (adminPermission projectId projectConfigId)] in
    let linked := linkUsers ownerIds projectId (projectUsers (db w)) in
    oauthProviderCreates data = Ok providers
    ∧ emailServiceCreate data = Ok email
    ∧ NoDup (map opc_id (default [] providers))
    ∧ projects (db w) !! projectId = None
    ∧ linked.1.1 = Ok ()
    ∧ projects (db w') = <[projectId := p]> (projects (db w))
    ∧ projectConfigs (db w') = <[projectConfigId := c]> (projectConfigs (db w))
    ∧ projectUsers (db w') = linked.1.2
    ∧ captured w' = captured w ++ linked.2
    ∧ projectPrismaToCrud
        {| prisma_project := p; prisma_config := loadConfig c;
           count_users := countUsers (db w') projectId |} = Ok view.
Proof.
  rewrite createProject_run, createProjectTx_run.
  destruct (provisionGraph data w) as [[project|e] w6] eqn:Hprovision; [|done].
  apply provisionGraph_Ok in Hprovision
    as (providers & email & authMethods & connected & Hproviders & Hemail
        & Hfresh & Hcfresh & Hnodup & Hproject & Hmethods & Hconnected & Hw6).
  rewrite (authMethodCreates_requested data providers) in Hmethods;
    [|done|done|by rewrite Hproject].
  rewrite (connectedAccountCreates_requested data providers) in Hconnected;
    [|done|done|by rewrite Hproject].
  injection Hmethods as <-. injection Hconnected as <-.
  rewrite Hproject in Hw6 |- *.
  cbn [prisma_project prisma_config project_id projectRowOf pci_id
       projectCreateInput config_id loadConfig configRowOf] in Hw6 |- *.
  cbn zeta.
  destruct (linkUsers ownerIds _ (projectUsers (db w6))) as [[r users'] log]
    eqn:Hlinked.
  cbn [fst snd]. destruct r as [[]|e]; [|done].
  destruct (loadProject _ _) as [result|] eqn:Hload; [|done].
  intros [= Hview <-].
  subst w6. unfold afterLinking, setProjectUsers in *.
  cbn [db uuidCount clock captured fst snd setProjectUsers projects
       projectConfigs projectUsers] in *.
  rewrite Hlinked. cbn [fst snd].
  eexists providers, email, _.
  split_and!; try done.
  { by destruct (configField data Create.oauth_providers). }
  unfold loadProject in Hload.
  cbn [db projects projectConfigs projectUsers] in Hload.
  rewrite lookup_insert_eq in Hload. cbn in Hload.
  rewrite lookup_insert_eq in Hload. cbn in Hload.
  injection Hload as <-.
  rewrite <- Hview. f_equal. f_equal.
  by destruct (configField data Create.oauth_providers).
Qed.

End ProvisionerFacts.

(** ** A concrete store and request

    The store holds one user of the internal namespace, who already manages a
    project and has an unrelated metadata key.  The request is the example of
    the specification; [plainRequest] asks for nothing beyond a name. *)

Definition sampleWorld : World :=
  {| db := {| projects := ∅;
              projectConfigs := ∅;
              projectUsers :=
                {[ ("internal", "u1") :=
                     VObj {[ "managedProjectIds" := VArr [VStr "p0"];
                             "theme" := VStr "dark" ]} ]} |};
     uuidCount := 0;
     clock := 1700000000000;
     captured := [] |}.

Definition requestWith (providers : option (list OAuthProviderCrud))
  : Create.Project :=
  {| Create.display_name := "Acme";
     Create.description := None;
     Create.is_production_mode := None;
     Create.config :=
       Some {| Create.sign_up_enabled := None;
               Create.allow_localhost := None;
               Create.create_team_on_sign_up := None;
               Create.client_team_creation_enabled := None;
               Create.client_user_deletion_enabled := None;
               Create.domains := None;
               Create.oauth_providers := providers;
               Create.email_config := None;
               Create.magic_link_enabled := Some true;
               Create.credential_enabled := None;
               Create.passkey_enabled := None |} |}.

Definition googleShared : OAuthProviderCrud :=
  {| op_id := "google"; op_enabled := true; op_type := shared;
     client_id := None; client_secret := None;
     facebook_config_id := None; microsoft_tenant_id := None |}.

Definition githubStandard (secret : option string) : OAuthProviderCrud :=
  {| op_id := "github"; op_enabled := false; op_type := standard;
     client_id := Some "x"; client_secret := secret;
     facebook_config_id := None; microsoft_tenant_id := None |}.

Definition exampleRequest : Create.Project :=
  requestWith (Some [googleShared; githubStandard (Some "y")]).

Definition plainRequest : Create.Project :=
  {| Create.display_name := "Acme";
     Create.description := None;
     Create.is_production_mode := None;
     Create.config := None |}.

(** ** [createProject]: the claims *)

(** The stored project behind a view: its row and its configuration row. *)
Definition storedConfig (w : World) (projectId : string)
  : option ProjectConfigRow :=
  p ← projects (db w) !! projectId;
  projectConfigs (db w) !! configId p.

Section Claims.
Context `{Externals}.

Lemma createProject_storedConfig ownerIds data w view w' :
  createProject ownerIds data w = (Ok view, w') →
  ∃ providers email first c,
    let projectId := uuidSource (uuidCount w) in
    let projectConfigId := uuidSource (S (uuidCount w)) in
    let authMethods := requestedAuthMethods projectConfigId data in
    let connectedAccounts :=
      map (requestedConnectedAccount projectConfigId)
          (default [] (configField data Create.oauth_providers)) in
    read_id view = projectId
    ∧ storedConfig w' (read_id view) = Some c
    ∧ config_id c = projectConfigId
    ∧ oauthProviderCreates data = Ok providers
    ∧ emailServiceCreate data = Ok email
    ∧ NoDup (map opc_id (default [] providers))
    ∧ oauthProviderConfigs c = default [] providers
    ∧ emailServiceConfig c = Some email
    ∧ authMethodConfigs c = imap (authMethodRow first) authMethods
    ∧ connectedAccountConfigs c
      = imap (connectedAccountRow (first + length authMethods)) connectedAccounts
    ∧ permissions c
      = [permissionRowOf
           (uuidSource (first + length authMethods + length connectedAccounts))
           (memberPermission projectId projectConfigId);
         permissionRowOf
           (uuidSource (S (first + length authMethods + length connectedAccounts)))
           (adminPermission projectId projectConfigId)]
    ∧ emailConfigOf (read_id view) (loadConfig c)
      = Ok (email_config (config view)).
Proof.
  intros Hrun.
  apply createProject_Ok in Hrun
    as (providers & email & first & Hproviders & Hemail & Hnodup & Hfresh
        & Hlinked & Hprojects & Hconfigs & Husers & Hcaptured & Hview).
  apply projectPrismaToCrud_Ok_inv in Hview
    as (mapped & emailView & _ & HemailView & _ & _ & _ & HemailEq & _ & _ & Hid).
  cbn [prisma_project project_id projectRowOf pci_id projectCreateInput] in Hid.
  match type of Hconfigs with
  | _ = <[_ := ?c]> _ => exists providers, email, first, c
  end.
  split_and!; try done.
  - unfold storedConfig. rewrite Hid, Hprojects, lookup_insert_eq. cbn.
    rewrite Hconfigs. apply lookup_insert_eq.
  - rewrite HemailEq, Hid. exact HemailView.
Qed.

(** C7.  When the request supplies no [email_config], a successful
    [createProject] stores the shared variant (and only it), and the view it
    returns has [email_config = { type: "shared" }]. *)
Theorem createProject_default_email ownerIds data w view w' :
  createProject ownerIds data w = (Ok view, w') →
  configField data Create.email_config = None →
  email_config (config view) = sharedEmailView
  ∧ ∃ c, storedConfig w' (read_id view) = Some c
         ∧ emailServiceConfig c = Some sharedEmail.
Proof.
  intros Hrun Hnone.
  apply createProject_storedConfig in Hrun
    as (providers & email & first & c & _ & Hstored & _ & _ & Hemail & _ & _
        & Hcemail & _ & _ & _ & Hview).
  unfold emailServiceCreate in Hemail. rewrite Hnone in Hemail.
  injection Hemail as <-. split; [|by exists c].
  unfold emailConfigOf in Hview.
  assert (emailServiceConfig (loadConfig c) = Some sharedEmail) as Hloaded
    by done.
  rewrite Hloaded in Hview. cbn in Hview. by injection Hview as <-.
Qed.

(** C6.  After a successful [createProject], whatever the request, the new
    configuration holds exactly two permissions: ["member"], a default for
    team members, with parent edges to [READ_MEMBERS] and [INVITE_MEMBERS]
    and nothing else; and ["admin"], a default for team creators, with parent
    edges to [UPDATE_TEAM], [DELETE_TEAM], [READ_MEMBERS], [REMOVE_MEMBERS]
    and [INVITE_MEMBERS] and nothing else. *)
Theorem createProject_seeded_permissions ownerIds data w view w' :
  createProject ownerIds data w = (Ok view, w') →
  ∃ c member admin,
    storedConfig w' (read_id view) = Some c
    ∧ permissions c = [member; admin]
    ∧ queryableId member = "member"
    ∧ perm_scope member = "TEAM"
    ∧ isDefaultTeamMemberPermission member = true
    ∧ parentEdges member
      = map (λ p, {| parentTeamSystemPermission := Some p;
                     parentPermissionDbId := None |})
            [READ_MEMBERS; INVITE_MEMBERS]
    ∧ queryableId admin = "admin"
    ∧ perm_scope admin = "TEAM"
    ∧ isDefaultTeamCreatorPermission admin = true
    ∧ parentEdges admin
      = map (λ p, {| parentTeamSystemPermission := Some p;
                     parentPermissionDbId := None |})
            [UPDATE_TEAM; DELETE_TEAM; READ_MEMBERS; REMOVE_MEMBERS;
             INVITE_MEMBERS]
    ∧ perm_projectId member = read_id view
    ∧ perm_projectId admin = read_id view
    ∧ perm_projectConfigId member = config_id c
    ∧ perm_projectConfigId admin = config_id c.
Proof.
  intros Hrun.
  apply createProject_storedConfig in Hrun
    as (providers & email & first & c & Hid & Hstored & Hcid & _ & _ & _ & _
        & _ & _ & _ & Hpermissions & _).
  eexists c, _, _. rewrite Hid, Hcid. rewrite Hid in Hstored.
  split_and!; [exact Hstored|exact Hpermissions|done..].
Qed.

End Claims.

Lemma createProject_default_email_witness :
  ∃ view w',
    createProject (H := sampleEnv) ["u1"] plainRequest sampleWorld = (Ok view, w')
    ∧ email_config (config view) = sharedEmailView.
Proof.
  destruct (createProject (H := sampleEnv) ["u1"] plainRequest sampleWorld)
    as [[view|e] w'] eqn:Hrun.
  - exists view, w'. split; [reflexivity|].
    by apply (createProject_default_email (H := sampleEnv) ["u1"] plainRequest
                sampleWorld view w' Hrun).
  - vm_compute in Hrun. discriminate.
Defined.

Lemma createProject_seeded_permissions_witness :
  ∃ view w' c,
    createProject (H := sampleEnv) ["u1"] exampleRequest sampleWorld
    = (Ok view, w')
    ∧ storedConfig w' (read_id view) = Some c
    ∧ map queryableId (permissions c) = ["member"; "admin"].
Proof.
  destruct (createProject (H := sampleEnv) ["u1"] exampleRequest sampleWorld)
    as [[view|e] w'] eqn:Hrun.
  - destruct (createProject_seeded_permissions (H := sampleEnv) ["u1"]
                exampleRequest sampleWorld view w' Hrun)
      as (c & member & admin & Hstored & Hpermissions & Hmember & _ & _ & _
          & Hadmin & _).
    exists view, w', c. split; [reflexivity|]. split; [exact Hstored|].
    rewrite Hpermissions. cbn. by rewrite Hmember, Hadmin.
  - vm_compute in Hrun. discriminate.
Defined.

(** ** [createProject]: the enablement tables *)

(** The provider reference and the flag of an enablement row that has one. *)
Definition authMethodPair (r : AuthMethodConfigRow) : option (string * bool) :=
  providerId ← amr_oauthProviderConfigId r; Some (providerId, amr_enabled r).

Definition connectedAccountPair (r : ConnectedAccountConfigRow)
  : option (string * bool) :=
  providerId ← car_oauthProviderConfigId r; Some (providerId, car_enabled r).

Definition requestedPair (entry : OAuthProviderCrud) : string * bool :=
  (op_id entry, op_enabled entry).

Lemma omap_imap_indep {A B C} (f : nat → A → B) (g : B → option C)
    (h : A → option C) (l : list A) :
  (∀ i x, g (f i x) = h x) → omap g (imap f l) = omap h l.
Proof.
  revert f. induction l as [|x l IH]; intros f Hf; [done|].
  cbn. rewrite Hf, IH; [done|]. intros i y. apply Hf.
Qed.

Lemma omap_Some_map {A B} (f : A → B) (l : list A) :
  omap (λ x, Some (f x)) l = map f l.
Proof. induction l as [|x l IH]; cbn; [done|]. by rewrite IH. Qed.

Section EnablementTables.
Context `{Externals}.

Lemma requestedAuthMethods_pairs projectConfigId data :
  omap (λ input, providerId ← snd <$> amci_connect input;
                 Some (providerId, amci_enabled input))
       (requestedAuthMethods projectConfigId data)
  = map requestedPair (default [] (configField data Create.oauth_providers)).
Proof.
  unfold requestedAuthMethods. rewrite !omap_app.
  rewrite <- (app_nil_r (map requestedPair _)). f_equal.
  - induction (default [] (configField data Create.oauth_providers))
      as [|entry l IH]; cbn; [done|]. by rewrite IH.
  - by repeat case_bool_decide.
Qed.

Lemma oauthProviderCreates_NoDup data providers items :
  oauthProviderCreates data = Ok providers →
  configField data Create.oauth_providers = Some items →
  NoDup (map opc_id (default [] providers)) →
  NoDup (map op_id items).
Proof.
  intros Hproviders Hitems Hnodup.
  apply oauthProviderCreates_ids in Hproviders. rewrite Hitems in Hproviders.
  destruct Hproviders as (created & -> & Hpaired). cbn in Hnodup.
  assert (map opc_id created = map op_id items) as <-; [|done].
  clear -Hpaired. induction Hpaired; cbn; congruence.
Qed.

(** C2.  After a successful [createProject] on a request that lists OAuth
    providers, the connected-account rows and the OAuth rows of the
    auth-method table pair off with the request entries, in order: the i-th
    row of each table references the i-th requested provider and carries that
    entry's [enabled] flag.  The requested ids are pairwise distinct, so each
    provider has exactly one row in each table. *)
Theorem createProject_connected_accounts_mirror ownerIds data w view w' items :
  createProject ownerIds data w = (Ok view, w') →
  configField data Create.oauth_providers = Some items →
  ∃ c,
    storedConfig w' (read_id view) = Some c
    ∧ omap connectedAccountPair (connectedAccountConfigs c)
      = map requestedPair items
    ∧ omap authMethodPair (authMethodConfigs c) = map requestedPair items
    ∧ length (connectedAccountConfigs c) = length items
    ∧ NoDup (map op_id items).
Proof.
  intros Hrun Hitems.
  apply createProject_storedConfig in Hrun
    as (providers & email & first & c & _ & Hstored & _ & Hproviders & _
        & Hnodup & _ & _ & Hmethods & Hconnected & _).
  exists c. rewrite Hitems in Hconnected. cbn [default] in Hconnected.
  split_and!.
  - done.
  - rewrite Hconnected.
    rewrite (omap_imap_indep _ _ (λ input, Some (requestedPair
               {| op_id := (caci_connect input).2;
                  op_enabled := caci_enabled input;
                  op_type := shared; client_id := None; client_secret := None;
                  facebook_config_id := None; microsoft_tenant_id := None |})))
      by done.
    rewrite omap_Some_map, map_map. done.
  - rewrite Hmethods.
    rewrite (omap_imap_indep _ _
               (λ input, providerId ← snd <$> amci_connect input;
                         Some (providerId, amci_enabled input))) by done.
    rewrite requestedAuthMethods_pairs. by rewrite Hitems.
  - rewrite Hconnected. by rewrite length_imap, length_map.
  - by eapply oauthProviderCreates_NoDup.
Qed.

(** C5.  After a successful [createProject] the auth-method table of the new
    configuration holds exactly the rows the request asks for
    ([requestedAuthMethods]), in that order, with fresh row identifiers; and
    the enablement lookup for a provider that is in no request entry throws
    what [throwErr("oauth provider not found")] raises. *)
Theorem createProject_auth_methods ownerIds data w view w' :
  createProject ownerIds data w = (Ok view, w') →
  (∃ c first,
     storedConfig w' (read_id view) = Some c
     ∧ authMethodConfigs c
       = imap (authMethodRow first) (requestedAuthMethods (config_id c) data))
  ∧ ∀ created,
      (∀ items entry, configField data Create.oauth_providers = Some items →
                      entry ∈ items → op_id entry ≠ opc_id created) →
      requestedEnabled data created
      = Throw (throwErr "oauth provider not found").
Proof.
  intros Hrun. split; [|apply requestedEnabled_absent].
  apply createProject_storedConfig in Hrun
    as (providers & email & first & c & _ & Hstored & Hcid & _ & _ & _ & _ & _
        & Hmethods & _).
  exists c, first. by rewrite Hcid.
Qed.

End EnablementTables.

Lemma createProject_connected_accounts_mirror_witness :
  ∃ view w' c,
    createProject (H := sampleEnv) ["u1"] exampleRequest sampleWorld
    = (Ok view, w')
    ∧ storedConfig w' (read_id view) = Some c
    ∧ omap connectedAccountPair (connectedAccountConfigs c)
      = [("google", true); ("github", false)]
    ∧ omap authMethodPair (authMethodConfigs c)
      = [("google", true); ("github", false)].
Proof.
  destruct (createProject (H := sampleEnv) ["u1"] exampleRequest sampleWorld)
    as [[view|e] w'] eqn:Hrun.
  - assert (configField exampleRequest Create.oauth_providers
            = Some [googleShared; githubStandard (Some "y")]) as Hitems
      by reflexivity.
    destruct (createProject_connected_accounts_mirror (H := sampleEnv) ["u1"]
                exampleRequest sampleWorld view w' _ Hrun Hitems)
      as (c & Hstored & Hconnected & Hmethods & _).
    exists view, w', c.
    split; [reflexivity|].
    split; [exact Hstored|].
    split; [exact Hconnected|exact Hmethods].
  - vm_compute in Hrun. discriminate.
Defined.

Lemma createProject_auth_methods_witness :
  ∃ view w' c,
    createProject (H := sampleEnv) ["u1"] exampleRequest sampleWorld
    = (Ok view, w')
    ∧ storedConfig w' (read_id view) = Some c
    ∧ map (λ r, (amr_enabled r, amr_oauthProviderConfigId r,
                 contactChannelType <$> amr_otpConfig r,
                 amr_passwordConfig r, amr_passkeyConfig r))
          (authMethodConfigs c)
      = [ (true, Some "google", None, None, None);
          (false, Some "github", None, None, None);
          (true, None, Some "EMAIL", None, None);
          (true, None, None, Some (), None) ].
Proof.
  destruct (createProject (H := sampleEnv) ["u1"] exampleRequest sampleWorld)
    as [[view|e] w'] eqn:Hrun.
  - destruct (createProject_auth_methods (H := sampleEnv) ["u1"]
                exampleRequest sampleWorld view w' Hrun)
      as [(c & first & Hstored & Hmethods) _].
    exists view, w', c. split; [reflexivity|]. split; [exact Hstored|].
    rewrite Hmethods. reflexivity.
  - vm_compute in Hrun. discriminate.
Defined.

(** ** [createProject]: rejected requests *)

(** A standard entry without [client_id] or without [client_secret]. *)
Definition missingCredentials (entry : OAuthProviderCrud) : Prop :=
  op_type entry = standard
  ∧ (client_id entry = None ∨ client_secret entry = None).

Section Rejections.
Context `{Externals}.

(** The exceptions raised while the provider entries of a request are
    checked: the allowlist check of the entry's declared type, or a missing
    credential of a standard entry. *)
Definition rejectedEntry (entry : OAuthProviderCrud) (e : exn) : Prop :=
  match op_type entry with
  | shared => ensureSharedProvider (op_id entry) = Throw e
  | standard =>
      ensureStandardProvider (op_id entry) = Throw e
      ∨ (client_id entry = None ∧ e = throwErr "client_id is required")
      ∨ (client_secret entry = None ∧ e = throwErr "client_secret is required")
  end.

Lemma oauthProviderCreate_Throw entry e :
  oauthProviderCreate entry = Throw e → rejectedEntry entry e.
Proof.
  unfold oauthProviderCreate, rejectedEntry, orThrow, mbind, result_bind, rbind,
    mret, result_ret.
  intros Hthrow. repeat case_match; simplify_eq; eauto.
Qed.

Lemma oauthProviderCreate_missingCredentials entry :
  missingCredentials entry → ∃ e, oauthProviderCreate entry = Throw e.
Proof.
  intros [Htype Hmissing].
  unfold oauthProviderCreate, orThrow, mbind, result_bind, rbind, mret,
    result_ret.
  rewrite Htype.
  destruct (ensureStandardProvider (op_id entry)); [|by eexists].
  destruct (client_id entry); [|by eexists].
  destruct (client_secret entry); [|by eexists].
  by destruct Hmissing.
Qed.

Lemma provisionGraph_rejected data w e :
  oauthProviderCreates data = Throw e →
  provisionGraph data w
  = (Throw e, {| db := db w; uuidCount := S (uuidCount w); clock := clock w;
                 captured := captured w |}).
Proof.
  intros Hthrow. unfold provisionGraph. run. by rewrite Hthrow.
Qed.

(** C4 (as amended).  If the request lists a standard provider entry without
    [client_id] or without [client_secret], [createProject] throws, for every
    store and every owner list.  What it throws is what the check of the
    first provider entry that does not pass raises: the allowlist error of
    the entry's declared type, or what [throwErr] raises for
    ["client_id is required"] or ["client_secret is required"].  The database
    is left as it was, and nothing is recorded.  [throwErr] is also what
    reports, with ["oauth provider not found"], a created provider that the
    request does not list. *)
Theorem createProject_rejects_missing_credentials ownerIds data w items entry :
  configField data Create.oauth_providers = Some items →
  entry ∈ items →
  missingCredentials entry →
  ∃ before bad after e w',
    createProject ownerIds data w = (Throw e, w')
    ∧ items = before ++ bad :: after
    ∧ (∀ x, x ∈ before → ∃ created, oauthProviderCreate x = Ok created)
    ∧ rejectedEntry bad e
    ∧ db w' = db w
    ∧ captured w' = captured w
    ∧ ∀ created,
        (∀ x, x ∈ items → op_id x ≠ opc_id created) →
        requestedEnabled data created
        = Throw (throwErr "oauth provider not found").
Proof.
  intros Hitems Hin Hmissing.
  destruct (oauthProviderCreate_missingCredentials entry Hmissing)
    as [e0 Hentry].
  destruct (mapR_Throw oauthProviderCreate items entry e0 Hin Hentry)
    as (? & e & _ & _ & Hmap).
  pose proof Hmap as Hfirst.
  apply mapR_Throw_first in Hfirst
    as (before & bad & after & Hlist & Hbefore & Hbad).
  assert (oauthProviderCreates data = Throw e) as Hcreates.
  { unfold oauthProviderCreates. by rewrite Hitems, Hmap. }
  exists before, bad, after, e. eexists.
  rewrite createProject_run, createProjectTx_run.
  rewrite (provisionGraph_rejected data w e Hcreates).
  split_and!;
    [reflexivity|done|done|by apply oauthProviderCreate_Throw|done|done|].
  intros created Habsent. apply requestedEnabled_absent.
  intros items' item Hitems' Hitem. rewrite Hitems in Hitems'.
  injection Hitems' as <-. by apply Habsent.
Qed.

End Rejections.

(** An environment that differs from [sampleEnv] in [throwErr] alone: the
    helper raises a [StackAssertionError] that carries its message, the error
    class the file imports next to it and constructs at its own assertions. *)
Definition assertingEnv : Externals :=
  {| typedToLowercase := typedToLowercase (Externals := sampleEnv);
     typedToUppercase := typedToUppercase (Externals := sampleEnv);
     localeCompare := codeCompare;
     localeCompare_antisym := codeCompare_antisym;
     localeCompare_trans := codeCompare_trans;
     teamPermissionDefinitionJsonFromDbType :=
       teamPermissionDefinitionJsonFromDbType (Externals := sampleEnv);
     teamPermissionDefinitionJsonFromTeamSystemDbType :=
       teamPermissionDefinitionJsonFromTeamSystemDbType (Externals := sampleEnv);
     ensureSharedProvider := ensureSharedProvider (Externals := sampleEnv);
     ensureStandardProvider := ensureStandardProvider (Externals := sampleEnv);
     throwErr := StackAssertionError;
     uuidSource := uuidSource (Externals := sampleEnv);
     default_signUpEnabled := true;
     default_legacyGlobalJwtSigning := false;
     default_teamCreateDefaultSystemPermissions := [];
     default_teamMemberDefaultSystemPermissions := [];
     default_isDefaultTeamCreatorPermission := false;
     default_isDefaultTeamMemberPermission := false |}.

(** C4 fails as stated.  The code has no error class for caller input: a
    missing credential is reported through [throwErr], the helper that also
    reports a provider missing from the request list.  Where [throwErr]
    raises a [StackAssertionError], the request with a standard entry
    without [client_secret] is rejected with a [StackAssertionError], the
    class of the code's own assertions, which is also what the lookup of a
    provider that the request does not list raises. *)
Lemma missing_credentials_raise_assertion_error :
  (∃ w',
     createProject (H := assertingEnv) ["u1"]
       (requestWith (Some [googleShared; githubStandard None])) sampleWorld
     = (Throw (StackAssertionError "client_secret is required"), w')
     ∧ db w' = db sampleWorld)
  ∧ requestedEnabled (H := assertingEnv) (requestWith (Some [googleShared]))
      {| opc_id := "github"; proxiedOAuthConfig := None;
         standardOAuthConfig := None |}
    = Throw (StackAssertionError "oauth provider not found").
Proof.
  split; [|vm_compute; reflexivity].
  eexists. split; vm_compute; reflexivity.
Qed.

Lemma createProject_rejects_missing_credentials_witness :
  ∃ w',
    createProject (H := sampleEnv) ["u1"]
      (requestWith (Some [googleShared; githubStandard None])) sampleWorld
    = (Throw (ExternalError "throwErr" "client_secret is required"), w')
    ∧ db w' = db sampleWorld.
Proof.
  assert (configField (requestWith (Some [googleShared; githubStandard None]))
                      Create.oauth_providers
          = Some [googleShared; githubStandard None]) as Hitems by reflexivity.
  assert (githubStandard None ∈ [googleShared; githubStandard None]) as Hin.
  { right. left. }
  assert (missingCredentials (githubStandard None)) as Hmissing.
  { split; [reflexivity|]. right. reflexivity. }
  destruct (createProject_rejects_missing_credentials (H := sampleEnv) ["u1"]
              (requestWith (Some [googleShared; githubStandard None]))
              sampleWorld _ _ Hitems Hin Hmissing)
    as (before & bad & after & e & w' & Hrun & _ & _ & _ & Hdb & _ & _).
  exists w'. split; [|exact Hdb].
  rewrite Hrun. f_equal.
  vm_compute in Hrun. by injection Hrun as <- _.
Defined.

(** ** [createProject]: the owners *)

Section Owners.
Context `{Externals}.

Lemma provisionGraph_projectUsers data w project w6 :
  provisionGraph data w = (Ok project, w6) →
  projectUsers (db w6) = projectUsers (db w)
  ∧ captured w6 = captured w
  ∧ project_id (prisma_project project) = uuidSource (uuidCount w).
Proof.
  intros Hprovision.
  apply provisionGraph_Ok in Hprovision
    as (providers & email & authMethods & connected & _ & _ & _ & _ & _
        & -> & _ & _ & ->).
  done.
Qed.

(** C9.  After a successful [createProject], the metadata of an owner who has
    a row in the internal namespace is an object whose [managedProjectIds] is
    the previous list followed by the new project id (once for each time the
    owner is named), and every other top-level property is what it was. *)
Theorem createProject_owner_metadata ownerIds data w view w' userId current :
  createProject ownerIds data w = (Ok view, w') →
  userId ∈ ownerIds →
  projectUsers (db w) !! ("internal", userId) = Some current →
  ∃ managed m,
    managedBefore current = Ok managed
    ∧ projectUsers (db w') !! ("internal", userId) = Some (VObj m)
    ∧ m !! "managedProjectIds"
      = Some (VArr (managed
                    ++ replicate (count_occ string_dec ownerIds userId)
                                 (VStr (read_id view))))
    ∧ (∀ k, k ≠ "managedProjectIds" → m !! k = propertiesBefore current !! k)
    ∧ (∀ m0, current = VObj m0 →
             ∀ k, k ≠ "managedProjectIds" → m !! k = m0 !! k).
Proof.
  intros Hrun Hin Hcurrent.
  apply createProject_Ok in Hrun
    as (providers & email & first & _ & _ & _ & _ & Hlinked & _ & _ & Husers
        & _ & Hview).
  apply projectPrismaToCrud_Ok_inv in Hview
    as (_ & _ & _ & _ & _ & _ & _ & _ & _ & _ & Hid).
  cbn [prisma_project project_id projectRowOf pci_id projectCreateInput] in Hid.
  rewrite Husers, Hid.
  destruct (linkUsers ownerIds _ (projectUsers (db w))) as [[r users'] log]
    eqn:Hloop.
  cbn [fst snd] in *. subst r.
  destruct (linkUsers_metadata _ _ _ _ _ userId current Hloop Hcurrent)
    as (merged & Hmerged & Hmeta).
  apply list_elem_of_In, (count_occ_In string_dec) in Hin.
  destruct (count_occ string_dec ownerIds userId) as [|times] eqn:Hcount;
    [lia|].
  destruct Hmeta as (managed & m & Hmanaged & -> & Hkey & Hother).
  exists managed, m. split_and!; try done.
  intros m0 -> k Hk. by rewrite Hother.
Qed.

End Owners.

Lemma createProject_owner_metadata_witness :
  ∃ view w' m,
    createProject (H := sampleEnv) ["u1"; "ghost"] exampleRequest sampleWorld
    = (Ok view, w')
    ∧ projectUsers (db w') !! ("internal", "u1") = Some (VObj m)
    ∧ m !! "managedProjectIds" = Some (VArr [VStr "p0"; VStr (read_id view)])
    ∧ m !! "theme" = Some (VStr "dark").
Proof.
  assert (projectUsers (db sampleWorld) !! ("internal", "u1")
          = Some (VObj {[ "managedProjectIds" := VArr [VStr "p0"];
                          "theme" := VStr "dark" ]})) as Hcurrent
    by (vm_compute; reflexivity).
  assert ("u1" ∈ ["u1"; "ghost"]) as Hin by left.
  destruct (createProject (H := sampleEnv) ["u1"; "ghost"] exampleRequest
              sampleWorld) as [[view|e] w'] eqn:Hrun.
  - destruct (createProject_owner_metadata (H := sampleEnv) ["u1"; "ghost"]
                exampleRequest sampleWorld view w' "u1" _ Hrun Hin Hcurrent)
      as (managed & m & Hmanaged & Hstored & Hkey & _ & Hother).
    exists view, w', m. split; [reflexivity|]. split; [exact Hstored|].
    vm_compute in Hmanaged. injection Hmanaged as <-.
    split; [exact Hkey|].
    rewrite (Hother _ eq_refl "theme") by discriminate.
    vm_compute. reflexivity.
  - vm_compute in Hrun. discriminate.
Defined.

(** ** When [createProject] returns

    Conditions under which the call goes through: the request passes the
    provider and email checks, the requested provider ids and domains are
    pairwise distinct, the identifiers drawn for the project and its
    configuration are unused, and every owner who has a row has metadata whose
    [managedProjectIds] can be spread.  Owners without a row are no
    obstacle. *)

Lemma mapR_Ok_all {A B} (f : A → result B) (l : list A) :
  (∀ x, x ∈ l → ∃ y, f x = Ok y) → ∃ ys, mapR f l = Ok ys.
Proof.
  induction l as [|x l IH]; intros Hall; [by eexists|].
  destruct (Hall x) as [y Hy]; [by left|].
  destruct IH as [ys Hys]; [intros x' Hx'; apply Hall; by right|].
  exists (y :: ys). cbn. by rewrite Hy, Hys.
Qed.

Section Success.
Context `{Externals}.

Lemma tx_project_create_succeeds data w :
  projects (db w) !! pci_id data = None →
  projectConfigs (db w) !! uuidSource (uuidCount w) = None →
  NoDup (map opc_id (default [] (pci_oauthProviderConfigs data))) →
  NoDup (map dom_domain (default [] (pci_domains data))) →
  ∃ project w1, tx_project_create data w = (Ok project, w1).
Proof.
  intros Hp Hc Hproviders Hdomains. unfold tx_project_create. run.
  rewrite Hp, Hc.
  case_bool_decide as Hp'; [by destruct Hp'|].
  case_bool_decide as Hc'; [by destruct Hc'|].
  case_bool_decide; [|done].
  case_bool_decide; [|done].
  cbn [negb]. run. by eexists _, _.
Qed.

Lemma tx_projectConfig_update_authMethodConfigs_succeeds whereId create w c :
  projectConfigs (db w) !! whereId = Some c →
  forallb (λ input, from_option (connectable c) true (amci_connect input))
          create = true →
  ∃ w1, tx_projectConfig_update_authMethodConfigs whereId create w = (Ok (), w1).
Proof.
  intros Hc Hconnect. unfold tx_projectConfig_update_authMethodConfigs. run.
  rewrite Hc, Hconnect. cbn [negb]. run. by eexists.
Qed.

Lemma tx_projectConfig_update_connectedAccountConfigs_succeeds whereId create
    w c :
  projectConfigs (db w) !! whereId = Some c →
  forallb (λ input, connectable c (caci_connect input)) (default [] create)
  = true →
  ∃ w1, tx_projectConfig_update_connectedAccountConfigs whereId create w
        = (Ok (), w1).
Proof.
  intros Hc Hconnect.
  unfold tx_projectConfig_update_connectedAccountConfigs. run.
  rewrite Hc. cbn zeta. rewrite Hconnect. cbn [negb]. run. by eexists.
Qed.

Lemma tx_permission_create_succeeds data w p c :
  projects (db w) !! pmi_projectId data = Some p →
  projectConfigs (db w) !! pmi_projectConfigId data = Some c →
  ∃ w1, tx_permission_create data w = (Ok (), w1).
Proof.
  intros Hp Hc. unfold tx_permission_create. run.
  rewrite Hp, Hc. run. by eexists.
Qed.

(** A provider created from a request entry is found again by the entry's
    id. *)
Lemma loadProvider_requested (c : ProjectConfigRow) items entry :
  Forall2 (λ p item, opc_id p = op_id item) (oauthProviderConfigs c) items →
  entry ∈ items →
  ∃ p, loadProvider c (Some (op_id entry)) = Some p
       ∧ p ∈ oauthProviderConfigs c.
Proof.
  intros Hpaired Hin. unfold loadProvider, find. cbn.
  destruct (List.find _ _) as [p|] eqn:Hfind.
  - apply List.find_some in Hfind as [Hp _].
    exists p. split; [done|]. by apply list_elem_of_In.
  - exfalso.
    assert (∃ p, p ∈ oauthProviderConfigs c ∧ opc_id p = op_id entry)
      as (p & Hp & Hid).
    { clear Hfind. induction Hpaired as [|p item ps items' Hid _ IH].
      - by apply elem_of_nil in Hin.
      - apply elem_of_cons in Hin as [->|Hin].
        + exists p. split; [by left|done].
        + destruct (IH Hin) as (p' & Hp' & Hid'). exists p'.
          split; [by right|done]. }
    apply list_elem_of_In in Hp.
    apply (List.find_none _ _ Hfind) in Hp.
    apply String.eqb_neq in Hp. done.
Qed.

Lemma connectable_requested (c : ProjectConfigRow) items entry :
  Forall2 (λ p item, opc_id p = op_id item) (oauthProviderConfigs c) items →
  entry ∈ items →
  connectable c (config_id c, op_id entry) = true.
Proof.
  intros Hpaired Hin. unfold connectable. cbn [fst snd].
  rewrite String.eqb_refl.
  by destruct (loadProvider_requested c items entry Hpaired Hin) as (p & -> & _).
Qed.

(** Every requested auth method either connects to a provider of the request
    or connects to nothing. *)
Lemma requestedAuthMethods_connect projectConfigId data input :
  input ∈ requestedAuthMethods projectConfigId data →
  amci_connect input = None
  ∨ ∃ entry, entry ∈ default [] (configField data Create.oauth_providers)
             ∧ amci_connect input = Some (projectConfigId, op_id entry).
Proof.
  unfold requestedAuthMethods. rewrite !elem_of_app.
  intros [Hin|[Hin|[Hin|Hin]]].
  - apply list_elem_of_fmap in Hin as (entry & -> & Hentry).
    right. by exists entry.
  - left. case_bool_decide; [|by apply elem_of_nil in Hin].
    by apply list_elem_of_singleton in Hin as ->.
  - left. case_bool_decide; [by apply elem_of_nil in Hin|].
    by apply list_elem_of_singleton in Hin as ->.
  - left. case_bool_decide; [|by apply elem_of_nil in Hin].
    by apply list_elem_of_singleton in Hin as ->.
Qed.

Lemma oauthProviderCreate_variant item created :
  oauthProviderCreate item = Ok created →
  is_Some (proxiedOAuthConfig created) ∨ is_Some (standardOAuthConfig created).
Proof.
  unfold oauthProviderCreate, orThrow, mbind, result_bind, rbind, mret,
    result_ret.
  intros Hcreated. repeat case_match; simplify_eq; cbn; eauto.
Qed.

Lemma emailServiceCreate_variant data email :
  emailServiceCreate data = Ok email →
  is_Some (proxiedEmailServiceConfig email)
  ∨ is_Some (standardEmailServiceConfig email).
Proof.
  unfold emailServiceCreate, orThrow, mbind, result_bind, rbind, mret,
    result_ret.
  intros Hcreated. repeat case_match; simplify_eq; cbn; eauto.
Qed.

Lemma mergeManagedProjectId_succeeds current managed newProjectId :
  managedBefore current = Ok managed →
  mergeManagedProjectId current newProjectId
  = Ok (VObj (<["managedProjectIds" := VArr (managed ++ [VStr newProjectId])]>
                (propertiesBefore current))).
Proof.
  unfold mergeManagedProjectId, managedBefore, propertiesBefore.
  rewrite coalesce_object_twice. by intros ->.
Qed.

Lemma linkUsers_succeeds ownerIds newProjectId users :
  (∀ userId current,
     userId ∈ ownerIds → users !! ("internal", userId) = Some current →
     ∃ managed, managedBefore current = Ok managed) →
  (linkUsers ownerIds newProjectId users).1.1 = Ok ().
Proof.
  revert users. induction ownerIds as [|owner rest IH]; intros users Hspread;
    [done|].
  cbn [linkUsers].
  destruct (users !! ("internal", owner)) as [current|] eqn:Howner.
  - destruct (Hspread owner current) as [managed Hmanaged]; [by left|done|].
    rewrite (mergeManagedProjectId_succeeds _ _ _ Hmanaged).
    apply IH. intros userId current' Hin Hlookup.
    destruct (decide (owner = userId)) as [->|Hne].
    + rewrite lookup_insert_eq in Hlookup. injection Hlookup as <-.
      eexists. unfold managedBefore. cbn. by rewrite lookup_insert_eq.
    + rewrite lookup_insert_ne in Hlookup by congruence.
      eapply Hspread; [by right|done].
  - specialize (IH users).
    destruct (linkUsers rest newProjectId users) as [[r users'] log].
    apply IH. intros userId current Hin. apply Hspread. by right.
Qed.

End Success.

Section SuccessOfCreate.
Context `{Externals}.

Lemma projectPrismaToCrud_succeeds prisma :
  (∀ config, config ∈ authMethodConfigs (prisma_config prisma) →
             ¬ lacksVariant config) →
  (∃ e, emailServiceConfig (prisma_config prisma) = Some e
        ∧ (is_Some (proxiedEmailServiceConfig e)
           ∨ is_Some (standardEmailServiceConfig e))) →
  ∃ view, projectPrismaToCrud prisma = Ok view.
Proof.
  intros Hmethods (e & He & Hvariant). unfold projectPrismaToCrud.
  destruct (mapR_Ok_all (oauthProviderOf (project_id (prisma_project prisma)))
              (authMethodConfigs (prisma_config prisma))) as [mapped ->].
  { intros config Hin.
    destruct (oauthProviderOf _ config) as [y|err] eqn:Hconfig; [by eexists|].
    apply oauthProviderOf_Throw in Hconfig as [Hlacks _].
    by destruct (Hmethods config Hin). }
  cbn. unfold emailConfigOf. rewrite He.
  destruct Hvariant as [[? ->]|[? Hstd]]; [by eexists|].
  rewrite Hstd. destruct (proxiedEmailServiceConfig e); by eexists.
Qed.

Lemma created_paired data providers :
  oauthProviderCreates data = Ok providers →
  Forall2 (λ p item, opc_id p = op_id item) (default [] providers)
          (default [] (configField data Create.oauth_providers))
  ∧ ∀ p, p ∈ default [] providers →
         is_Some (proxiedOAuthConfig p) ∨ is_Some (standardOAuthConfig p).
Proof.
  unfold oauthProviderCreates.
  destruct (configField data Create.oauth_providers) as [items|].
  - destruct (mapR oauthProviderCreate items) as [created|e] eqn:Hcreated;
      [|done].
    cbn. intros [= <-]. cbn. apply mapR_Ok_Forall2 in Hcreated. split.
    + apply Forall2_flip. eapply Forall2_impl; [done|].
      intros item p. apply oauthProviderCreate_id.
    + intros p Hp. clear -Hcreated Hp.
      induction Hcreated as [|item c items created Hc _ IH];
        [by apply elem_of_nil in Hp|].
      apply elem_of_cons in Hp as [->|Hp]; [|by apply IH].
      by eapply oauthProviderCreate_variant.
  - cbn. intros [= <-]. cbn. split; [constructor|].
    intros p Hp. by apply elem_of_nil in Hp.
Qed.

Lemma provisionGraph_succeeds data w providers email :
  oauthProviderCreates data = Ok providers →
  emailServiceCreate data = Ok email →
  NoDup (map op_id (default [] (configField data Create.oauth_providers))) →
  NoDup (map domain (default [] (configField data Create.domains))) →
  projects (db w) !! uuidSource (uuidCount w) = None →
  projectConfigs (db w) !! uuidSource (S (uuidCount w)) = None →
  ∃ project w6, provisionGraph data w = (Ok project, w6).
Proof.
  intros Hproviders Hemail Hids Hdomains Hfresh Hcfresh.
  destruct (created_paired data providers Hproviders) as [Hpaired _].
  assert (NoDup (map opc_id (default [] providers))) as Hnodup.
  { assert (map opc_id (default [] providers)
            = map op_id (default [] (configField data Create.oauth_providers)))
      as ->; [|done].
    clear -Hpaired. induction Hpaired; cbn; congruence. }
  unfold provisionGraph. run. rewrite Hproviders. run. rewrite Hemail. run.
  destruct (tx_project_create_succeeds
              (projectCreateInput data (uuidSource (uuidCount w)) providers email)
              {| db := db w; uuidCount := S (uuidCount w); clock := clock w;
                 captured := captured w |})
    as (project & w1 & Hcreate); try done.
  { cbn [pci_domains projectCreateInput].
    destruct (configField data Create.domains) as [items|]; [|constructor].
    cbn in Hdomains |- *. by rewrite map_map. }
  rewrite Hcreate.
  apply tx_project_create_Ok in Hcreate as (_ & _ & _ & -> & ->).
  cbn [db uuidCount clock captured pci_id projectCreateInput
       prisma_project prisma_config project_id projectRowOf
       config_id loadConfig configRowOf] in *.
  run.
  rewrite (authMethodCreates_requested data providers) by done.
  run.
  set (c0 := configRowOf _ _).
  assert (Forall2 (λ p item, opc_id p = op_id item) (oauthProviderConfigs c0)
                  (default [] (configField data Create.oauth_providers)))
    as Hpaired0 by done.
  match goal with
  | |- context [tx_projectConfig_update_authMethodConfigs ?i ?cr ?w0] =>
      destruct (tx_projectConfig_update_authMethodConfigs_succeeds i cr w0 c0)
        as (w2 & Hupdate1)
  end.
  { apply lookup_insert_eq. }
  { apply forallb_forall. intros input Hinput.
    apply list_elem_of_In, requestedAuthMethods_connect in Hinput
      as [->|(entry & Hentry & ->)]; [done|].
    cbn [from_option].
    by apply (connectable_requested c0
                (default [] (configField data Create.oauth_providers)) entry). }
  rewrite Hupdate1.
  eapply tx_projectConfig_update_authMethodConfigs_Ok in Hupdate1 as ->;
    [|apply lookup_insert_eq].
  run.
  rewrite (connectedAccountCreates_requested data providers) by done.
  run.
  match goal with
  | |- context [tx_projectConfig_update_connectedAccountConfigs ?i ?cr ?w0] =>
      destruct (tx_projectConfig_update_connectedAccountConfigs_succeeds
                  i cr w0 (setAuthMethodConfigs c0
                             (authMethodConfigs c0
                              ++ imap (authMethodRow (S (S (uuidCount w))))
                                   (requestedAuthMethods
                                      (uuidSource (S (uuidCount w))) data))))
        as (w3 & Hupdate2)
  end.
  { apply lookup_insert_eq. }
  { apply forallb_forall. intros input Hinput.
    destruct (configField data Create.oauth_providers) as [items|] eqn:Hitems;
      [|done].
    cbn in Hinput. apply list_elem_of_In, list_elem_of_fmap in Hinput
      as (entry & -> & Hentry).
    by apply (connectable_requested c0 items entry). }
  rewrite Hupdate2.
  eapply tx_projectConfig_update_connectedAccountConfigs_Ok in Hupdate2 as ->;
    [|apply lookup_insert_eq].
  run.
  match goal with
  | |- context [tx_permission_create ?d ?w0] =>
      edestruct (tx_permission_create_succeeds d w0) as (w4 & Hmember)
  end.
  { apply lookup_insert_eq. }
  { apply lookup_insert_eq. }
  rewrite Hmember.
  eapply tx_permission_create_Ok in Hmember as ->; [|apply lookup_insert_eq].
  run.
  match goal with
  | |- context [tx_permission_create ?d ?w0] =>
      edestruct (tx_permission_create_succeeds d w0) as (w5 & Hadmin)
  end.
  { apply lookup_insert_eq. }
  { apply lookup_insert_eq. }
  rewrite Hadmin. by eexists _, _.
Qed.

End SuccessOfCreate.

(** The request passes the checks made before and during the first write. *)
Definition provisionable `{Externals} (data : Create.Project) (w : World)
  : Prop :=
  (∃ providers, oauthProviderCreates data = Ok providers)
  ∧ (∃ email, emailServiceCreate data = Ok email)
  ∧ NoDup (map op_id (default [] (configField data Create.oauth_providers)))
  ∧ NoDup (map domain (default [] (configField data Create.domains)))
  ∧ projects (db w) !! uuidSource (uuidCount w) = None
  ∧ projectConfigs (db w) !! uuidSource (S (uuidCount w)) = None.

(** Every listed owner who has a row has a [managedProjectIds] that the array
    spread accepts. *)
Definition spreadableOwners (ownerIds : list string) (w : World) : Prop :=
  ∀ userId current,
    userId ∈ ownerIds →
    projectUsers (db w) !! ("internal", userId) = Some current →
    ∃ managed, managedBefore current = Ok managed.

Section CreateReturns.
Context `{Externals}.

Lemma createProject_succeeds ownerIds data w :
  provisionable data w → spreadableOwners ownerIds w →
  ∃ view w', createProject ownerIds data w = (Ok view, w').
Proof.
  intros ([providers Hproviders] & [email Hemail] & Hids & Hdomains & Hfresh
          & Hcfresh) Hspread.
  destruct (provisionGraph_succeeds data w providers email)
    as (project & w6 & Hprovision); try done.
  rewrite createProject_run, createProjectTx_run, Hprovision.
  apply provisionGraph_Ok in Hprovision
    as (providers' & email' & authMethods & connected & Hproviders' & Hemail'
        & _ & _ & Hnodup & Hproject & Hmethods & _ & Hw6).
  rewrite Hproviders in Hproviders'. injection Hproviders' as <-.
  rewrite Hemail in Hemail'. injection Hemail' as <-.
  rewrite (authMethodCreates_requested data providers) in Hmethods;
    [|done|done|by rewrite Hproject].
  injection Hmethods as <-.
  rewrite Hproject in Hw6 |- *.
  cbn [prisma_project prisma_config project_id projectRowOf pci_id
       projectCreateInput config_id loadConfig configRowOf] in Hw6 |- *.
  cbn zeta.
  assert (projectUsers (db w6) = projectUsers (db w)) as Husers by by subst w6.
  pose proof (linkUsers_succeeds ownerIds (uuidSource (uuidCount w))
                (projectUsers (db w6))) as Hlinked.
  rewrite Husers in Hlinked |- *. specialize (Hlinked Hspread).
  destruct (linkUsers ownerIds _ (projectUsers (db w))) as [[r users'] log].
  cbn [fst snd] in *. subst r.
  unfold loadProject, afterLinking, setProjectUsers. subst w6.
  cbn [db projects projectConfigs projectUsers fst snd].
  rewrite lookup_insert_eq. cbn [mbind option_bind configId projectRowOf].
  rewrite lookup_insert_eq. cbn [mbind option_bind].
  match goal with
  | |- context [projectPrismaToCrud ?prisma] =>
      destruct (projectPrismaToCrud_succeeds prisma) as [view Hview]
  end.
  - cbn [prisma_config loadConfig authMethodConfigs provisionedConfig
         setPermissions setConnectedAccountConfigs setAuthMethodConfigs
         configRowOf].
    intros config Hconfig (p & Hp & Hproxied & Hstandard).
    apply list_elem_of_fmap in Hconfig as (row & -> & Hrow).
    apply elem_of_lookup_imap in Hrow as (i & input & -> & Hinput).
    apply list_elem_of_lookup_2, requestedAuthMethods_connect in Hinput
      as [Hnone|(entry & Hentry & Hsome)];
      cbn [amc_oauthProviderConfig loadAuthMethod amr_oauthProviderConfigId
           authMethodRow] in Hp.
    + by rewrite Hnone in Hp.
    + rewrite Hsome in Hp. cbn [fmap option_fmap option_map snd] in Hp.
      destruct (created_paired data providers Hproviders)
        as [Hpaired Hvariants].
      match type of Hp with
      | loadProvider ?c _ = _ =>
          destruct (loadProvider_requested c _ entry Hpaired Hentry)
            as (p' & Hp' & Hin)
      end.
      rewrite Hp in Hp'. injection Hp' as <-.
      destruct (Hvariants p Hin) as [[? Hv]|[? Hv]]; congruence.
  - exists email. split; [done|]. by eapply emailServiceCreate_variant.
  - rewrite Hview. by eexists _, _.
Qed.

End CreateReturns.

(** ** [createProject]: a missing owner *)

Section MissingOwner.
Context `{Externals}.

(** C8.  An owner id with no row in the internal namespace does not abort
    [createProject].  The call returns (or throws) exactly what it does
    without that id in the owner list and leaves the same database, so the
    other owners are processed as they would be; whenever it returns a view,
    the anomaly for the missing owner has been recorded; and it does return a
    view whenever the request is provisionable and the owners that do have a
    row have metadata the loop can extend. *)
Theorem createProject_tolerates_missing_owner before missing after data w :
  projectUsers (db w) !! ("internal", missing) = None →
  let withMissing := createProject (before ++ missing :: after) data w in
  let without := createProject (before ++ after) data w in
  withMissing.1 = without.1
  ∧ db withMissing.2 = db without.2
  ∧ (∀ view, without.1 = Ok view → withMissing.1 = Ok view)
  ∧ (∀ view, withMissing.1 = Ok view →
             anomaly missing ∈ captured withMissing.2)
  ∧ (provisionable data w → spreadableOwners (before ++ after) w →
     ∃ view, withMissing.1 = Ok view).
Proof.
  intros Hmissing. cbn zeta.
  assert (provisionable data w → spreadableOwners (before ++ after) w →
          ∃ view, (createProject (before ++ missing :: after) data w).1
                  = Ok view) as Hreturns.
  { intros Hdata Hspread.
    destruct (createProject_succeeds (before ++ missing :: after) data w Hdata)
      as (view & w' & Hrun).
    - intros userId current Hin Hcurrent. apply (Hspread userId current);
        [|done].
      apply elem_of_app in Hin as [Hin|Hin]; [apply elem_of_app; by left|].
      apply elem_of_cons in Hin as [->|Hin]; [congruence|].
      apply elem_of_app. by right.
    - exists view. by rewrite Hrun. }
  revert Hreturns.
  rewrite !createProject_run, !createProjectTx_run.
  destruct (provisionGraph data w) as [[project|e] w6] eqn:Hprovision; [|done].
  apply provisionGraph_projectUsers in Hprovision as (Husers & _ & _).
  rewrite <- Husers in Hmissing. cbn zeta.
  destruct (linkUsers_skip_missing before missing after
              (project_id (prisma_project project)) (projectUsers (db w6))
              Hmissing) as (Hr & Hu & Hlog).
  unfold afterLinking. rewrite <- Hr, <- Hu.
  destruct (linkUsers (before ++ missing :: after) _ _) as [[r users'] log1].
  destruct (linkUsers (before ++ after) _ _) as [[r2 users2] log2].
  cbn [fst snd db captured] in *.
  destruct r as [[]|e]; [|done].
  destruct (loadProject _ _) as [result|]; [|done].
  cbn [fst snd db captured].
  intros Hreturns. split_and!; [done|done|done| |done].
  intros view _. apply elem_of_app. right. by apply Hlog.
Qed.

End MissingOwner.

Lemma sample_provisionable :
  provisionable (H := sampleEnv) exampleRequest sampleWorld.
Proof.
  split_and!.
  - eexists. vm_compute. reflexivity.
  - eexists. vm_compute. reflexivity.
  - apply (bool_decide_unpack _). vm_compute. exact I.
  - constructor.
  - vm_compute. reflexivity.
  - vm_compute. reflexivity.
Qed.

Lemma sample_spreadableOwners : spreadableOwners ["u1"] sampleWorld.
Proof.
  intros userId current Hin Hcurrent.
  apply list_elem_of_singleton in Hin as ->.
  vm_compute in Hcurrent. injection Hcurrent as <-.
  eexists. vm_compute. reflexivity.
Qed.

Lemma createProject_tolerates_missing_owner_witness :
  ∃ view w',
    createProject (H := sampleEnv) ["u1"; "ghost"] exampleRequest sampleWorld
    = (Ok view, w')
    ∧ (createProject (H := sampleEnv) ["u1"] exampleRequest sampleWorld).1
      = Ok view
    ∧ anomaly "ghost" ∈ captured w'.
Proof.
  assert (projectUsers (db sampleWorld) !! ("internal", "ghost") = None)
    as Hghost by (vm_compute; reflexivity).
  pose proof (createProject_tolerates_missing_owner (H := sampleEnv)
                ["u1"] "ghost" [] exampleRequest sampleWorld Hghost)
    as (Hsame & _ & _ & Hlog & Hreturns).
  cbn [app] in Hsame, Hlog, Hreturns.
  destruct (Hreturns sample_provisionable sample_spreadableOwners)
    as [view Hview].
  destruct (createProject (H := sampleEnv) ["u1"; "ghost"] exampleRequest
              sampleWorld) as [r w'] eqn:Hrun.
  cbn [fst snd] in *.
  exists view, w'. split; [by rewrite Hview|]. split; [by rewrite <- Hsame|].
  by apply (Hlog view).
Defined.


(** * Further properties *)

(** ** The reader, in full *)

(** The entry an auth method contributes to [oauth_providers]: none without
    an OAuth reference; with one, the shared variant is looked at first. *)
Definition resolveProvider `{Externals} (config : AuthMethodConfig)
  : option OAuthProviderCrud :=
  providerConfig ← amc_oauthProviderConfig config;
  match proxiedOAuthConfig providerConfig, standardOAuthConfig providerConfig with
  | Some proxied, _ =>
      Some {| op_id := typedToLowercase (po_type proxied);
              op_enabled := amc_enabled config;
              op_type := shared;
              client_id := None;
              client_secret := None;
              facebook_config_id := None;
              microsoft_tenant_id := None |}
  | None, Some std =>
      Some {| op_id := typedToLowercase (so_type std);
              op_enabled := amc_enabled config;
              op_type := standard;
              client_id := Some (clientId std);
              client_secret := Some (clientSecret std);
              facebook_config_id := facebookConfigId std;
              microsoft_tenant_id := microsoftTenantId std |}
  | None, None => None
  end.

Definition emailMissingMessage (prismaId : string) : string :=
  "Email service config should be set on project '" +:+ prismaId +:+ "'".

(** The email service configuration is there and has a variant. *)
Definition emailResolvable (cfg : ProjectConfig) : Prop :=
  ∃ e, emailServiceConfig cfg = Some e
       ∧ (is_Some (proxiedEmailServiceConfig e)
          ∨ is_Some (standardEmailServiceConfig e)).

Lemma truthy_find_existsb {A} (pred : A → bool) (l : list A) :
  truthy (find pred l) = existsb pred l.
Proof.
  unfold find. induction l as [|x l IH]; cbn; [done|].
  by destruct (pred x).
Qed.

Lemma omap_map {A B C} (f : A → B) (g : B → option C) (l : list A) :
  omap g (map f l) = omap (λ x, g (f x)) l.
Proof. induction l as [|x l IH]; cbn; [done|]. by rewrite IH. Qed.

Section ReaderInFull.
Context `{Externals}.

Lemma oauthProviderOf_Ok prismaId config y :
  oauthProviderOf prismaId config = Ok y → y = resolveProvider config.
Proof.
  unfold oauthProviderOf, resolveProvider.
  destruct (amc_oauthProviderConfig config) as [p|]; cbn; [|by intros [= <-]].
  destruct (proxiedOAuthConfig p); [by intros [= <-]|].
  destruct (standardOAuthConfig p); [by intros [= <-]|done].
Qed.

Lemma resolveProvider_truthy config :
  ¬ lacksVariant config →
  truthy (amc_oauthProviderConfig config) = truthy (resolveProvider config).
Proof.
  unfold resolveProvider, lacksVariant. intros Hvariant.
  destruct (amc_oauthProviderConfig config) as [p|]; cbn; [|done].
  destruct (proxiedOAuthConfig p) eqn:Hp; [done|].
  destruct (standardOAuthConfig p) eqn:Hs; [done|].
  destruct Hvariant. by exists p.
Qed.

Lemma mapR_oauthProviderOf_Ok prismaId methods mapped :
  mapR (oauthProviderOf prismaId) methods = Ok mapped →
  omap (λ provider, provider) mapped = omap resolveProvider methods.
Proof.
  intros Hmapped. apply mapR_Ok_Forall2 in Hmapped.
  induction Hmapped as [|config y methods mapped Hy _ IH]; [done|].
  apply oauthProviderOf_Ok in Hy as ->. cbn. by rewrite IH.
Qed.

Lemma projectPrismaToCrud_providers_eq prisma view :
  projectPrismaToCrud prisma = Ok view →
  oauth_providers (config view)
  = sort byId (omap resolveProvider (authMethodConfigs (prisma_config prisma))).
Proof.
  intros Hview.
  apply projectPrismaToCrud_Ok_inv in Hview
    as (mapped & email & Hmapped & _ & -> & _).
  by rewrite (mapR_oauthProviderOf_Ok _ _ _ Hmapped).
Qed.

(** X1.  In the view of an accepted graph, [oauth_providers] is a
    rearrangement of the entries of the auth methods that carry an OAuth
    reference: each such method contributes exactly one entry, with its own
    [enabled] flag, and a method without an OAuth reference (password, OTP,
    passkey) contributes none. *)
Theorem projectPrismaToCrud_oauth_providers prisma view :
  projectPrismaToCrud prisma = Ok view →
  oauth_providers (config view)
  ≡ₚ omap resolveProvider (authMethodConfigs (prisma_config prisma))
  ∧ length (oauth_providers (config view))
    = length (List.filter (λ config, truthy (amc_oauthProviderConfig config))
                          (authMethodConfigs (prisma_config prisma))).
Proof.
  intros Hview.
  pose proof (projectPrismaToCrud_providers_eq _ _ Hview) as Heq.
  assert (oauth_providers (config view)
          ≡ₚ omap resolveProvider (authMethodConfigs (prisma_config prisma)))
    as Hperm.
  { rewrite Heq. apply sort_Permutation. }
  split; [done|]. rewrite Hperm.
  apply projectPrismaToCrud_Ok_inv in Hview
    as (mapped & _ & Hmapped & _).
  assert (∀ config, config ∈ authMethodConfigs (prisma_config prisma) →
                    ¬ lacksVariant config) as Hvariants.
  { intros config Hin Hlacks.
    destruct (mapR_Throw (oauthProviderOf (project_id (prisma_project prisma)))
                _ config _ Hin
                (proj2 (oauthProviderOf_Throw _ config _) (conj Hlacks eq_refl)))
      as (? & ? & _ & _ & Hthrow).
    congruence. }
  clear -Hvariants.
  induction (authMethodConfigs (prisma_config prisma)) as [|config l IH];
    [done|].
  cbn [omap list_omap List.filter].
  assert (length (omap resolveProvider l)
          = length (List.filter
                      (λ config, truthy (amc_oauthProviderConfig config)) l))
    as IH'.
  { apply IH. intros c Hc. apply Hvariants. by right. }
  specialize (Hvariants config (list_elem_of_here _ _)).
  rewrite (resolveProvider_truthy config Hvariants).
  destruct (resolveProvider config); cbn; by rewrite IH'.
Qed.

(** X2.  The three sign-in flags of the view are existence tests:
    [credential_enabled] holds exactly when some enabled auth method carries a
    password configuration, [magic_link_enabled] when some enabled one carries
    an OTP configuration, [passkey_enabled] when some enabled one carries a
    passkey configuration.  A disabled method never switches a flag on. *)
Theorem projectPrismaToCrud_enablement_flags prisma view :
  projectPrismaToCrud prisma = Ok view →
  let methods := authMethodConfigs (prisma_config prisma) in
  (credential_enabled (config view) = true ↔
   ∃ m, m ∈ methods ∧ is_Some (passwordConfig m) ∧ amc_enabled m = true)
  ∧ (magic_link_enabled (config view) = true ↔
     ∃ m, m ∈ methods ∧ is_Some (otpConfig m) ∧ amc_enabled m = true)
  ∧ (passkey_enabled (config view) = true ↔
     ∃ m, m ∈ methods ∧ is_Some (passkeyConfig m) ∧ amc_enabled m = true).
Proof.
  unfold projectPrismaToCrud. intros Hview.
  destruct (mapR _ _) as [mapped|e]; [|done].
  destruct (emailConfigOf _ _) as [email|e]; [|done].
  injection Hview as <-. cbn.
  rewrite !truthy_find_existsb.
  assert (∀ {A} (field : AuthMethodConfig → option A) l,
            existsb (λ m, truthy (field m) && amc_enabled m) l = true ↔
            ∃ m, m ∈ l ∧ is_Some (field m) ∧ amc_enabled m = true) as Hflag.
  { intros A field l. rewrite existsb_exists. split.
    - intros (m & Hin & Hm). apply andb_true_iff in Hm as [Hf He].
      exists m. split_and!; [by apply list_elem_of_In| |done].
      by destruct (field m).
    - intros (m & Hin & [a Ha] & He). exists m.
      split; [by apply list_elem_of_In|]. by rewrite Ha, He. }
  split_and!; apply Hflag.
Qed.

(** X3.  [projectPrismaToCrud] returns a view exactly for the graphs in which
    every auth method with an OAuth reference has at least one variant
    populated and the email service configuration is present with at least
    one variant populated. *)
Theorem projectPrismaToCrud_accepts_iff prisma :
  (∃ view, projectPrismaToCrud prisma = Ok view) ↔
  (∀ config, config ∈ authMethodConfigs (prisma_config prisma) →
             ¬ lacksVariant config)
  ∧ emailResolvable (prisma_config prisma).
Proof.
  split.
  - intros [view Hview].
    apply projectPrismaToCrud_Ok_inv in Hview
      as (mapped & email & Hmapped & Hemail & _).
    split.
    + intros config Hin Hlacks.
      destruct (mapR_Throw
                  (oauthProviderOf (project_id (prisma_project prisma)))
                  _ config _ Hin
                  (proj2 (oauthProviderOf_Throw _ config _)
                         (conj Hlacks eq_refl)))
        as (? & ? & _ & _ & Hthrow).
      congruence.
    + unfold emailConfigOf in Hemail. unfold emailResolvable.
      destruct (emailServiceConfig (prisma_config prisma)) as [e|]; [|done].
      exists e. split; [done|].
      destruct (proxiedEmailServiceConfig e); [by left; eexists|].
      destruct (standardEmailServiceConfig e); [by right; eexists|done].
  - intros [Hmethods Hemail]. by apply projectPrismaToCrud_succeeds.
Qed.

(** X4.  [projectPrismaToCrud] throws nothing but a [StackAssertionError]
    with one of three messages, each naming the project: a provider without
    variant (naming the auth method too), a missing email service
    configuration, or an email service configuration without variant.  The
    provider check comes first: an email error means that every auth method
    resolved. *)
Theorem projectPrismaToCrud_throws_only prisma e :
  projectPrismaToCrud prisma = Throw e →
  let prismaId := project_id (prisma_project prisma) in
  let cfg := prisma_config prisma in
  (∃ config,
     config ∈ authMethodConfigs cfg ∧ lacksVariant config
     ∧ e = StackAssertionError (providerVariantMessage (amc_id config) prismaId))
  ∨ ((∀ config, config ∈ authMethodConfigs cfg → ¬ lacksVariant config)
     ∧ ((emailServiceConfig cfg = None
         ∧ e = StackAssertionError (emailMissingMessage prismaId))
        ∨ (emailLacksVariant cfg
           ∧ e = StackAssertionError (emailVariantMessage prismaId)))).
Proof.
  unfold projectPrismaToCrud. intros Hthrow. cbn zeta.
  destruct (mapR _ _) as [mapped|e0] eqn:Hmapped.
  - right. split.
    + intros config Hin Hlacks.
      destruct (mapR_Throw
                  (oauthProviderOf (project_id (prisma_project prisma)))
                  _ config _ Hin
                  (proj2 (oauthProviderOf_Throw _ config _)
                         (conj Hlacks eq_refl)))
        as (? & ? & _ & _ & Hthrow').
      congruence.
    + cbn in Hthrow. unfold emailConfigOf, emailLacksVariant in *.
      destruct (emailServiceConfig (prisma_config prisma)) as [es|].
      * destruct (proxiedEmailServiceConfig es) eqn:Hp; [done|].
        destruct (standardEmailServiceConfig es) eqn:Hs; [done|].
        cbn in Hthrow. injection Hthrow as <-. right. split; [|done].
        by exists es.
      * cbn in Hthrow. injection Hthrow as <-. by left.
  - left. cbn in Hthrow. injection Hthrow as <-.
    apply mapR_Throw_inv in Hmapped as (config & Hin & Hconfig).
    apply oauthProviderOf_Throw in Hconfig as [Hlacks ->].
    by exists config.
Qed.

End ReaderInFull.

Lemma projectPrismaToCrud_oauth_providers_witness :
  ∃ view,
    projectPrismaToCrud (H := sampleEnv) exampleGraph = Ok view
    ∧ length (oauth_providers (config view)) = 2%nat.
Proof.
  destruct (projectPrismaToCrud (H := sampleEnv) exampleGraph)
    as [view|e] eqn:Hview.
  - exists view. split; [reflexivity|].
    destruct (projectPrismaToCrud_oauth_providers (H := sampleEnv)
                exampleGraph view Hview) as [_ ->].
    reflexivity.
  - vm_compute in Hview. discriminate.
Defined.

(** A graph with an enabled OTP method and a disabled password method. *)
Definition flagsGraph : ProjectDB :=
  graphOf (withProviders []
    [ {| amc_id := "m1"; amc_enabled := true; amc_oauthProviderConfig := None;
         otpConfig := Some {| contactChannelType := "EMAIL" |};
         passwordConfig := None; passkeyConfig := None |};
      {| amc_id := "m2"; amc_enabled := false; amc_oauthProviderConfig := None;
         otpConfig := None; passwordConfig := Some (); passkeyConfig := None |} ]
    sharedEmail).

Lemma projectPrismaToCrud_enablement_flags_witness :
  ∃ view,
    projectPrismaToCrud (H := sampleEnv) flagsGraph = Ok view
    ∧ magic_link_enabled (config view) = true
    ∧ credential_enabled (config view) = false.
Proof.
  destruct (projectPrismaToCrud (H := sampleEnv) flagsGraph)
    as [view|e] eqn:Hview.
  - exists view. split; [reflexivity|].
    destruct (projectPrismaToCrud_enablement_flags (H := sampleEnv)
                flagsGraph view Hview) as (Hcredential & Hmagic & _).
    split.
    + apply Hmagic. eexists. split; [by left|]. split; [by eexists|done].
    + apply not_true_is_false. intros Htrue.
      apply Hcredential in Htrue as (m & Hin & [? Hpassword] & Henabled).
      cbn in Hin. apply elem_of_cons in Hin as [->|Hin]; [done|].
      apply list_elem_of_singleton in Hin as ->. done.
  - vm_compute in Hview. discriminate.
Defined.

Lemma projectPrismaToCrud_throws_only_witness :
  projectPrismaToCrud (H := sampleEnv)
    (graphOf {| config_id := "c1"; allowLocalhost := true;
                signUpEnabled := true; createTeamOnSignUp := false;
                clientTeamCreationEnabled := false;
                clientUserDeletionEnabled := false;
                legacyGlobalJwtSigning := false;
                teamCreateDefaultSystemPermissions := [];
                teamMemberDefaultSystemPermissions := [];
                oauthProviderConfigs := [];
                emailServiceConfig := None;
                permissions := []; authMethodConfigs := [];
                connectedAccountConfigs := []; domains := [] |})
  = Throw (StackAssertionError "Email service config should be set on project 'p1'").
Proof.
  match goal with
  | |- projectPrismaToCrud ?g = _ =>
      destruct (projectPrismaToCrud (H := sampleEnv) g) as [view|e] eqn:Hrun
  end.
  - vm_compute in Hrun. discriminate.
  - f_equal.
    match type of Hrun with
    | projectPrismaToCrud ?g = _ =>
        destruct (projectPrismaToCrud_throws_only (H := sampleEnv) g e Hrun)
          as [(config & Hin & _)|[_ [[_ ->]|[(es & Hes & _) _]]]]
    end.
    + cbn in Hin. by apply elem_of_nil in Hin.
    + reflexivity.
    + cbn in Hes. discriminate.
Defined.

Lemma projectPrismaToCrud_accepts_iff_witness :
  emailResolvable (prisma_config exampleGraph).
Proof.
  destruct (projectPrismaToCrud (H := sampleEnv) exampleGraph)
    as [view|e] eqn:Hview.
  - destruct (proj1 (projectPrismaToCrud_accepts_iff (H := sampleEnv)
                       exampleGraph) (ex_intro _ view Hview))
      as [_ Hemail].
    exact Hemail.
  - vm_compute in Hview. discriminate.
Defined.

(** ** [listManagedProjectIds]: what it returns *)

Lemma isStringArray_strings v :
  isStringArray v = true ↔ ∃ ids : list string, v = VArr (map VStr ids).
Proof.
  split.
  - destruct v as [| | | | |l|]; try done. cbn. intros Hall.
    induction l as [|x l IH]; [by exists []|].
    cbn in Hall. apply andb_true_iff in Hall as [Hx Hl].
    destruct (IH Hl) as [ids Hids]. destruct x; try done.
    injection Hids as ->. by eexists (_ :: ids).
  - intros [ids ->]. cbn. induction ids as [|s ids IH]; [done|]. done.
Qed.

(** X5.  Whenever [listManagedProjectIds] returns, it returns an array of
    strings, and that array is the user's [managedProjectIds] property, or
    the empty array when the property is missing or nullish. *)
Theorem listManagedProjectIds_returns_strings user v :
  listManagedProjectIds user = Ok v →
  (∃ ids : list string, v = VArr (map VStr ids))
  ∧ v = coalesce (getProp (server_metadata user) "managedProjectIds") (VArr [])
  ∧ typeof (server_metadata user) = "object".
Proof.
  unfold listManagedProjectIds. cbn zeta.
  destruct (String.eqb_spec (typeof (server_metadata user)) "object")
    as [Htype|Htype]; cbn [negb]; [|done].
  destruct (isStringArray _) eqn:Hstrings; cbn [negb]; [|done].
  intros [= <-]. split_and!; [by apply isStringArray_strings|done|done].
Qed.

Lemma listManagedProjectIds_returns_strings_witness :
  ∃ ids : list string,
    listManagedProjectIds
      {| server_metadata :=
           VObj {[ "managedProjectIds" := VArr [VStr "p1"; VStr "p2"] ]} |}
    = Ok (VArr (map VStr ids)).
Proof.
  destruct (listManagedProjectIds
              {| server_metadata :=
                   VObj {[ "managedProjectIds" := VArr [VStr "p1"; VStr "p2"] ]} |})
    as [v|e] eqn:Hrun.
  - destruct (listManagedProjectIds_returns_strings _ v Hrun)
      as ([ids ->] & _).
    by exists ids.
  - vm_compute in Hrun. discriminate.
Defined.

(** ** What the view of a new project says *)

Lemma existsb_map_imap_indep {A B C} (f : nat → A → B) (g : B → C)
    (p : C → bool) (q : A → bool) (l : list A) :
  (∀ i x, p (g (f i x)) = q x) →
  existsb p (map g (imap f l)) = existsb q l.
Proof.
  revert f. induction l as [|x l IH]; intros f Hf; [done|].
  cbn. rewrite Hf. f_equal. apply IH. intros i y. apply Hf.
Qed.

Section NewProjectView.
Context `{Externals}.

Lemma projectPrismaToCrud_Ok_fields prisma view :
  projectPrismaToCrud prisma = Ok view →
  let p := prisma_project prisma in
  let cfg := prisma_config prisma in
  read_id view = project_id p
  ∧ display_name view = displayName p
  ∧ description view = default "" (project_description p)
  ∧ created_at_millis view = createdAt p
  ∧ user_count view = count_users prisma
  ∧ is_production_mode view = isProductionMode p
  ∧ id (config view) = config_id cfg
  ∧ allow_localhost (config view) = allowLocalhost cfg
  ∧ sign_up_enabled (config view) = signUpEnabled cfg
  ∧ create_team_on_sign_up (config view) = createTeamOnSignUp cfg
  ∧ client_team_creation_enabled (config view) = clientTeamCreationEnabled cfg
  ∧ client_user_deletion_enabled (config view) = clientUserDeletionEnabled cfg
  ∧ legacy_global_jwt_signing (config view) = legacyGlobalJwtSigning cfg
  ∧ credential_enabled (config view)
    = existsb (λ m, truthy (passwordConfig m) && amc_enabled m)
              (authMethodConfigs cfg)
  ∧ magic_link_enabled (config view)
    = existsb (λ m, truthy (otpConfig m) && amc_enabled m)
              (authMethodConfigs cfg)
  ∧ passkey_enabled (config view)
    = existsb (λ m, truthy (passkeyConfig m) && amc_enabled m)
              (authMethodConfigs cfg).
Proof.
  unfold projectPrismaToCrud. intros Hview.
  destruct (mapR _ _) as [mapped|e]; [|done].
  destruct (emailConfigOf _ _) as [email|e]; [|done].
  injection Hview as <-. cbn. rewrite !truthy_find_existsb. by split_and!.
Qed.

(** X6.  The view returned for a new project carries the request's scalars,
    with the defaults of the code where the request is silent: description
    [""], production mode off, localhost allowed, team creation on sign-up
    off, client-side team creation and user deletion off; sign-up and legacy
    JWT signing take the column defaults of the store.  Its ids are the two
    identifiers drawn first and its creation time is the store's clock. *)
Theorem createProject_view_scalars ownerIds data w view w' :
  createProject ownerIds data w = (Ok view, w') →
  read_id view = uuidSource (uuidCount w)
  ∧ id (config view) = uuidSource (S (uuidCount w))
  ∧ display_name view = Create.display_name data
  ∧ description view = default "" (Create.description data)
  ∧ created_at_millis view = clock w
  ∧ is_production_mode view = default false (Create.is_production_mode data)
  ∧ allow_localhost (config view)
    = default true (configField data Create.allow_localhost)
  ∧ sign_up_enabled (config view)
    = default default_signUpEnabled (configField data Create.sign_up_enabled)
  ∧ create_team_on_sign_up (config view)
    = default false (configField data Create.create_team_on_sign_up)
  ∧ client_team_creation_enabled (config view)
    = default false (configField data Create.client_team_creation_enabled)
  ∧ client_user_deletion_enabled (config view)
    = default false (configField data Create.client_user_deletion_enabled)
  ∧ legacy_global_jwt_signing (config view) = default_legacyGlobalJwtSigning.
Proof.
  intros Hrun.
  apply createProject_Ok in Hrun
    as (providers & email & first & _ & _ & _ & _ & _ & _ & _ & _ & _ & Hview).
  apply projectPrismaToCrud_Ok_fields in Hview
    as (-> & -> & -> & -> & _ & -> & -> & -> & -> & -> & -> & -> & -> & _).
  by split_and!.
Qed.

(** X7.  The three sign-in flags of the view returned for a new project are
    the request's: password sign-in is on unless the request says
    [credential_enabled: false]; magic link and passkey are on only if the
    request says [true]. *)
Theorem createProject_view_flags ownerIds data w view w' :
  createProject ownerIds data w = (Ok view, w') →
  credential_enabled (config view)
  = default true (configField data Create.credential_enabled)
  ∧ magic_link_enabled (config view)
    = default false (configField data Create.magic_link_enabled)
  ∧ passkey_enabled (config view)
    = default false (configField data Create.passkey_enabled).
Proof.
  intros Hrun.
  apply createProject_Ok in Hrun
    as (providers & email & first & _ & _ & _ & _ & _ & _ & _ & _ & _ & Hview).
  apply projectPrismaToCrud_Ok_fields in Hview
    as (_ & _ & _ & _ & _ & _ & _ & _ & _ & _ & _ & _ & _ & -> & -> & ->).
  cbn [prisma_config loadConfig authMethodConfigs provisionedConfig
       setPermissions setConnectedAccountConfigs setAuthMethodConfigs].
  rewrite (existsb_map_imap_indep _ _ _
             (λ input, truthy (amci_passwordConfig input) && amci_enabled input))
    by done.
  rewrite (existsb_map_imap_indep _ _ _
             (λ input, truthy (amci_otpConfig input) && amci_enabled input))
    by done.
  rewrite (existsb_map_imap_indep _ _ _
             (λ input, truthy (amci_passkeyConfig input) && amci_enabled input))
    by done.
  unfold requestedAuthMethods. rewrite !existsb_app.
  assert (∀ (q : AuthMethodCreateInput → bool) cid l,
            (∀ entry, q (requestedOAuthMethod cid entry) = false) →
            existsb q (map (requestedOAuthMethod cid) l) = false) as Hoauth.
  { intros q cid l Hq. induction l as [|x l IH]; cbn; [done|].
    by rewrite Hq, IH. }
  rewrite !Hoauth by done.
  destruct (configField data Create.magic_link_enabled) as [[]|];
    destruct (configField data Create.credential_enabled) as [[]|];
    destruct (configField data Create.passkey_enabled) as [[]|];
    by cbn.
Qed.

(** X8.  The [domains] of the view returned for a new project are the
    requested domains, rearranged into ascending order; none is lost, added
    or changed. *)
Theorem createProject_view_domains ownerIds data w view w' :
  createProject ownerIds data w = (Ok view, w') →
  let requested := default [] (configField data Create.domains) in
  read_domains (config view) ≡ₚ requested
  ∧ read_domains (config view) = sort byDomain requested.
Proof.
  intros Hrun.
  apply createProject_Ok in Hrun
    as (providers & email & first & _ & _ & _ & _ & _ & _ & _ & _ & _ & Hview).
  apply projectPrismaToCrud_Ok_inv in Hview
    as (_ & _ & _ & _ & _ & _ & Hdomains & _).
  cbn [prisma_config loadConfig domains provisionedConfig
       setPermissions setConnectedAccountConfigs setAuthMethodConfigs
       configRowOf pci_domains projectCreateInput] in Hdomains.
  cbn zeta.
  assert (map (λ d, {| domain := dom_domain d; handler_path := handlerPath d |})
              (default []
                 (items ← configField data Create.domains;
                  Some (map (λ item, {| dom_domain := domain item;
                                        handlerPath := handler_path item |})
                            items)))
          = default [] (configField data Create.domains)) as Hback.
  { destruct (configField data Create.domains) as [items|]; [|done].
    cbn. rewrite map_map. rewrite <- (map_id items) at 2.
    apply map_ext. by intros []. }
  rewrite Hback in Hdomains. rewrite Hdomains.
  split; [apply sort_Permutation|done].
Qed.

End NewProjectView.

(** A request with two domains, out of order, and an email configuration. *)
Definition detailedRequest (email : EmailConfigCrud) : Create.Project :=
  {| Create.display_name := "Acme";
     Create.description := Some "demo";
     Create.is_production_mode := None;
     Create.config :=
       Some {| Create.sign_up_enabled := None;
               Create.allow_localhost := Some false;
               Create.create_team_on_sign_up := None;
               Create.client_team_creation_enabled := None;
               Create.client_user_deletion_enabled := None;
               Create.domains :=
                 Some [ {| domain := "https://b.example";
                           handler_path := "/handler" |};
                        {| domain := "https://a.example";
                           handler_path := "/handler" |} ];
               Create.oauth_providers := None;
               Create.email_config := Some email;
               Create.magic_link_enabled := None;
               Create.credential_enabled := Some false;
               Create.passkey_enabled := Some true |} |}.

Definition standardEmail (port : option Z) : EmailConfigCrud :=
  {| ec_type := standard;
     ec_host := Some "smtp.example";
     ec_port := port;
     ec_username := Some "mailer";
     ec_password := Some "secret";
     sender_email := Some "noreply@a.example";
     sender_name := Some "Acme" |}.

Lemma createProject_view_scalars_witness :
  ∃ view w',
    createProject (H := sampleEnv) ["u1"] (detailedRequest (standardEmail (Some 587)))
      sampleWorld = (Ok view, w')
    ∧ display_name view = "Acme"
    ∧ description view = "demo"
    ∧ is_production_mode view = false
    ∧ allow_localhost (config view) = false.
Proof.
  destruct (createProject (H := sampleEnv) ["u1"]
              (detailedRequest (standardEmail (Some 587))) sampleWorld)
    as [[view|e] w'] eqn:Hrun.
  - destruct (createProject_view_scalars (H := sampleEnv) _ _ _ _ _ Hrun)
      as (_ & _ & Hname & Hdescription & _ & Hmode & Hlocalhost & _).
    exists view, w'. split; [reflexivity|].
    rewrite Hname, Hdescription, Hmode, Hlocalhost. by split_and!.
  - vm_compute in Hrun. discriminate.
Defined.

Lemma createProject_view_flags_witness :
  ∃ view w',
    createProject (H := sampleEnv) ["u1"] (detailedRequest (standardEmail (Some 587)))
      sampleWorld = (Ok view, w')
    ∧ credential_enabled (config view) = false
    ∧ magic_link_enabled (config view) = false
    ∧ passkey_enabled (config view) = true.
Proof.
  destruct (createProject (H := sampleEnv) ["u1"]
              (detailedRequest (standardEmail (Some 587))) sampleWorld)
    as [[view|e] w'] eqn:Hrun.
  - destruct (createProject_view_flags (H := sampleEnv) _ _ _ _ _ Hrun)
      as (Hcredential & Hmagic & Hpasskey).
    exists view, w'. split; [reflexivity|].
    rewrite Hcredential, Hmagic, Hpasskey. by split_and!.
  - vm_compute in Hrun. discriminate.
Defined.

Lemma createProject_view_domains_witness :
  ∃ view w',
    createProject (H := sampleEnv) ["u1"] (detailedRequest (standardEmail (Some 587)))
      sampleWorld = (Ok view, w')
    ∧ read_domains (config view)
      = [ {| domain := "https://a.example"; handler_path := "/handler" |};
          {| domain := "https://b.example"; handler_path := "/handler" |} ].
Proof.
  destruct (createProject (H := sampleEnv) ["u1"]
              (detailedRequest (standardEmail (Some 587))) sampleWorld)
    as [[view|e] w'] eqn:Hrun.
  - destruct (createProject_view_domains (H := sampleEnv) _ _ _ _ _ Hrun)
      as [_ Hsorted].
    exists view, w'. split; [reflexivity|].
    rewrite Hsorted. vm_compute. reflexivity.
  - vm_compute in Hrun. discriminate.
Defined.

(** ** The providers of a new project, read back *)

Section ProvidersReadBack.
Context `{Externals}.

(** The allowlist check an entry goes through, by its declared type. *)
Definition checkedId (entry : OAuthProviderCrud) : result string :=
  match op_type entry with
  | shared => ensureSharedProvider (op_id entry)
  | standard => ensureStandardProvider (op_id entry)
  end.

(** What the view shows for a request entry whose check returned
    [providerId]: a shared entry loses every credential field, a standard
    entry keeps all four. *)
Definition readBack (entry : OAuthProviderCrud) (providerId : string)
  : OAuthProviderCrud :=
  match op_type entry with
  | shared =>
      {| op_id := typedToLowercase (typedToUppercase providerId);
         op_enabled := op_enabled entry;
         op_type := shared;
         client_id := None;
         client_secret := None;
         facebook_config_id := None;
         microsoft_tenant_id := None |}
  | standard =>
      {| op_id := typedToLowercase (typedToUppercase providerId);
         op_enabled := op_enabled entry;
         op_type := standard;
         client_id := client_id entry;
         client_secret := client_secret entry;
         facebook_config_id := facebook_config_id entry;
         microsoft_tenant_id := microsoft_tenant_id entry |}
  end.

Lemma oauthProviderCreate_readBack entry created methodId :
  oauthProviderCreate entry = Ok created →
  ∃ providerId,
    checkedId entry = Ok providerId
    ∧ resolveProvider {| amc_id := methodId;
                         amc_enabled := op_enabled entry;
                         amc_oauthProviderConfig := Some created;
                         otpConfig := None;
                         passwordConfig := None;
                         passkeyConfig := None |}
      = Some (readBack entry providerId).
Proof.
  unfold oauthProviderCreate, checkedId, readBack, resolveProvider, orThrow,
    mbind, result_bind, rbind, mret, result_ret.
  intros Hcreated.
  destruct (op_type entry); repeat case_match; simplify_eq; cbn; by eexists.
Qed.

Lemma oauthProviderCreates_Forall2 data providers :
  oauthProviderCreates data = Ok providers →
  Forall2 (λ entry created, oauthProviderCreate entry = Ok created)
          (default [] (configField data Create.oauth_providers))
          (default [] providers).
Proof.
  unfold oauthProviderCreates.
  destruct (configField data Create.oauth_providers) as [items|].
  - destruct (mapR oauthProviderCreate items) as [created|e] eqn:Hcreated;
      [|done].
    cbn. intros [= <-]. by apply mapR_Ok_Forall2.
  - cbn. intros [= <-]. constructor.
Qed.

Lemma find_own_provider (providers : list OAuthProviderConfig) provider :
  NoDup (map opc_id providers) → provider ∈ providers →
  find (λ p, String.eqb (opc_id p) (opc_id provider)) providers = Some provider.
Proof.
  unfold find. induction providers as [|x providers IH]; intros Hnodup Hin.
  - by apply elem_of_nil in Hin.
  - cbn [map] in Hnodup. apply NoDup_cons in Hnodup as [Hx Hnodup].
    cbn [List.find].
    destruct (String.eqb_spec (opc_id x) (opc_id provider)) as [Heq|Hne].
    + apply elem_of_cons in Hin as [->|Hin]; [done|].
      exfalso. apply Hx. rewrite Heq. by apply list_elem_of_fmap_2.
    + apply elem_of_cons in Hin as [->|Hin]; [done|]. by apply IH.
Qed.

Lemma requested_tail_unresolved (c : ProjectConfigRow) input :
  amci_connect input = None →
  resolveProvider (loadAuthMethod c (authMethodRow 0 0 input)) = None.
Proof. intros Hnone. unfold resolveProvider. cbn. by rewrite Hnone. Qed.

Lemma resolveProvider_loaded (c : ProjectConfigRow) projectConfigId entry
    created methodId :
  loadProvider c (Some (op_id entry)) = Some created →
  resolveProvider
    (loadAuthMethod c
       (authMethodRow 0 0 (requestedOAuthMethod projectConfigId entry)))
  = resolveProvider {| amc_id := methodId;
                       amc_enabled := op_enabled entry;
                       amc_oauthProviderConfig := Some created;
                       otpConfig := None;
                       passwordConfig := None;
                       passkeyConfig := None |}.
Proof.
  intros Hfound. unfold resolveProvider.
  change (amc_oauthProviderConfig
            (loadAuthMethod c
               (authMethodRow 0 0 (requestedOAuthMethod projectConfigId entry))))
    with (loadProvider c (Some (op_id entry))).
  by rewrite Hfound.
Qed.

(** X9.  The [oauth_providers] of the view returned for a new project are
    the requested entries read back, in ascending order of id: one entry per
    requested provider, with the entry's [enabled] flag and type; a standard
    entry keeps [client_id], [client_secret], [facebook_config_id] and
    [microsoft_tenant_id], a shared entry comes back without any of them; the
    id is the allowlist check's result, upper-cased for the store and
    lower-cased again. *)
Theorem createProject_view_providers ownerIds data w view w' :
  createProject ownerIds data w = (Ok view, w') →
  ∃ back,
    oauth_providers (config view) ≡ₚ back
    ∧ oauth_providers (config view) = sort byId back
    ∧ Forall2 (λ entry shown,
                 ∃ providerId, checkedId entry = Ok providerId
                               ∧ shown = readBack entry providerId)
              (default [] (configField data Create.oauth_providers)) back.
Proof.
  intros Hrun.
  apply createProject_Ok in Hrun
    as (providers & email & first & Hproviders & _ & Hnodup & _ & _ & _ & _
        & _ & _ & Hview).
  apply projectPrismaToCrud_providers_eq in Hview.
  cbn [prisma_config loadConfig authMethodConfigs provisionedConfig
       setPermissions setConnectedAccountConfigs setAuthMethodConfigs] in Hview.
  rewrite omap_map in Hview.
  match type of Hview with
  | context [loadAuthMethod ?c0] =>
      rewrite (omap_imap_indep _ _
                 (λ input, resolveProvider
                             (loadAuthMethod c0 (authMethodRow 0 0 input))))
        in Hview by done;
      set (c := c0) in *
  end.
  assert (oauthProviderConfigs c = default [] providers) as Hloaded by done.
  unfold requestedAuthMethods in Hview. rewrite !omap_app in Hview.
  assert (∀ flag (row : AuthMethodCreateInput),
            amci_connect row = None →
            omap (λ input, resolveProvider
                             (loadAuthMethod c (authMethodRow 0 0 input)))
                 (if flag : bool then [row] else []) = []) as Htail.
  { intros [] row Hrow; [|done]. cbn [omap list_omap].
    by rewrite (requested_tail_unresolved c row Hrow). }
  assert (∀ flag (row : AuthMethodCreateInput),
            amci_connect row = None →
            omap (λ input, resolveProvider
                             (loadAuthMethod c (authMethodRow 0 0 input)))
                 (if flag : bool then [] else [row]) = []) as Htail'.
  { intros [] row Hrow; [done|]. cbn [omap list_omap].
    by rewrite (requested_tail_unresolved c row Hrow). }
  rewrite !Htail in Hview by done. rewrite Htail' in Hview by done.
  rewrite !app_nil_r, omap_map in Hview.
  clear Htail Htail'.
  pose proof (oauthProviderCreates_Forall2 data providers Hproviders)
    as Hpaired.
  rewrite <- Hloaded in Hpaired, Hnodup.
  assert (∃ back,
            omap (λ entry,
                    resolveProvider
                      (loadAuthMethod c
                         (authMethodRow 0 0
                            (requestedOAuthMethod
                               (uuidSource (S (uuidCount w))) entry))))
                 (default [] (configField data Create.oauth_providers))
            = back
            ∧ Forall2 (λ entry shown,
                         ∃ providerId, checkedId entry = Ok providerId
                                       ∧ shown = readBack entry providerId)
                      (default [] (configField data Create.oauth_providers))
                      back) as (back & Hback & Hshown).
  { assert (∀ created, created ∈ oauthProviderConfigs c →
                       created ∈ oauthProviderConfigs c) as Hsub by done.
    revert Hsub Hpaired.
    generalize (oauthProviderConfigs c) at 1 3 as createds.
    generalize (default [] (configField data Create.oauth_providers))
      as entries.
    intros entries createds Hsub Hpaired.
    induction Hpaired as [|entry created entries createds Hcreated _ IH].
    - exists []. split; [done|constructor].
    - destruct IH as (back & Hback & Hshown).
      { intros x Hx. apply Hsub. by right. }
      destruct (oauthProviderCreate_readBack entry created
                  (uuidSource (first + 0)) Hcreated)
        as (providerId & Hchecked & Hresolved).
      exists (readBack entry providerId :: back). split.
      + cbn [omap list_omap]. rewrite Hback.
        assert (loadProvider c (Some (op_id entry)) = Some created) as Hfound.
        { unfold loadProvider. cbn.
          rewrite <- (oauthProviderCreate_id entry created Hcreated).
          apply find_own_provider; [done|]. apply Hsub. by left. }
        by rewrite (resolveProvider_loaded c _ entry created
                      (uuidSource (first + 0)) Hfound), Hresolved.
      + constructor; [|done]. by exists providerId. }
  exists back. rewrite Hview, Hback.
  split_and!; [apply sort_Permutation|done|done].
Qed.

(** X10.  The default-permission lists of the view returned for a new project
    contain the seeded permissions: the public id of ["member"] is among
    [team_member_default_permissions], that of ["admin"] among
    [team_creator_default_permissions], next to the ids of the store's
    default system permissions for that role. *)
Theorem createProject_view_default_permissions ownerIds data w view w' :
  createProject ownerIds data w = (Ok view, w') →
  ∃ c member admin,
    storedConfig w' (read_id view) = Some c
    ∧ permissions c = [member; admin]
    ∧ queryableId member = "member"
    ∧ queryableId admin = "admin"
    ∧ tpd_id (teamPermissionDefinitionJsonFromDbType member)
      ∈ team_member_default_permissions (config view)
    ∧ tpd_id (teamPermissionDefinitionJsonFromDbType admin)
      ∈ team_creator_default_permissions (config view)
    ∧ (∀ p, p ∈ default_teamMemberDefaultSystemPermissions →
            tpd_id (teamPermissionDefinitionJsonFromTeamSystemDbType p)
            ∈ team_member_default_permissions (config view))
    ∧ (∀ p, p ∈ default_teamCreateDefaultSystemPermissions →
            tpd_id (teamPermissionDefinitionJsonFromTeamSystemDbType p)
            ∈ team_creator_default_permissions (config view)).
Proof.
  intros Hrun.
  apply createProject_Ok in Hrun
    as (providers & email & first & _ & _ & _ & _ & _ & Hprojects & Hconfigs
        & _ & _ & Hview).
  apply projectPrismaToCrud_Ok_inv in Hview
    as (_ & _ & _ & _ & _ & _ & _ & _ & Hcreator & Hmember & Hid).
  cbn [prisma_project project_id projectRowOf pci_id projectCreateInput] in Hid.
  match type of Hconfigs with
  | _ = <[_ := ?c0]> _ => exists c0; eexists _, _
  end.
  split.
  { unfold storedConfig. rewrite Hid, Hprojects, lookup_insert_eq. cbn.
    rewrite Hconfigs. apply lookup_insert_eq. }
  split; [reflexivity|].
  rewrite Hcreator, Hmember. unfold defaultPermissions.
  cbn [prisma_config loadConfig permissions provisionedConfig setPermissions
       setConnectedAccountConfigs setAuthMethodConfigs configRowOf
       teamCreateDefaultSystemPermissions teamMemberDefaultSystemPermissions
       List.filter isDefaultTeamMemberPermission isDefaultTeamCreatorPermission
       permissionRowOf memberPermission adminPermission
       pmi_isDefaultTeamMemberPermission pmi_isDefaultTeamCreatorPermission
       default from_option].
  split; [done|]. split; [done|].
  split_and!.
  - apply list_elem_of_fmap_2. rewrite sort_Permutation.
    destruct default_isDefaultTeamMemberPermission; cbn; by left.
  - apply list_elem_of_fmap_2. rewrite sort_Permutation.
    destruct default_isDefaultTeamCreatorPermission; cbn;
      [right; by left|by left].
  - intros p Hp. apply list_elem_of_fmap_2. rewrite sort_Permutation.
    apply elem_of_app. right. by apply list_elem_of_fmap_2.
  - intros p Hp. apply list_elem_of_fmap_2. rewrite sort_Permutation.
    apply elem_of_app. right. by apply list_elem_of_fmap_2.
Qed.

End ProvidersReadBack.

Lemma createProject_view_providers_witness :
  ∃ view w',
    createProject (H := sampleEnv) ["u1"] exampleRequest sampleWorld
    = (Ok view, w')
    ∧ length (oauth_providers (config view)) = 2%nat.
Proof.
  destruct (createProject (H := sampleEnv) ["u1"] exampleRequest sampleWorld)
    as [[view|e] w'] eqn:Hrun.
  - destruct (createProject_view_providers (H := sampleEnv) _ _ _ _ _ Hrun)
      as (back & Hsame & _ & Hback).
    exists view, w'. split; [reflexivity|].
    rewrite (Permutation_length Hsame).
    apply Forall2_length in Hback. rewrite <- Hback. reflexivity.
  - vm_compute in Hrun. discriminate.
Defined.

Lemma createProject_view_default_permissions_witness :
  ∃ view w' c,
    createProject (H := sampleEnv) ["u1"] plainRequest sampleWorld
    = (Ok view, w')
    ∧ storedConfig w' (read_id view) = Some c
    ∧ map queryableId (permissions c) = ["member"; "admin"].
Proof.
  destruct (createProject (H := sampleEnv) ["u1"] plainRequest sampleWorld)
    as [[view|e] w'] eqn:Hrun.
  - destruct (createProject_view_default_permissions (H := sampleEnv)
                _ _ _ _ _ Hrun)
      as (c & member & admin & Hstored & Hpermissions & Hmember & Hadmin & _).
    exists view, w', c. split; [reflexivity|]. split; [exact Hstored|].
    rewrite Hpermissions. cbn. by rewrite Hmember, Hadmin.
  - vm_compute in Hrun. discriminate.
Defined.

(** ** [getProject] *)

Section GetProject.
Context `{Externals}.

(** [getProject(projectId)]: [prismaClient.project.findUnique] outside any
    transaction, then the flattening. *)
Definition getProject (projectId : string) : M (option ProjectRead) :=
  rawProject ← tx_project_findUnique projectId;
  match rawProject with
  | None => mret None
  | Some rawProject =>
      view ← liftR (projectPrismaToCrud rawProject);
      mret (Some view)
  end.

Lemma getProject_run projectId w :
  getProject projectId w
  = match loadProject (db w) projectId with
    | None => (Ok None, w)
    | Some rawProject =>
        match projectPrismaToCrud rawProject with
        | Ok view => (Ok (Some view), w)
        | Throw e => (Throw e, w)
        end
    end.
Proof.
  unfold getProject, tx_project_findUnique. run.
  destruct (loadProject (db w) projectId) as [raw|]; [|done].
  run. by destruct (projectPrismaToCrud raw).
Qed.

Lemma countUsers_insert (users : gmap (string * string) value) key v v'
    (projectId : string) :
  users !! key = Some v →
  size (filter (λ kv, kv.1.1 = projectId) (<[key := v']> users))
  = size (filter (λ kv, kv.1.1 = projectId) users).
Proof.
  intros Hkey. rewrite map_filter_insert. case_decide as Hp.
  - apply map_size_insert_Some. exists v.
    by apply map_lookup_filter_Some_2.
  - by rewrite map_filter_delete_not by (intros y _; exact Hp).
Qed.

(** The owner loop rewrites metadata only: the number of users of a project
    stays the same. *)
Lemma linkUsers_countUsers ownerIds newProjectId users (projectId : string) :
  size (filter (λ kv, kv.1.1 = projectId)
               (linkUsers ownerIds newProjectId users).1.2)
  = size (filter (λ kv, kv.1.1 = projectId) users).
Proof.
  revert users. induction ownerIds as [|userId rest IH]; intros users; [done|].
  cbn [linkUsers].
  destruct (users !! ("internal", userId)) as [current|] eqn:Hu.
  - destruct (mergeManagedProjectId current newProjectId) as [merged|e];
      [|done].
    rewrite IH. by eapply countUsers_insert.
  - specialize (IH users).
    by destruct (linkUsers rest newProjectId users) as [[r users'] log].
Qed.

(** X11.  Creating a project does not disturb the others: for every id
    under which [getProject] found a project before a successful
    [createProject], it returns the same view, or throws the same exception,
    afterwards; and the id of the new project is none of these. *)
Theorem createProject_preserves_getProject ownerIds data w view w' projectId :
  createProject ownerIds data w = (Ok view, w') →
  (getProject projectId w).1 ≠ Ok None →
  (getProject projectId w').1 = (getProject projectId w).1
  ∧ projectId ≠ read_id view.
Proof.
  intros Hrun Hfound.
  assert (projectConfigs (db w) !! uuidSource (S (uuidCount w)) = None)
    as Hcfresh.
  { revert Hrun. rewrite createProject_run, createProjectTx_run.
    destruct (provisionGraph data w) as [[project|e] w6] eqn:Hprovision;
      [|done].
    intros _.
    by apply provisionGraph_Ok in Hprovision
      as (? & ? & ? & ? & _ & _ & _ & Hcfresh & _). }
  apply createProject_Ok in Hrun
    as (providers & email & first & _ & _ & _ & Hfresh & _ & Hprojects
        & Hconfigs & Husers & _ & Hview).
  apply projectPrismaToCrud_Ok_inv in Hview
    as (_ & _ & _ & _ & _ & _ & _ & _ & _ & _ & ->).
  cbn [prisma_project project_id projectRowOf pci_id projectCreateInput].
  rewrite !getProject_run in *.
  unfold loadProject in *.
  destruct (projects (db w) !! projectId) as [p|] eqn:Hp; [|done].
  cbn [mbind option_bind] in *.
  destruct (projectConfigs (db w) !! configId p) as [c|] eqn:Hc; [|done].
  cbn [mbind option_bind] in *.
  assert (projectId ≠ uuidSource (uuidCount w)) as Hne by congruence.
  assert (configId p ≠ uuidSource (S (uuidCount w))) as Hcne by congruence.
  split; [|done].
  rewrite Hprojects, lookup_insert_ne, Hp by done. cbn [mbind option_bind].
  rewrite Hconfigs, lookup_insert_ne, Hc by done. cbn [mbind option_bind].
  unfold countUsers. rewrite Husers, linkUsers_countUsers.
  by destruct (projectPrismaToCrud _).
Qed.

(** X12.  Reading a project back: after a successful [createProject],
    [getProject] with the returned id returns the very view that
    [createProject] returned. *)
Theorem createProject_then_getProject ownerIds data w view w' :
  createProject ownerIds data w = (Ok view, w') →
  getProject (read_id view) w' = (Ok (Some view), w').
Proof.
  intros Hrun.
  apply createProject_Ok in Hrun
    as (providers & email & first & _ & _ & _ & _ & _ & Hprojects & Hconfigs
        & _ & _ & Hview).
  pose proof (projectPrismaToCrud_Ok_inv _ _ Hview)
    as (_ & _ & _ & _ & _ & _ & _ & _ & _ & _ & Hid).
  cbn [prisma_project project_id projectRowOf pci_id projectCreateInput] in Hid.
  rewrite getProject_run, Hid. unfold loadProject.
  rewrite Hprojects, lookup_insert_eq. cbn [mbind option_bind configId
                                             projectRowOf].
  rewrite Hconfigs, lookup_insert_eq. cbn [mbind option_bind].
  by rewrite Hview.
Qed.

End GetProject.

(** The store after a first project has been created in [sampleWorld]. *)
Definition populatedWorld : World :=
  (createProject (H := sampleEnv) [] plainRequest sampleWorld).2.

Lemma createProject_preserves_getProject_witness :
  ∃ stored view w',
    (getProject (H := sampleEnv) "uuid-0" populatedWorld).1 = Ok (Some stored)
    ∧ createProject (H := sampleEnv) ["u1"] exampleRequest populatedWorld
      = (Ok view, w')
    ∧ (getProject (H := sampleEnv) "uuid-0" w').1 = Ok (Some stored).
Proof.
  destruct (getProject (H := sampleEnv) "uuid-0" populatedWorld).1
    as [[stored|]|e] eqn:Hstored;
    [|vm_compute in Hstored; discriminate..].
  destruct (createProject (H := sampleEnv) ["u1"] exampleRequest
              populatedWorld) as [[view|e] w'] eqn:Hrun.
  - exists stored, view, w'. split; [reflexivity|]. split; [reflexivity|].
    destruct (createProject_preserves_getProject (H := sampleEnv)
                _ _ _ _ _ "uuid-0" Hrun) as [Hsame _].
    + rewrite Hstored. discriminate.
    + by rewrite Hsame.
  - vm_compute in Hrun. discriminate.
Defined.

Lemma createProject_then_getProject_witness :
  ∃ view w',
    createProject (H := sampleEnv) ["u1"] exampleRequest sampleWorld
    = (Ok view, w')
    ∧ getProject (H := sampleEnv) (read_id view) w' = (Ok (Some view), w').
Proof.
  destruct (createProject (H := sampleEnv) ["u1"] exampleRequest sampleWorld)
    as [[view|e] w'] eqn:Hrun.
  - exists view, w'. split; [reflexivity|].
    exact (createProject_then_getProject (H := sampleEnv) _ _ _ _ _ Hrun).
  - vm_compute in Hrun. discriminate.
Defined.

(** ** [createProject]: all or nothing *)

Section AllOrNothing.
Context `{Externals}.

(** The graph the transaction hands to the flattening is always accepted. *)
Lemma createProjectTx_readable ownerIds data w result w' :
  createProjectTx ownerIds data w = (Ok result, w') →
  ∃ view, projectPrismaToCrud result = Ok view.
Proof.
  rewrite createProjectTx_run.
  destruct (provisionGraph data w) as [[project|e] w6] eqn:Hprovision; [|done].
  apply provisionGraph_Ok in Hprovision
    as (providers & email & authMethods & connected & Hproviders & Hemail
        & _ & _ & Hnodup & Hproject & Hmethods & _ & Hw6).
  rewrite (authMethodCreates_requested data providers) in Hmethods;
    [|done|done|by rewrite Hproject].
  injection Hmethods as <-.
  rewrite Hproject in Hw6 |- *.
  cbn [prisma_project prisma_config project_id projectRowOf pci_id
       projectCreateInput config_id loadConfig configRowOf] in Hw6 |- *.
  cbn zeta.
  destruct (linkUsers ownerIds _ (projectUsers (db w6))) as [[r users'] log].
  cbn [fst snd]. destruct r as [[]|e]; [|done].
  unfold loadProject, afterLinking, setProjectUsers. subst w6.
  cbn [db projects projectConfigs projectUsers fst snd].
  rewrite lookup_insert_eq. cbn [mbind option_bind configId projectRowOf].
  rewrite lookup_insert_eq. cbn [mbind option_bind].
  intros [= <- _].
  apply projectPrismaToCrud_succeeds.
  - cbn [prisma_config loadConfig authMethodConfigs provisionedConfig
         setPermissions setConnectedAccountConfigs setAuthMethodConfigs
         configRowOf].
    intros config Hconfig (p & Hp & Hproxied & Hstandard).
    apply list_elem_of_fmap in Hconfig as (row & -> & Hrow).
    apply elem_of_lookup_imap in Hrow as (i & input & -> & Hinput).
    apply list_elem_of_lookup_2, requestedAuthMethods_connect in Hinput
      as [Hnone|(entry & Hentry & Hsome)];
      cbn [amc_oauthProviderConfig loadAuthMethod amr_oauthProviderConfigId
           authMethodRow] in Hp.
    + by rewrite Hnone in Hp.
    + rewrite Hsome in Hp. cbn [fmap option_fmap option_map snd] in Hp.
      destruct (created_paired data providers Hproviders)
        as [Hpaired Hvariants].
      match type of Hp with
      | loadProvider ?c _ = _ =>
          destruct (loadProvider_requested c _ entry Hpaired Hentry)
            as (p' & Hp' & Hin)
      end.
      rewrite Hp in Hp'. injection Hp' as <-.
      destruct (Hvariants p Hin) as [[? Hv]|[? Hv]]; congruence.
  - exists email. split; [done|]. by eapply emailServiceCreate_variant.
Qed.

(** X13.  [createProject] is all or nothing: whenever it throws, whatever the
    exception and wherever it was raised, the database is exactly as before
    the call.  (The flattening runs after the transaction has committed, but
    it never throws on a graph the transaction produced.) *)
Theorem createProject_all_or_nothing ownerIds data w e w' :
  createProject ownerIds data w = (Throw e, w') → db w' = db w.
Proof.
  rewrite createProject_run.
  destruct (createProjectTx ownerIds data w) as [[result|e0] w1] eqn:Htx.
  - destruct (createProjectTx_readable _ _ _ _ _ Htx) as [view ->]. done.
  - by intros [= _ <-].
Qed.

Lemma linkUsers_same_keys ownerIds newProjectId users key :
  is_Some ((linkUsers ownerIds newProjectId users).1.2 !! key)
  ↔ is_Some (users !! key).
Proof.
  revert users. induction ownerIds as [|userId rest IH]; intros users; [done|].
  cbn [linkUsers].
  destruct (users !! ("internal", userId)) as [current|] eqn:Hu.
  - destruct (mergeManagedProjectId current newProjectId) as [merged|e];
      [|done].
    rewrite IH. destruct (decide (key = ("internal", userId))) as [->|Hne].
    + rewrite lookup_insert_eq, Hu. split; by eexists.
    + by rewrite lookup_insert_ne.
  - specialize (IH users).
    by destruct (linkUsers rest newProjectId users) as [[r users'] log].
Qed.

(** X14.  What a successful [createProject] leaves alone: it adds one project
    row and one configuration row under identifiers that were unused, changes
    no other project or configuration, creates and deletes no user, and
    rewrites the metadata of no user other than the listed owners in the
    internal namespace. *)
Theorem createProject_frame ownerIds data w view w' :
  createProject ownerIds data w = (Ok view, w') →
  projects (db w) !! read_id view = None
  ∧ projectConfigs (db w) !! id (config view) = None
  ∧ is_Some (projects (db w') !! read_id view)
  ∧ is_Some (projectConfigs (db w') !! id (config view))
  ∧ (∀ k, k ≠ read_id view → projects (db w') !! k = projects (db w) !! k)
  ∧ (∀ k, k ≠ id (config view) →
          projectConfigs (db w') !! k = projectConfigs (db w) !! k)
  ∧ (∀ key, is_Some (projectUsers (db w') !! key)
            ↔ is_Some (projectUsers (db w) !! key))
  ∧ (∀ key, (∀ userId, userId ∈ ownerIds → key ≠ ("internal", userId)) →
            projectUsers (db w') !! key = projectUsers (db w) !! key).
Proof.
  intros Hrun.
  assert (projectConfigs (db w) !! uuidSource (S (uuidCount w)) = None)
    as Hcfresh.
  { revert Hrun. rewrite createProject_run, createProjectTx_run.
    destruct (provisionGraph data w) as [[project|e] w6] eqn:Hprovision;
      [|done].
    intros _.
    by apply provisionGraph_Ok in Hprovision
      as (? & ? & ? & ? & _ & _ & _ & Hcfresh & _). }
  apply createProject_Ok in Hrun
    as (providers & email & first & _ & _ & _ & Hfresh & _ & Hprojects
        & Hconfigs & Husers & _ & Hview).
  apply projectPrismaToCrud_Ok_fields in Hview
    as (-> & _ & _ & _ & _ & _ & -> & _).
  cbn [prisma_project prisma_config project_id projectRowOf pci_id
       projectCreateInput config_id loadConfig provisionedConfig setPermissions
       setConnectedAccountConfigs setAuthMethodConfigs configRowOf].
  rewrite Hprojects, Hconfigs, Husers.
  split_and!; try done.
  - rewrite lookup_insert_eq. by eexists.
  - rewrite lookup_insert_eq. by eexists.
  - intros k Hk. by rewrite lookup_insert_ne.
  - intros k Hk. by rewrite lookup_insert_ne.
  - intros key. apply linkUsers_same_keys.
  - intros key Hkey. by apply linkUsers_other.
Qed.

End AllOrNothing.

Lemma createProject_all_or_nothing_witness :
  ∃ e w',
    createProject (H := sampleEnv) ["u1"]
      (requestWith (Some [googleShared; githubStandard None])) sampleWorld
    = (Throw e, w')
    ∧ db w' = db sampleWorld.
Proof.
  destruct (createProject (H := sampleEnv) ["u1"]
              (requestWith (Some [googleShared; githubStandard None]))
              sampleWorld) as [[view|e] w'] eqn:Hrun.
  - vm_compute in Hrun. discriminate.
  - exists e, w'. split; [reflexivity|].
    exact (createProject_all_or_nothing (H := sampleEnv) _ _ _ _ _ Hrun).
Defined.

Lemma createProject_frame_witness :
  ∃ view w',
    createProject (H := sampleEnv) ["u1"] exampleRequest sampleWorld
    = (Ok view, w')
    ∧ projects (db sampleWorld) !! read_id view = None
    ∧ is_Some (projects (db w') !! read_id view)
    ∧ projectUsers (db w') !! ("internal", "u2") = None.
Proof.
  destruct (createProject (H := sampleEnv) ["u1"] exampleRequest sampleWorld)
    as [[view|e] w'] eqn:Hrun.
  - destruct (createProject_frame (H := sampleEnv) _ _ _ _ _ Hrun)
      as (Hfresh & _ & Hadded & _ & _ & _ & _ & Hothers).
    exists view, w'. split; [reflexivity|]. split; [exact Hfresh|].
    split; [exact Hadded|].
    rewrite (Hothers ("internal", "u2")).
    + vm_compute. reflexivity.
    + intros userId Hin. apply list_elem_of_singleton in Hin as ->.
      discriminate.
  - vm_compute in Hrun. discriminate.
Defined.

(** ** The email configuration of a request *)

(** The first field a standard [email_config] lacks, in the order in which
    the code reads them. *)
Definition missingEmailField (email_config : EmailConfigCrud) : option string :=
  match ec_host email_config, ec_port email_config, ec_username email_config,
        ec_password email_config, sender_email email_config,
        sender_name email_config with
  | None, _, _, _, _, _ => Some "host"
  | _, None, _, _, _, _ => Some "port"
  | _, _, None, _, _, _ => Some "username"
  | _, _, _, None, _, _ => Some "password"
  | _, _, _, _, None, _ => Some "sender_email"
  | _, _, _, _, _, None => Some "sender_name"
  | _, _, _, _, _, _ => None
  end.

(** The email configuration a request asks for, as a view shows it. *)
Definition requestedEmail (data : Create.Project) : EmailConfigCrud :=
  match configField data Create.email_config with
  | Some email_config =>
      match ec_type email_config with
      | shared => sharedEmailView
      | standard => email_config
      end
  | None => sharedEmailView
  end.

Section EmailOfRequest.
Context `{Externals}.

Lemma emailServiceCreate_missing data email_config field :
  configField data Create.email_config = Some email_config →
  ec_type email_config = standard →
  missingEmailField email_config = Some field →
  emailServiceCreate data = Throw (throwErr (field +:+ " is required")).
Proof.
  unfold emailServiceCreate, missingEmailField. intros -> -> Hfield.
  destruct (ec_host email_config), (ec_port email_config),
    (ec_username email_config), (ec_password email_config),
    (sender_email email_config), (sender_name email_config);
    by simplify_eq.
Qed.

Lemma emailServiceCreate_readBack data email projectId (cfg : ProjectConfig) :
  emailServiceCreate data = Ok email →
  emailServiceConfig cfg = Some email →
  emailConfigOf projectId cfg = Ok (requestedEmail data).
Proof.
  unfold emailServiceCreate, emailConfigOf, requestedEmail. intros Hemail ->.
  unfold orThrow, mbind, result_bind, rbind, mret, result_ret in Hemail.
  destruct (configField data Create.email_config)
    as [[type h p u pw se sn]|]; [|simplify_eq; reflexivity].
  cbn in *. destruct type; [simplify_eq; reflexivity|].
  destruct h, p, u, pw, se, sn; simplify_eq; reflexivity.
Qed.

(** X15.  A request whose provider entries pass and whose [email_config] is of
    type [standard] but lacks one of host, port, username, password,
    sender_email, sender_name makes [createProject] throw
    [throwErr("<field> is required")] for the first lacking field in that
    order; nothing is written and nothing is recorded. *)
Theorem createProject_incomplete_email ownerIds data w providers email_config
    field :
  oauthProviderCreates data = Ok providers →
  configField data Create.email_config = Some email_config →
  ec_type email_config = standard →
  missingEmailField email_config = Some field →
  ∃ w', createProject ownerIds data w
        = (Throw (throwErr (field +:+ " is required")), w')
        ∧ db w' = db w
        ∧ captured w' = captured w.
Proof.
  intros Hproviders Hconfig Htype Hfield.
  pose proof (emailServiceCreate_missing _ _ _ Hconfig Htype Hfield) as Hemail.
  rewrite createProject_run, createProjectTx_run.
  unfold provisionGraph. run. rewrite Hproviders. run. rewrite Hemail.
  by eexists.
Qed.

(** X16.  The [email_config] of the view returned for a new project is the
    requested one: a standard configuration comes back field for field; a
    shared one, or none at all, comes back as [{type: "shared"}], whatever
    else the request wrote into it. *)
Theorem createProject_view_email ownerIds data w view w' :
  createProject ownerIds data w = (Ok view, w') →
  email_config (config view) = requestedEmail data.
Proof.
  intros Hrun.
  apply createProject_Ok in Hrun
    as (providers & email & first & _ & Hemail & _ & _ & _ & _ & _ & _ & _
        & Hview).
  apply projectPrismaToCrud_Ok_inv in Hview
    as (mapped & email' & _ & Hread & _ & _ & _ & -> & _).
  erewrite emailServiceCreate_readBack in Hread; [|done|done].
  by injection Hread as <-.
Qed.

End EmailOfRequest.

Lemma createProject_incomplete_email_witness :
  ∃ w',
    createProject (H := sampleEnv) ["u1"] (detailedRequest (standardEmail None))
      sampleWorld
    = (Throw (ExternalError "throwErr" "port is required"), w')
    ∧ db w' = db sampleWorld.
Proof.
  assert (oauthProviderCreates (H := sampleEnv)
            (detailedRequest (standardEmail None)) = Ok None) as Hproviders
    by reflexivity.
  assert (configField (detailedRequest (standardEmail None))
            Create.email_config = Some (standardEmail None)) as Hconfig
    by reflexivity.
  assert (missingEmailField (standardEmail None) = Some "port") as Hfield
    by reflexivity.
  destruct (createProject_incomplete_email (H := sampleEnv) ["u1"]
              (detailedRequest (standardEmail None)) sampleWorld None
              (standardEmail None) "port" Hproviders Hconfig eq_refl Hfield)
    as (w' & Hrun & Hdb & _).
  exists w'. split; [exact Hrun|exact Hdb].
Defined.

Lemma createProject_view_email_witness :
  ∃ view w',
    createProject (H := sampleEnv) ["u1"] (detailedRequest (standardEmail (Some 587)))
      sampleWorld = (Ok view, w')
    ∧ email_config (config view) = standardEmail (Some 587).
Proof.
  destruct (createProject (H := sampleEnv) ["u1"]
              (detailedRequest (standardEmail (Some 587))) sampleWorld)
    as [[view|e] w'] eqn:Hrun.
  - exists view, w'. split; [reflexivity|].
    exact (createProject_view_email (H := sampleEnv) _ _ _ _ _ Hrun).
  - vm_compute in Hrun. discriminate.
Defined.

(** ** When [createProject] throws *)

Definition notIterable : exn :=
  TypeError "Spread syntax requires ...iterable[Symbol.iterator] to be a function".

Section Throws.
Context `{Externals}.

Lemma managedBefore_Throw current e :
  managedBefore current = Throw e → e = notIterable.
Proof.
  unfold managedBefore, spreadArray. intros Hthrow.
  repeat case_match; by simplify_eq.
Qed.

Lemma mergeManagedProjectId_Throw current newProjectId e :
  mergeManagedProjectId current newProjectId = Throw e ↔
  managedBefore current = Throw e.
Proof.
  unfold mergeManagedProjectId, managedBefore.
  destruct (spreadArray _) as [managed|e']; [done|].
  cbn. split; by intros [= <-].
Qed.

Lemma managedBefore_merged managed (m : gmap string value) :
  managedBefore (VObj (<["managedProjectIds" := VArr managed]> m)) = Ok managed.
Proof. unfold managedBefore. cbn. by rewrite lookup_insert_eq. Qed.

(** The owner loop throws only at an owner whose metadata, as it was before
    the loop, cannot be spread. *)
Lemma linkUsers_Throw ownerIds newProjectId users e :
  (linkUsers ownerIds newProjectId users).1.1 = Throw e →
  ∃ userId current,
    userId ∈ ownerIds
    ∧ users !! ("internal", userId) = Some current
    ∧ managedBefore current = Throw e.
Proof.
  revert users. induction ownerIds as [|owner rest IH]; intros users; [done|].
  cbn [linkUsers].
  destruct (users !! ("internal", owner)) as [current|] eqn:Howner.
  - destruct (mergeManagedProjectId current newProjectId) as [merged|e']
      eqn:Hmerge.
    + intros Hthrow.
      apply mergeManagedProjectId_Ok in Hmerge as (managed & _ & ->).
      destruct (IH _ Hthrow) as (userId & current' & Hin & Hlookup & Hbefore).
      destruct (decide (owner = userId)) as [->|Hne].
      * rewrite lookup_insert_eq in Hlookup. injection Hlookup as <-.
        by rewrite managedBefore_merged in Hbefore.
      * rewrite lookup_insert_ne in Hlookup by congruence.
        exists userId, current'. split_and!; [by right|done|done].
    + cbn. intros [= <-]. apply mergeManagedProjectId_Throw in Hmerge.
      exists owner, current. split_and!; [by left|done|done].
  - intros Hthrow. destruct (IH users) as (userId & current & Hin & ? & ?).
    { by destruct (linkUsers rest newProjectId users) as [[r users'] log]. }
    exists userId, current. split_and!; [by right|done|done].
Qed.

(** Conversely, one such owner is enough. *)
Lemma linkUsers_unspreadable ownerIds newProjectId users userId current e :
  userId ∈ ownerIds →
  users !! ("internal", userId) = Some current →
  managedBefore current = Throw e →
  (linkUsers ownerIds newProjectId users).1.1 = Throw notIterable.
Proof.
  revert users. induction ownerIds as [|owner rest IH];
    intros users Hin Hlookup Hbefore; [by apply elem_of_nil in Hin|].
  cbn [linkUsers].
  destruct (users !! ("internal", owner)) as [ownerCurrent|] eqn:Howner.
  - destruct (mergeManagedProjectId ownerCurrent newProjectId) as [merged|e']
      eqn:Hmerge.
    + assert (owner ≠ userId) as Hne.
      { intros ->. rewrite Hlookup in Howner. injection Howner as <-.
        apply (mergeManagedProjectId_Throw _ newProjectId) in Hbefore.
        congruence. }
      apply IH; [|by rewrite lookup_insert_ne by congruence|done].
      apply elem_of_cons in Hin as [->|Hin]; done.
    + apply mergeManagedProjectId_Throw, managedBefore_Throw in Hmerge.
      by subst e'.
  - assert (owner ≠ userId) as Hne by congruence.
    specialize (IH users).
    destruct (linkUsers rest newProjectId users) as [[r users'] log].
    apply IH; [|done|done].
    apply elem_of_cons in Hin as [->|Hin]; done.
Qed.

Lemma tx_project_create_Throw data w e w1 :
  tx_project_create data w = (Throw e, w1) →
  ∃ target, e = PrismaError "P2002" target.
Proof.
  unfold tx_project_create. run.
  repeat (case_bool_decide; cbn [negb]); run; intros [= <- _]; by eexists.
Qed.

Lemma tx_project_create_Ok_domains data w project w1 :
  tx_project_create data w = (Ok project, w1) →
  NoDup (map dom_domain (default [] (pci_domains data))).
Proof.
  unfold tx_project_create. run.
  repeat (case_bool_decide; cbn [negb]); run; by intros [= _ _].
Qed.

Lemma requested_domains_NoDup data newId providers email :
  NoDup (map dom_domain
           (default [] (pci_domains (projectCreateInput data newId providers
                                       email))))
  ↔ NoDup (map domain (default [] (configField data Create.domains))).
Proof.
  cbn [pci_domains projectCreateInput].
  destruct (configField data Create.domains) as [items|]; [|done].
  cbn. by rewrite map_map.
Qed.

Lemma requested_ids_NoDup data providers :
  oauthProviderCreates data = Ok providers →
  map opc_id (default [] providers)
  = map op_id (default [] (configField data Create.oauth_providers)).
Proof.
  intros Hproviders.
  destruct (created_paired data providers Hproviders) as [Hpaired _].
  induction Hpaired; cbn; congruence.
Qed.

(** What [provisionGraph] has checked when it returns. *)
Lemma provisionGraph_Ok_provisionable data w project w6 :
  provisionGraph data w = (Ok project, w6) → provisionable data w.
Proof.
  intros Hprovision.
  pose proof (provisionGraph_Ok _ _ _ _ Hprovision)
    as (providers & email & authMethods & connected & Hproviders & Hemail
        & Hfresh & Hcfresh & Hnodup & _).
  rewrite (requested_ids_NoDup _ _ Hproviders) in Hnodup.
  split_and!; [by eexists|by eexists|done| |done|done].
  revert Hprovision. unfold provisionGraph. run. rewrite Hproviders. run.
  rewrite Hemail. run.
  destruct (tx_project_create _ _) as [[project0|e] w1] eqn:Hcreate; [|done].
  intros _. apply tx_project_create_Ok_domains in Hcreate.
  by apply requested_domains_NoDup in Hcreate.
Qed.

(** [provisionGraph] throws only while it checks the provider entries or the
    email configuration, or at a uniqueness constraint of the first write. *)
Lemma provisionGraph_Throw data w e w1 :
  provisionGraph data w = (Throw e, w1) →
  oauthProviderCreates data = Throw e
  ∨ emailServiceCreate data = Throw e
  ∨ ∃ target, e = PrismaError "P2002" target.
Proof.
  intros Hthrow.
  destruct (oauthProviderCreates data) as [providers|e0] eqn:Hproviders.
  2:{ rewrite (provisionGraph_rejected data w e0 Hproviders) in Hthrow.
      left. congruence. }
  destruct (emailServiceCreate data) as [email|e0] eqn:Hemail.
  2:{ revert Hthrow. unfold provisionGraph. run. rewrite Hproviders. run.
      rewrite Hemail. intros [= <- _]. by right; left. }
  right; right.
  destruct (tx_project_create
              (projectCreateInput data (uuidSource (uuidCount w)) providers
                 email)
              {| db := db w; uuidCount := S (uuidCount w); clock := clock w;
                 captured := captured w |})
    as [[project0|e0] w0] eqn:Hcreate.
  - pose proof (tx_project_create_Ok_domains _ _ _ _ Hcreate) as Hdomains.
    apply requested_domains_NoDup in Hdomains.
    apply tx_project_create_Ok in Hcreate as (Hfresh & Hcfresh & Hnodup & _).
    cbn [oauthProviderConfigs configRowOf pci_oauthProviderConfigs
         projectCreateInput pci_id db uuidCount] in Hfresh, Hcfresh, Hnodup.
    rewrite (requested_ids_NoDup _ _ Hproviders) in Hnodup.
    destruct (provisionGraph_succeeds data w providers email)
      as (project & w6 & Hprovision); try done.
    congruence.
  - apply tx_project_create_Throw in Hcreate as Htarget.
    revert Hthrow. unfold provisionGraph. run. rewrite Hproviders. run.
    rewrite Hemail. run. rewrite Hcreate. by intros [= <- _].
Qed.

(** X17.  [createProject] returns a view exactly when the request passes the
    provider and email checks, the requested provider ids and the requested
    domains are pairwise distinct, the two identifiers drawn first are unused,
    and every listed owner who has a row has a [managedProjectIds] that can
    be spread.  Owners without a row never matter. *)
Theorem createProject_returns_iff ownerIds data w :
  (∃ view w', createProject ownerIds data w = (Ok view, w'))
  ↔ provisionable data w ∧ spreadableOwners ownerIds w.
Proof.
  split; [|intros [? ?]; by apply createProject_succeeds].
  intros (view & w' & Hrun).
  pose proof (createProject_Ok _ _ _ _ _ Hrun)
    as (_ & _ & _ & _ & _ & _ & _ & Hlinked & _).
  revert Hrun. rewrite createProject_run, createProjectTx_run.
  destruct (provisionGraph data w) as [[project|e] w6] eqn:Hprovision; [|done].
  intros _. split; [by eapply provisionGraph_Ok_provisionable|].
  intros userId current Hin Hlookup.
  destruct (managedBefore current) as [managed|e] eqn:Hbefore; [by eexists|].
  rewrite (linkUsers_unspreadable _ _ _ _ _ _ Hin Hlookup Hbefore) in Hlinked.
  done.
Qed.

(** X18.  Every exception of [createProject] comes from one of four places:
    the check of a provider entry, the check of the email configuration, a
    uniqueness constraint of the first write, or the array spread of an
    existing owner's [managedProjectIds].  The lookups that follow the first
    write always find what they look for. *)
Theorem createProject_throws_only ownerIds data w e w' :
  createProject ownerIds data w = (Throw e, w') →
  oauthProviderCreates data = Throw e
  ∨ emailServiceCreate data = Throw e
  ∨ (∃ target, e = PrismaError "P2002" target)
  ∨ (e = notIterable
     ∧ ∃ userId current,
         userId ∈ ownerIds
         ∧ projectUsers (db w) !! ("internal", userId) = Some current
         ∧ managedBefore current = Throw e).
Proof.
  rewrite createProject_run.
  destruct (createProjectTx ownerIds data w) as [[result|e0] w1] eqn:Htx.
  { destruct (createProjectTx_readable _ _ _ _ _ Htx) as [view ->]. done. }
  intros [= <- _]. revert Htx. rewrite createProjectTx_run.
  destruct (provisionGraph data w) as [[project|e] w6] eqn:Hprovision.
  2:{ intros [= <- _].
      destruct (provisionGraph_Throw _ _ _ _ Hprovision) as [?|[?|?]]; eauto. }
  apply provisionGraph_Ok in Hprovision
    as (providers & email & authMethods & connected & _ & _ & _ & _ & _
        & Hproject & _ & _ & Hw6).
  assert (projectUsers (db w6) = projectUsers (db w)) as -> by by subst w6.
  rewrite Hproject.
  cbn [prisma_project project_id projectRowOf pci_id projectCreateInput].
  cbn zeta.
  pose proof (linkUsers_Throw ownerIds (uuidSource (uuidCount w))
                (projectUsers (db w))) as Hlinked.
  destruct (linkUsers ownerIds _ (projectUsers (db w))) as [[r users'] log].
  cbn [fst snd] in *. destruct r as [[]|e].
  - unfold loadProject, afterLinking, setProjectUsers. subst w6.
    cbn [db projects projectConfigs projectUsers fst snd].
    rewrite lookup_insert_eq. cbn [mbind option_bind configId projectRowOf].
    rewrite lookup_insert_eq. cbn [mbind option_bind]. done.
  - intros [= <- _].
    destruct (Hlinked e eq_refl) as (userId & current & Hin & Hlookup & Hbefore).
    right; right; right.
    split; [by eapply managedBefore_Throw|by exists userId, current].
Qed.

End Throws.

Lemma createProject_returns_iff_witness :
  ∃ view w',
    createProject (H := sampleEnv) ["u1"] exampleRequest sampleWorld
    = (Ok view, w').
Proof.
  apply (createProject_returns_iff (H := sampleEnv)).
  split; [exact sample_provisionable|exact sample_spreadableOwners].
Defined.

(** A store whose one user has a [managedProjectIds] that is a number. *)
Definition brokenWorld : World :=
  {| db := {| projects := ∅;
              projectConfigs := ∅;
              projectUsers :=
                {[ ("internal", "u1") :=
                     VObj {[ "managedProjectIds" := VNum 3 ]} ]} |};
     uuidCount := 0;
     clock := 1700000000000;
     captured := [] |}.

Lemma createProject_throws_only_witness :
  ∃ w',
    createProject (H := sampleEnv) ["u1"] plainRequest brokenWorld
    = (Throw notIterable, w').
Proof.
  destruct (createProject (H := sampleEnv) ["u1"] plainRequest brokenWorld)
    as [[view|e] w'] eqn:Hrun.
  - vm_compute in Hrun. discriminate.
  - destruct (createProject_throws_only (H := sampleEnv) _ _ _ _ _ Hrun)
      as [Hproviders|[Hemail|[[target ->]|[-> _]]]].
    + vm_compute in Hproviders. discriminate.
    + vm_compute in Hemail. discriminate.
    + vm_compute in Hrun. discriminate.
    + by exists w'.
Defined.

(** ** The owners, read back *)

Section OwnersReadBack.
Context `{Externals}.

Lemma listManagedProjectIds_Ok current ids :
  listManagedProjectIds {| server_metadata := current |} = Ok ids →
  ∃ managed,
    ids = VArr managed
    ∧ forallb isString managed = true
    ∧ managedBefore current = Ok managed.
Proof.
  unfold listManagedProjectIds, managedBefore. cbn [server_metadata].
  destruct current as [| | | | |l|m]; try done.
  - cbn. rewrite lookup_empty. cbn. intros [= <-]. by exists [].
  - cbn. intros [= <-]. by exists [].
  - cbn [typeof String.eqb negb coalesce nullish].
    destruct (coalesce (getProp (VObj m) "managedProjectIds") (VArr []))
      as [| | | | |managed|]; try done.
    cbn. destruct (forallb isString managed) eqn:Hall; [|done].
    intros [= <-]. by exists managed.
Qed.

(** X19.  An owner's projects, listed again: if [listManagedProjectIds]
    accepts an owner's metadata before a successful [createProject], it
    accepts the metadata stored afterwards, and returns the former list
    followed by the id of the new project, once for every time the owner is
    named in the owner list. *)
Theorem createProject_then_listManagedProjectIds ownerIds data w view w'
    userId current managed :
  createProject ownerIds data w = (Ok view, w') →
  projectUsers (db w) !! ("internal", userId) = Some current →
  listManagedProjectIds {| server_metadata := current |} = Ok (VArr managed) →
  ∃ merged,
    projectUsers (db w') !! ("internal", userId) = Some merged
    ∧ listManagedProjectIds {| server_metadata := merged |}
      = Ok (VArr (managed
                  ++ replicate (count_occ string_dec ownerIds userId)
                       (VStr (read_id view)))).
Proof.
  intros Hrun Hcurrent Hlist.
  apply createProject_Ok in Hrun
    as (providers & email & first & _ & _ & _ & _ & Hlinked & _ & _ & Husers
        & _ & Hview).
  apply projectPrismaToCrud_Ok_inv in Hview
    as (_ & _ & _ & _ & _ & _ & _ & _ & _ & _ & ->).
  cbn [prisma_project project_id projectRowOf pci_id projectCreateInput].
  rewrite Husers.
  destruct (linkUsers ownerIds _ (projectUsers (db w))) as [[r users'] log]
    eqn:Hlink.
  cbn [fst snd] in *. subst r.
  destruct (linkUsers_metadata _ _ _ _ _ _ _ Hlink Hcurrent)
    as (merged & Hmerged & Hmeta).
  exists merged. split; [done|].
  destruct (count_occ string_dec ownerIds userId) as [|times];
    cbn [linkedMetadata] in Hmeta.
  - subst merged. cbn [replicate]. by rewrite app_nil_r.
  - destruct Hmeta as (managed' & m & Hbefore & -> & Hkey & _).
    apply listManagedProjectIds_Ok in Hlist
      as (managed0 & [= <-] & Hstrings & Hbefore0).
    rewrite Hbefore in Hbefore0. injection Hbefore0 as ->.
    unfold listManagedProjectIds. cbn [server_metadata typeof getProp].
    rewrite Hkey. cbn.
    rewrite forallb_app, Hstrings.
    assert (forallb isString
              (VStr (uuidSource (uuidCount w))
               :: replicate times (VStr (uuidSource (uuidCount w)))) = true)
      as ->; [|done].
    cbn. clear. induction times as [|times IH]; [done|]. by cbn.
Qed.

End OwnersReadBack.

Lemma createProject_then_listManagedProjectIds_witness :
  ∃ view w' merged,
    createProject (H := sampleEnv) ["u1"] exampleRequest sampleWorld
    = (Ok view, w')
    ∧ projectUsers (db w') !! ("internal", "u1") = Some merged
    ∧ listManagedProjectIds {| server_metadata := merged |}
      = Ok (VArr [VStr "p0"; VStr (read_id view)]).
Proof.
  assert (projectUsers (db sampleWorld) !! ("internal", "u1")
          = Some (VObj {[ "managedProjectIds" := VArr [VStr "p0"];
                          "theme" := VStr "dark" ]})) as Hcurrent
    by (vm_compute; reflexivity).
  assert (listManagedProjectIds
            {| server_metadata :=
                 VObj {[ "managedProjectIds" := VArr [VStr "p0"];
                         "theme" := VStr "dark" ]} |}
          = Ok (VArr [VStr "p0"])) as Hlist
    by (vm_compute; reflexivity).
  destruct (createProject (H := sampleEnv) ["u1"] exampleRequest sampleWorld)
    as [[view|e] w'] eqn:Hrun.
  - destruct (createProject_then_listManagedProjectIds (H := sampleEnv)
                _ _ _ _ _ "u1" _ _ Hrun Hcurrent Hlist)
      as (merged & Hmerged & Hlisted).
    exists view, w', merged. split; [reflexivity|]. split; [exact Hmerged|].
    exact Hlisted.
  - vm_compute in Hrun. discriminate.
Defined.

(** ** The anomalies recorded for missing owners *)

Section Anomalies.
Context `{Externals}.

Lemma linkUsers_log ownerIds newProjectId users :
  (linkUsers ownerIds newProjectId users).1.1 = Ok () →
  (linkUsers ownerIds newProjectId users).2
  = map anomaly
      (List.filter (λ userId, bool_decide (users !! ("internal", userId) = None))
                   ownerIds).
Proof.
  revert users. induction ownerIds as [|owner rest IH]; intros users; [done|].
  cbn [linkUsers List.filter].
  destruct (users !! ("internal", owner)) as [current|] eqn:Howner.
  - rewrite bool_decide_eq_false_2 by done.
    destruct (mergeManagedProjectId current newProjectId) as [merged|e];
      [|done].
    intros Hlinked. rewrite (IH _ Hlinked). f_equal.
    apply filter_ext. intros userId.
    destruct (decide (owner = userId)) as [->|Hne].
    + rewrite lookup_insert_eq, Howner. by rewrite !bool_decide_eq_false_2.
    + by rewrite lookup_insert_ne by congruence.
  - rewrite bool_decide_eq_true_2 by done.
    specialize (IH users).
    destruct (linkUsers rest newProjectId users) as [[r users'] log].
    cbn [fst snd map] in *. intros Hlinked. by rewrite IH.
Qed.

(** X20.  What a successful [createProject] records through [captureError]:
    one owner-not-found anomaly for every entry of the owner list that has no
    row in the internal namespace, in the order of the list, and nothing
    else. *)
Theorem createProject_anomalies ownerIds data w view w' :
  createProject ownerIds data w = (Ok view, w') →
  captured w'
  = captured w
    ++ map anomaly
         (List.filter
            (λ userId,
               bool_decide (projectUsers (db w) !! ("internal", userId) = None))
            ownerIds).
Proof.
  intros Hrun.
  apply createProject_Ok in Hrun
    as (providers & email & first & _ & _ & _ & _ & Hlinked & _ & _ & _
        & -> & _).
  by rewrite (linkUsers_log _ _ _ Hlinked).
Qed.

End Anomalies.

Lemma createProject_anomalies_witness :
  ∃ view w',
    createProject (H := sampleEnv) ["ghost"; "u1"; "ghost"] exampleRequest
      sampleWorld = (Ok view, w')
    ∧ captured w' = [anomaly "ghost"; anomaly "ghost"].
Proof.
  destruct (createProject (H := sampleEnv) ["ghost"; "u1"; "ghost"]
              exampleRequest sampleWorld) as [[view|e] w'] eqn:Hrun.
  - exists view, w'. split; [reflexivity|].
    rewrite (createProject_anomalies (H := sampleEnv) _ _ _ _ _ Hrun).
    vm_compute. reflexivity.
  - vm_compute in Hrun. discriminate.
Defined.


(** ** The lists of a view are complete *)

Section ListsComplete.
Context `{Externals}.

(** X21.  Sorting loses nothing: in the view of an accepted graph, [domains]
    is a rearrangement of the graph's domains, and each default-permission
    list is a rearrangement of the public ids of the permissions flagged for
    that role followed by those of the role's default system permissions. *)
Theorem projectPrismaToCrud_lists_complete prisma view :
  projectPrismaToCrud prisma = Ok view →
  let cfg := prisma_config prisma in
  read_domains (config view)
  ≡ₚ map (λ d, {| domain := dom_domain d; handler_path := handlerPath d |})
         (domains cfg)
  ∧ team_creator_default_permissions (config view)
    ≡ₚ map (λ p, tpd_id (teamPermissionDefinitionJsonFromDbType p))
           (List.filter isDefaultTeamCreatorPermission (permissions cfg))
       ++ map (λ p, tpd_id (teamPermissionDefinitionJsonFromTeamSystemDbType p))
              (teamCreateDefaultSystemPermissions cfg)
  ∧ team_member_default_permissions (config view)
    ≡ₚ map (λ p, tpd_id (teamPermissionDefinitionJsonFromDbType p))
           (List.filter isDefaultTeamMemberPermission (permissions cfg))
       ++ map (λ p, tpd_id (teamPermissionDefinitionJsonFromTeamSystemDbType p))
              (teamMemberDefaultSystemPermissions cfg).
Proof.
  intros Hview.
  apply projectPrismaToCrud_Ok_inv in Hview
    as (_ & _ & _ & _ & _ & _ & -> & _ & -> & -> & _).
  cbn zeta. unfold defaultPermissions.
  split_and!; [apply sort_Permutation|..];
    rewrite <- (map_map teamPermissionDefinitionJsonFromDbType tpd_id),
      <- (map_map teamPermissionDefinitionJsonFromTeamSystemDbType tpd_id),
      <- map_app;
    apply Permutation_map, sort_Permutation.
Qed.

End ListsComplete.

Lemma projectPrismaToCrud_lists_complete_witness :
  ∃ view,
    projectPrismaToCrud (H := sampleEnv) exampleGraph = Ok view
    ∧ length (read_domains (config view)) = 2%nat
    ∧ length (team_creator_default_permissions (config view)) = 2%nat.
Proof.
  destruct (projectPrismaToCrud (H := sampleEnv) exampleGraph)
    as [view|e] eqn:Hview.
  - destruct (projectPrismaToCrud_lists_complete (H := sampleEnv) _ _ Hview)
      as (Hdomains & Hcreator & _).
    exists view. split; [reflexivity|].
    rewrite (Permutation_length Hdomains), (Permutation_length Hcreator).
    split; reflexivity.
  - vm_compute in Hview. discriminate.
Defined.
